(** * CodeReview-C: the rule engine and its rules, embedded in Rocq

    A shallow embedding of the Python sources
      - [rules/base_rule.py]   (Severity, RuleReference, Issue, BaseRule and
                                its dictionary form, the parent walks of
                                ASTRule),
      - [core/parser.py]       (CodeParser: the tree queries, parse_file and
                                parse_project),
      - [rules/logic_rules.py] (AssignmentInConditionRule,
                                SwitchFallthroughRule, UnusedVariableRule,
                                FunctionReturnRule, DivisionByZeroRule),
      - [rules/memory_rules.py] (ArrayBoundsRule, NullPointerRule,
                                MemoryLeakRule, BufferOverflowRule,
                                UseAfterFreeRule),
      - [core/rule_engine.py]  (RuleEngine),
    followed by the properties of the specification that concern them and
    by further properties of the same code.

    Conventions of the embedding.
      - A Python [str] is a [string] with one character at each position,
        as [content[a:b]] indexes it; the embedding has the characters up
        to U+00FF.  The string constants of the sources (the messages) are
        kept as their UTF-8 bytes: they are only concatenated.
      - A Python [int] is a [Z]; tree-sitter's unsigned rows, columns and
        byte offsets are [nat].  The offsets count the bytes of the UTF-8
        encoding of the text ([parse_file] hands tree-sitter
        [bytes(content, 'utf8')]), so they are positions of the text only
        as far as the characters before them are ASCII.
      - A call that may raise returns a [Result]; [try]/[except] is
        [try_except] ([tryM] in the engine).  Only exceptions deriving from
        [Exception] are modelled.
      - A tree-sitter node object is a [NodeRef]: the node together with the
        chain of its ancestors, which is what [node.parent] walks.
      - Methods of the engine run in the monad [M] over the engine's state
        (the rule list, the templates, the JSON files it reads and writes).
      - Console output ([print]) is not modelled. *)

From Stdlib Require Import ZArith List String Ascii Bool Lia DecimalString.
From stdpp Require Import gmap strings list.
Import ListNotations.

Open Scope string_scope.
Open Scope Z_scope.

(** ** Python primitives *)

Module Py.

(** Exceptions (all of them subclasses of [Exception]). *)
Inductive Exc : Type :=
| ValueError
| KeyError
| IndexError
| AttributeError
| TypeError
| FileNotFoundError
| OtherException (name : string).

Inductive Result (A : Type) : Type :=
| Ok (a : A)
| Raise (e : Exc).
Arguments Ok {A} a.
Arguments Raise {A} e.

Definition bind {A B : Type} (m : Result A) (k : A -> Result B) : Result B :=
  match m with
  | Ok a => k a
  | Raise e => Raise e
  end.

(** [try: body except E as e: handler e], where [catches] tells the
    exceptions of class [E]. *)
Definition try_except {A : Type} (body : Result A) (catches : Exc -> bool)
  (handler : Exc -> Result A) : Result A :=
  match body with
  | Ok a => Ok a
  | Raise e => if catches e then handler e else Raise e
  end.

Definition is_ValueError (e : Exc) : bool :=
  match e with
  | ValueError => true
  | _ => false
  end.

Declare Scope py_scope.
Delimit Scope py_scope with py.
Notation "x <- c1 ;; c2" := (bind c1 (fun x => c2))
  (at level 100, c1 at next level, right associativity) : py_scope.

(** [for x in l: out.append(f(x))], stopping at the first exception. *)
Fixpoint for_append {A B : Type} (f : A -> Result B) (l : list A)
  : Result (list B) :=
  match l with
  | [] => Ok []
  | x :: l' =>
      bind (f x) (fun y => bind (for_append f l') (fun ys => Ok (y :: ys)))
  end.

(** [for x in l: out.extend(f(x))] (or zero or one [append] per turn). *)
Fixpoint for_extend {A B : Type} (f : A -> Result (list B)) (l : list A)
  : Result (list B) :=
  match l with
  | [] => Ok []
  | x :: l' =>
      bind (f x) (fun ys => bind (for_extend f l') (fun zs => Ok (ys ++ zs)%list))
  end.

(** [for x in l: if f(x): return True] followed by [return False]. *)
Fixpoint for_any {A : Type} (f : A -> Result bool) (l : list A) : Result bool :=
  match l with
  | [] => Ok false
  | x :: l' => bind (f x) (fun b => if b then Ok true else for_any f l')
  end.

(** [range(a, b)]. *)
Definition range (a b : Z) : list Z :=
  map (fun k => a + Z.of_nat k) (seq 0 (Z.to_nat (b - a))).

(** [l[i]] for a list: negative indices count from the end. *)
Definition list_get {A : Type} (l : list A) (i : Z) : Result A :=
  let n := Z.of_nat (length l) in
  let j := if i <? 0 then i + n else i in
  if (0 <=? j) && (j <? n)
  then match nth_error l (Z.to_nat j) with
       | Some x => Ok x
       | None => Raise IndexError
       end
  else Raise IndexError.

(** [x in l] for a list of strings. *)
Definition str_list_mem (x : string) (l : list string) : bool :=
  existsb (String.eqb x) l.

(** [sub in s] for strings. *)
Fixpoint str_in (sub s : string) : bool :=
  String.prefix sub s ||
  match s with
  | EmptyString => false
  | String _ s' => str_in sub s'
  end.

(** [s[a:b]] for [0 <= a], [0 <= b]. *)
Definition slice (s : string) (a b : nat) : string :=
  String.substring a (b - a) s.

Definition nl : string := String (ascii_of_nat 10) EmptyString.

(** [sep.join(l)]. *)
Definition join (sep : string) (l : list string) : string :=
  String.concat sep l.

(** [s.split(sep)] for a one-character separator. *)
Fixpoint split (sep : ascii) (s : string) : list string :=
  match s with
  | EmptyString => [EmptyString]
  | String c s' =>
      let r := split sep s' in
      if Ascii.eqb c sep then EmptyString :: r
      else match r with
           | h :: t => String c h :: t
           | [] => [String c EmptyString]
           end
  end.

(** [c.isspace()] for the characters up to U+00FF. *)
Definition isspace (c : ascii) : bool :=
  let n := nat_of_ascii c in
  ((9 <=? n) && (n <=? 13) || (28 <=? n) && (n <=? 32)
   || (n =? 133) || (n =? 160))%nat.

Fixpoint lstrip (s : string) : string :=
  match s with
  | EmptyString => EmptyString
  | String c s' => if isspace c then lstrip s' else s
  end.

Fixpoint rstrip (s : string) : string :=
  match s with
  | EmptyString => EmptyString
  | String c s' =>
      match rstrip s' with
      | EmptyString => if isspace c then EmptyString else String c EmptyString
      | r => String c r
      end
  end.

(** [s.strip()]. *)
Definition strip (s : string) : string := rstrip (lstrip s).

(** [c.lower()] for the characters up to U+00FF: A-Z and the accented
    capitals U+00C0..U+00DE (U+00D7, the multiplication sign, apart). *)
Definition lower_char (c : ascii) : ascii :=
  let n := nat_of_ascii c in
  if ((65 <=? n) && (n <=? 90)
      || (192 <=? n) && (n <=? 222) && negb (n =? 215))%nat
  then ascii_of_nat (n + 32) else c.

Fixpoint lower (s : string) : string :=
  match s with
  | EmptyString => EmptyString
  | String c s' => String (lower_char c) (lower s')
  end.

Definition is_digit (c : ascii) : bool :=
  let n := nat_of_ascii c in ((48 <=? n) && (n <=? 57))%nat.

Definition digit_value (c : ascii) : Z := Z.of_nat (nat_of_ascii c) - 48.

(** The digits of an integer literal as [int()] reads them: decimal digits,
    single underscores allowed between two digits. *)
Fixpoint digits_value (s : string) (acc : Z) (after_underscore : bool)
  : option Z :=
  match s with
  | EmptyString => if after_underscore then None else Some acc
  | String c s' =>
      if is_digit c then digits_value s' (10 * acc + digit_value c) false
      else if Ascii.eqb c "_"%char
           then (if after_underscore then None else digits_value s' acc true)
           else None
  end.

Definition unsigned_value (s : string) : option Z :=
  match s with
  | EmptyString => None
  | String c _ => if is_digit c then digits_value s 0 false else None
  end.

(** The number of digits of a text. *)
Fixpoint count_digits (s : string) : Z :=
  match s with
  | EmptyString => 0
  | String c s' => (if is_digit c then 1 else 0) + count_digits s'
  end.

(** [sys.get_int_max_str_digits()], as the interpreter starts. *)
Definition int_max_str_digits : Z := 4300.

(** [int(text)]: surrounding white space, an optional sign, decimal digits,
    no more of them than the interpreter's limit; [ValueError]
    otherwise. *)
Definition int (text : string) : Result Z :=
  let t := strip text in
  let r :=
    match t with
    | String "-"%char t' => option_map Z.opp (unsigned_value t')
    | String "+"%char t' => unsigned_value t'
    | _ => unsigned_value t
    end in
  match r with
  | Some v =>
      if int_max_str_digits <? count_digits t then Raise ValueError else Ok v
  | None => Raise ValueError
  end.


(** [str(n)] for an integer. *)
Definition str_of_int (n : Z) : string := NilZero.string_of_int (Z.to_int n).

Fixpoint spaces (n : nat) : string :=
  match n with
  | O => EmptyString
  | S n' => String " "%char (spaces n')
  end.

(** [f"{n:4d}"]: decimal, right-aligned in a field of four characters. *)
Definition format_4d (n : Z) : string :=
  let s := str_of_int n in
  spaces (4 - String.length s)%nat ++ s.

(** [d[k]] for a dictionary: [KeyError] when the key is missing. *)
Definition dict_get {V : Type} (d : gmap string V) (k : string) : Result V :=
  match d !! k with
  | Some v => Ok v
  | None => Raise KeyError
  end.

(** [for x in l: state = body(state, x)], stopping at the first
    exception. *)
Fixpoint for_fold {A S : Type} (body : S -> A -> Result S) (l : list A)
  (s : S) : Result S :=
  match l with
  | [] => Ok s
  | x :: l' => bind (body s x) (for_fold body l')
  end.

(** [len(l)]. *)
Definition len {A : Type} (l : list A) : Z := Z.of_nat (length l).

(** [c.upper()] for the ASCII letters; the other characters are kept (the
    sources compare the result with ASCII texts only). *)
Definition upper_char (c : ascii) : ascii :=
  let n := nat_of_ascii c in
  if ((97 <=? n) && (n <=? 122))%nat then ascii_of_nat (n - 32) else c.

Fixpoint upper (s : string) : string :=
  match s with
  | EmptyString => EmptyString
  | String c s' => String (upper_char c) (upper s')
  end.

End Py.

(** JSON values: what a rule's [config] holds and what [json.dump] writes. *)
Unset Elimination Schemes.
Inductive Json : Type :=
| JNull
| JBool (b : bool)
| JInt (n : Z)
| JStr (s : string)
| JList (l : list Json)
| JDict (kvs : list (string * Json)).
Set Elimination Schemes.

(** ** tree-sitter nodes *)

Module tree_sitter.

(** The node as the parser built it: grammar symbol, span, children. *)
Unset Elimination Schemes.
Inductive Node : Type := mkNode {
  type : string;
  start_byte : nat;
  end_byte : nat;
  start_point : nat * nat;   (* (row, column), both 0-based *)
  end_point : nat * nat;
  children : list Node
}.
Set Elimination Schemes.

(** The node object a rule holds: the node and its ancestors, nearest
    first (empty for the root of the tree). *)
Record NodeRef : Type := mkRef {
  node : Node;
  ancestors : list Node
}.

(** [n.parent] ([None] at the root). *)
Definition parent (n : NodeRef) : option NodeRef :=
  match ancestors n with
  | [] => None
  | p :: above => Some (mkRef p above)
  end.

(** [n.children], as node objects. *)
Definition children_of (n : NodeRef) : list NodeRef :=
  map (fun c => mkRef c (node n :: ancestors n)) (children (node n)).

Definition type_of (n : NodeRef) : string := type (node n).
Definition row_of (n : NodeRef) : nat := fst (start_point (node n)).
Definition column_of (n : NodeRef) : nat := snd (start_point (node n)).

End tree_sitter.

(** ** core/parser.py: the tree queries of CodeParser *)

Module parser.
Import tree_sitter.

(** What [parse_file] returns for one file. *)
Record FileInfo : Type := mkFileInfo {
  path : string;
  content : string;
  root_node : NodeRef;
  lines : list string;
  line_count : nat;
  encoding : string
}.

(** [get_node_text]: [content[node.start_byte:node.end_byte]]. *)
Definition get_node_text (n : NodeRef) (content : string) : string :=
  Py.slice content (start_byte (node n)) (end_byte (node n)).

(** The inner [traverse] of [find_nodes_by_type]: pre-order, the node
    itself first, then its children from left to right. *)
Fixpoint traverse (node_type : string) (above : list Node) (n : Node)
  {struct n} : list NodeRef :=
  ((if String.eqb (type n) node_type then [mkRef n above] else []) ++
   flat_map (traverse node_type (n :: above)) (children n))%list.

Definition find_nodes_by_type (root : NodeRef) (node_type : string)
  : list NodeRef :=
  traverse node_type (ancestors root) (node root).

(** *** The other queries *)

(** An entry of [find_function_definitions]. *)
Record FunctionInfo : Type := mkFunctionInfo {
  fn_node : NodeRef;
  fn_name_node : NodeRef;
  fn_declarator : NodeRef;
  fn_start_line : Z;
  fn_end_line : Z
}.

(** The body of the loop of [find_function_definitions]: the first child
    that is a function declarator, and its first child that is an
    identifier; no entry when one of them is missing. *)
Definition function_entry (func_node : NodeRef) : option FunctionInfo :=
  match List.find (fun child => String.eqb (type_of child) "function_declarator")
                  (children_of func_node) with
  | Some declarator =>
      match List.find (fun child => String.eqb (type_of child) "identifier")
                      (children_of declarator) with
      | Some func_name =>
          Some (mkFunctionInfo
                  func_node func_name declarator
                  (Z.of_nat (fst (start_point (node func_node))) + 1)
                  (Z.of_nat (fst (end_point (node func_node))) + 1))
      | None => None
      end
  | None => None
  end.

(** [find_function_definitions]. *)
Definition find_function_definitions (root_node : NodeRef)
  : list FunctionInfo :=
  omap function_entry (find_nodes_by_type root_node "function_definition").

(** An entry of [find_variable_declarations]. *)
Record VariableInfo : Type := mkVariableInfo {
  var_node : NodeRef;
  var_name_node : NodeRef;
  var_line : Z
}.

(** The entries of one declaration: one for every identifier child of
    every init declarator child. *)
Definition variable_entries (decl_node : NodeRef) : list VariableInfo :=
  flat_map
    (fun child =>
       if String.eqb (type_of child) "init_declarator" then
         flat_map
           (fun grandchild =>
              if String.eqb (type_of grandchild) "identifier"
              then [mkVariableInfo
                      decl_node grandchild
                      (Z.of_nat (fst (start_point (node decl_node))) + 1)]
              else [])
           (children_of child)
       else [])
    (children_of decl_node).

(** [find_variable_declarations]. *)
Definition find_variable_declarations (root_node : NodeRef)
  : list VariableInfo :=
  flat_map variable_entries (find_nodes_by_type root_node "declaration").

(** *** Reading and parsing files

    The attributes of the [CodeParser] object that change, and, as the
    section's variables, what lies outside the program: what
    [detect_encoding] and [read_file_content] return for a path (chardet
    and the file system), the tree tree-sitter builds for a text (or the
    exception of the [try] block), and the paths [find_c_files] finds
    below a directory. *)

Record CodeParser : Type := mkCodeParser {
  file_count : Z;
  parsed_files : list FileInfo
}.

Section Files.

Variable detect_encoding : string -> string.
Variable read_file_content : string -> option string.
Variable tree_of : string -> Py.Result Node.
Variable find_c_files : string -> list string.

(** [parse_file]; [None] for a file that cannot be read, an empty file
    and a file whose parse raises. *)
Definition parse_file (file_path : string) (self : CodeParser)
  : CodeParser * option FileInfo :=
  match read_file_content file_path with
  | None => (self, None)
  | Some content =>
      if String.eqb content "" then (self, None)
      else
        match tree_of content with
        | Py.Ok root =>
            let file_info :=
              mkFileInfo file_path content (mkRef root [])
                         (Py.split (ascii_of_nat 10) content)
                         (length (Py.split (ascii_of_nat 10) content))
                         (detect_encoding file_path) in
            (mkCodeParser (file_count self + 1)
                          (parsed_files self ++ [file_info])%list,
             Some file_info)
        | Py.Raise _ => (self, None)
        end
  end.

(** The loop of [parse_project]. *)
Fixpoint parse_files (c_files : list string) (self : CodeParser)
  : CodeParser * list FileInfo :=
  match c_files with
  | [] => (self, [])
  | file_path :: rest =>
      let '(self, result) := parse_file file_path self in
      let '(self, parsed_results) := parse_files rest self in
      (self,
       match result with
       | Some file_info => file_info :: parsed_results
       | None => parsed_results
       end)
  end.

(** [parse_project]. *)
Definition parse_project (project_path : string) (self : CodeParser)
  : CodeParser * list FileInfo :=
  parse_files (find_c_files project_path) self.

End Files.

End parser.

(** ** rules/base_rule.py *)

Module base_rule.
Import Py tree_sitter parser.
Local Open Scope py_scope.

Inductive Severity : Type := CRITICAL | WARNING | SUGGESTION.

(** [Severity.X.value]. *)
Definition value (s : Severity) : string :=
  match s with
  | CRITICAL => "严重"
  | WARNING => "警告"
  | SUGGESTION => "建议"
  end.

(** [Severity(v)]: look-up by value, [ValueError] when no member has it. *)
Definition Severity_of (v : string) : Result Severity :=
  if String.eqb v (value CRITICAL) then Ok CRITICAL
  else if String.eqb v (value WARNING) then Ok WARNING
  else if String.eqb v (value SUGGESTION) then Ok SUGGESTION
  else Raise ValueError.

Record RuleReference : Type := mkReference {
  book : string;
  chapter : string;
  page : string;
  url : string;
  quote : string
}.

Record Issue : Type := mkIssue {
  issue_rule_id : string;
  rule_name : string;
  file_path : string;
  line_number : Z;
  column : nat;
  issue_severity : Severity;
  message : string;
  description : string;
  code_snippet : string;
  suggestion : string;
  issue_reference : string
}.

(** The attributes [BaseRule.__init__] sets (the educational texts and
    examples, which no check reads, are left out). *)
Record BaseRule : Type := mkBaseRule {
  rule_id : string;
  name_cn : string;
  name_en : string;
  enabled : bool;
  severity : Severity;
  category : string;
  description_cn : string;
  reference : RuleReference;
  config : Json
}.

Definition set_enabled (b : bool) (r : BaseRule) : BaseRule :=
  mkBaseRule (rule_id r) (name_cn r) (name_en r) b (severity r) (category r)
             (description_cn r) (reference r) (config r).

Definition set_severity (s : Severity) (r : BaseRule) : BaseRule :=
  mkBaseRule (rule_id r) (name_cn r) (name_en r) (enabled r) s (category r)
             (description_cn r) (reference r) (config r).

Definition set_config (c : Json) (r : BaseRule) : BaseRule :=
  mkBaseRule (rule_id r) (name_cn r) (name_en r) (enabled r) (severity r)
             (category r) (description_cn r) (reference r) c.

(** [BaseRule.__init__(rule_id, name_cn, name_en)]. *)
Definition init (rule_id name_cn name_en : string) : BaseRule :=
  mkBaseRule rule_id name_cn
             (if String.eqb name_en "" then name_cn else name_en)
             true WARNING "通用" "" (mkReference "" "" "" "" "") (JDict []).

(** [Path.suffix]: the last dot of the final path component and what
    follows it, unless that dot is the component's first or last character. *)
Fixpoint rfind_char (c : ascii) (s : string) : option nat :=
  match s with
  | EmptyString => None
  | String d s' =>
      match rfind_char c s' with
      | Some i => Some (S i)
      | None => if Ascii.eqb d c then Some O else None
      end
  end.

Definition path_name (p : string) : string :=
  match rfind_char "/"%char p with
  | Some i => String.substring (S i) (String.length p) p
  | None => p
  end.

Definition suffix (p : string) : string :=
  let name := path_name p in
  match rfind_char "."%char name with
  | Some i =>
      if ((0 <? i) && (i <? String.length name - 1))%nat
      then String.substring i (String.length name) name
      else ""
  | None => ""
  end.

(** [BaseRule.is_applicable]. *)
Definition is_applicable (self : BaseRule) (file_info : FileInfo)
  : Result bool :=
  let file_path := path file_info in
  let c_extensions := [".c"; ".h"; ".cpp"; ".hpp"; ".cc"; ".cxx"] in
  Ok (str_list_mem (lower (suffix file_path)) c_extensions).

(** [BaseRule._format_reference]. *)
Definition _format_reference (self : BaseRule) : string :=
  if String.eqb (book (reference self)) "" then ""
  else
    let ref_parts := [book (reference self)] in
    let ref_parts :=
      if negb (String.eqb (chapter (reference self)) "")
      then (ref_parts ++ [chapter (reference self)])%list else ref_parts in
    let ref_parts :=
      if negb (String.eqb (page (reference self)) "")
      then (ref_parts ++ [page (reference self)])%list else ref_parts in
    join " - " ref_parts.

(** One turn of the snippet loop of [create_issue]. *)
Definition snippet_line (lines : list string) (line_num : Z) (i : Z)
  : Result string :=
  let prefix := if i =? line_num - 1 then ">>> " else "    " in
  l <- list_get lines i ;;
  Ok (prefix ++ format_4d (i + 1) ++ ": " ++ l).

(** [BaseRule.create_issue]. *)
Definition create_issue (self : BaseRule) (file_info : FileInfo)
  (n : NodeRef) (message suggestion : string)
  (custom_severity : option Severity) : Result Issue :=
  let line_num := Z.of_nat (row_of n) + 1 in
  let column := column_of n in
  let lines := lines file_info in
  let start_line := Z.max 0 (line_num - 3) in
  let end_line := Z.min (Z.of_nat (length lines)) (line_num + 2) in
  code_lines <- for_append (snippet_line lines line_num)
                           (range start_line end_line) ;;
  let code_snippet := join nl code_lines in
  Ok (mkIssue (rule_id self) (name_cn self) (path file_info) line_num column
              (match custom_severity with
               | Some s => s
               | None => severity self
               end)
              message (description_cn self) code_snippet suggestion
              (_format_reference self)).

(** A rule object: the attributes and the two methods a subclass may
    override.  The methods read the attributes; none of the checks of the
    sources assigns to [self]. *)
Record Rule : Type := mkRule {
  self : BaseRule;
  is_applicable_method : BaseRule -> FileInfo -> Result bool;
  check_method : BaseRule -> FileInfo -> Result (list Issue)
}.

Definition rule_is_applicable (r : Rule) (file_info : FileInfo) : Result bool :=
  is_applicable_method r (self r) file_info.

Definition rule_check (r : Rule) (file_info : FileInfo)
  : Result (list Issue) :=
  check_method r (self r) file_info.

Definition update_self (f : BaseRule -> BaseRule) (r : Rule) : Rule :=
  mkRule (f (self r)) (is_applicable_method r) (check_method r).


(** *** The dictionary form of a rule

    [to_dict] and [from_dict] go over every attribute [BaseRule.__init__]
    sets: those of [BaseRule] above and the educational ones, which are
    added here. *)

Record CodeExample : Type := mkCodeExample {
  example_code : string;
  example_description : string;
  language : string
}.

(** [CodeExample(code, description)]: the language is the default. *)
Definition CodeExample_of (code description : string) : CodeExample :=
  mkCodeExample code description "c".

Record RuleObject : Type := mkRuleObject {
  base : BaseRule;
  description_en : string;
  why_cn : string;
  why_en : string;
  bad_examples : list CodeExample;
  good_examples : list CodeExample
}.

Definition set_base (b : BaseRule) (r : RuleObject) : RuleObject :=
  mkRuleObject b (description_en r) (why_cn r) (why_en r) (bad_examples r)
               (good_examples r).

(** The dictionaries of the dictionary form; a key may be missing in what
    [from_dict] is given. *)
Record ExampleDict : Type := mkExampleDict {
  ex_code : option string;
  ex_description : option string
}.

Record ReferenceDict : Type := mkReferenceDict {
  ref_book : option string;
  ref_chapter : option string;
  ref_page : option string;
  ref_url : option string;
  ref_quote : option string
}.

Record RuleDict : Type := mkRuleDict {
  d_rule_id : option string;
  d_name_cn : option string;
  d_name_en : option string;
  d_enabled : option bool;
  d_severity : option string;
  d_category : option string;
  d_description_cn : option string;
  d_description_en : option string;
  d_why_cn : option string;
  d_why_en : option string;
  d_bad_examples : option (list ExampleDict);
  d_good_examples : option (list ExampleDict);
  d_reference : option ReferenceDict;
  d_config : option Json
}.

(** [d[key]] for a key that may be missing. *)
Definition item {A : Type} (entry : option A) : Result A :=
  match entry with
  | Some v => Ok v
  | None => Raise KeyError
  end.

Definition example_dict (ex : CodeExample) : ExampleDict :=
  mkExampleDict (Some (example_code ex)) (Some (example_description ex)).

(** [BaseRule.to_dict]. *)
Definition to_dict (self : RuleObject) : RuleDict :=
  let b := base self in
  mkRuleDict
    (Some (rule_id b)) (Some (name_cn b)) (Some (name_en b))
    (Some (enabled b)) (Some (value (severity b))) (Some (category b))
    (Some (description_cn b)) (Some (description_en self))
    (Some (why_cn self)) (Some (why_en self))
    (Some (map example_dict (bad_examples self)))
    (Some (map example_dict (good_examples self)))
    (Some (mkReferenceDict
             (Some (book (reference b))) (Some (chapter (reference b)))
             (Some (page (reference b))) (Some (url (reference b)))
             (Some (quote (reference b)))))
    (Some (config b)).

(** [CodeExample(ex['code'], ex['description'])]. *)
Definition example_of (ex : ExampleDict) : Result CodeExample :=
  code <- item (ex_code ex) ;;
  description <- item (ex_description ex) ;;
  Ok (CodeExample_of code description).

Definition no_reference : ReferenceDict :=
  mkReferenceDict None None None None None.

(** [BaseRule.from_dict]: the assignments in the order of the source; what
    was assigned before an exception stays assigned. *)
Definition from_dict (self : RuleObject) (data : RuleDict)
  : RuleObject * Result unit :=
  let self :=
    set_base (set_enabled (default true (d_enabled data)) (base self)) self in
  match Severity_of (default "WARNING" (d_severity data)) with
  | Raise e => (self, Raise e)
  | Ok s =>
      let b := set_severity s (base self) in
      let b :=
        mkBaseRule (rule_id b) (name_cn b) (name_en b) (enabled b) (severity b)
                   (default "通用" (d_category data))
                   (default "" (d_description_cn data))
                   (reference b) (config b) in
      let self :=
        mkRuleObject b
                     (default "" (d_description_en data))
                     (default "" (d_why_cn data))
                     (default "" (d_why_en data))
                     (bad_examples self) (good_examples self) in
      match for_append example_of (default [] (d_bad_examples data)) with
      | Raise e => (self, Raise e)
      | Ok bad =>
          let self :=
            mkRuleObject (base self) (description_en self) (why_cn self)
                         (why_en self) bad (good_examples self) in
          match for_append example_of (default [] (d_good_examples data)) with
          | Raise e => (self, Raise e)
          | Ok good =>
              let self :=
                mkRuleObject (base self) (description_en self) (why_cn self)
                             (why_en self) (bad_examples self) good in
              let ref_data := default no_reference (d_reference data) in
              let b := base self in
              let b :=
                mkBaseRule (rule_id b) (name_cn b) (name_en b) (enabled b)
                           (severity b) (category b) (description_cn b)
                           (mkReference (default "" (ref_book ref_data))
                                        (default "" (ref_chapter ref_data))
                                        (default "" (ref_page ref_data))
                                        (default "" (ref_url ref_data))
                                        (default "" (ref_quote ref_data)))
                           (config b) in
              let b := set_config (default (JDict []) (d_config data)) b in
              (set_base b self, Ok tt)
          end
      end
  end.

(** *** ASTRule: the walks over the parents *)

(** [current = node.parent; while current: if test(current): return True;
    current = current.parent] followed by [return False]. *)
Fixpoint some_parent (test : Node -> bool) (above : list Node) : bool :=
  match above with
  | [] => false
  | current :: rest => if test current then true else some_parent test rest
  end.

(** [ASTRule.is_in_condition]. *)
Definition is_in_condition (n : NodeRef) : bool :=
  some_parent
    (fun current =>
       str_list_mem (type current)
         ["if_statement"; "while_statement"; "for_statement";
          "conditional_expression"; "parenthesized_expression"])
    (ancestors n).

(** [ASTRule.is_in_function]: both branches on [function_name] return
    [True]. *)
Definition is_in_function (n : NodeRef) (function_name : option string)
  : bool :=
  some_parent
    (fun current =>
       if String.eqb (type current) "function_definition" then
         match function_name with
         | None => true
         | Some _ => true
         end
       else false)
    (ancestors n).

(** An entry of [ASTRule.find_variable_references]. *)
Record VariableReference : Type := mkVariableReference {
  ref_node : NodeRef;
  ref_name : string;
  ref_line : Z;
  ref_context : string
}.

(** [ASTRule._get_node_context]: the text of the parent, of the node
    itself at the root. *)
Definition _get_node_context (n : NodeRef) (content : string) : string :=
  match parent n with
  | Some p => get_node_text p content
  | None => get_node_text n content
  end.

(** [ASTRule.find_variable_references]. *)
Definition find_variable_references (root_node : NodeRef) (content : string)
  (variable_name : string) : list VariableReference :=
  flat_map
    (fun id_node =>
       let var_name := get_node_text id_node content in
       if String.eqb var_name variable_name
       then [mkVariableReference id_node var_name
                                 (Z.of_nat (row_of id_node) + 1)
                                 (_get_node_context id_node content)]
       else [])
    (find_nodes_by_type root_node "identifier").

End base_rule.

(** ** rules/logic_rules.py *)

Module logic_rules.
Import Py tree_sitter parser base_rule.
Local Open Scope py_scope.

(** *** AssignmentInConditionRule *)

Module AssignmentInConditionRule.

Definition init : BaseRule :=
  mkBaseRule "L001" "条件中赋值检查" "Assignment in Condition" true CRITICAL
    "逻辑错误" "检测条件语句中的赋值操作（可能是误写）"
    (mkReference "《C陷阱与缺陷》" "第1章" "P8-P12" ""
                 "= 和 == 的混淆是C语言中最常见的错误之一")
    (JDict []).

Definition _find_condition_in_statement (stmt_node : NodeRef)
  : option NodeRef :=
  List.find (fun child => String.eqb (type_of child) "parenthesized_expression")
            (children_of stmt_node).

Definition _is_simple_assignment (assign_node : NodeRef) (content : string)
  : bool :=
  let assign_text := get_node_text assign_node content in
  str_in "=" assign_text &&
  negb (str_in "==" assign_text) &&
  negb (str_in "!=" assign_text) &&
  negb (str_in "+=" assign_text) &&
  negb (str_in "-=" assign_text) &&
  negb (str_in "*=" assign_text) &&
  negb (str_in "/=" assign_text).

Definition _is_intentional_assignment (assign_node : NodeRef) : bool :=
  match parent assign_node with
  | Some p =>
      String.eqb (type_of p) "parenthesized_expression" &&
      match parent p with
      | Some pp => String.eqb (type_of pp) "parenthesized_expression"
      | None => false
      end
  | None => false
  end.

(** The body of the loop over the assignments found in one condition. *)
Definition check_assignment (self : BaseRule) (file_info : FileInfo)
  (assign_node : NodeRef) : Result (list Issue) :=
  if _is_simple_assignment assign_node (content file_info) then
    if negb (_is_intentional_assignment assign_node) then
      issue <- create_issue self file_info assign_node
                 "条件语句中发现赋值操作，可能是误写了 '=' 而不是 '=='"
                 "检查是否应该使用 '==' 进行比较，或用括号明确表示有意赋值"
                 None ;;
      Ok [issue]
    else Ok []
  else Ok [].

Definition check (self : BaseRule) (file_info : FileInfo)
  : Result (list Issue) :=
  let root_node := root_node file_info in
  let if_nodes := find_nodes_by_type root_node "if_statement" in
  let while_nodes := find_nodes_by_type root_node "while_statement" in
  let for_nodes := find_nodes_by_type root_node "for_statement" in
  let condition_statements := (if_nodes ++ while_nodes ++ for_nodes)%list in
  for_extend
    (fun stmt_node =>
       match _find_condition_in_statement stmt_node with
       | Some condition_node =>
           for_extend (check_assignment self file_info)
             (find_nodes_by_type condition_node "assignment_expression")
       | None => Ok []
       end)
    condition_statements.

Definition rule : Rule := mkRule init is_applicable check.

End AssignmentInConditionRule.

(** *** SwitchFallthroughRule *)

Module SwitchFallthroughRule.

Definition init : BaseRule :=
  mkBaseRule "L002" "Switch缺少break" "Switch Fallthrough" true WARNING
    "逻辑错误" "检测switch语句中缺少break的情况"
    (mkReference "《C陷阱与缺陷》" "第4章" "P45-P52" ""
                 "switch语句的穿透特性是C语言的一个陷阱")
    (JDict []).

Definition _find_switch_body (switch_node : NodeRef) : option NodeRef :=
  List.find (fun child => String.eqb (type_of child) "compound_statement")
            (children_of switch_node).

(** The test both loops of [_has_break_or_return] apply to a statement:
    its line lies after the case's and before the next case's, if any. *)
Definition in_case_range (case_start_line : nat) (next_case_line : option nat)
  (stmt : NodeRef) : bool :=
  let line := row_of stmt in
  (case_start_line <? line)%nat &&
  match next_case_line with
  | None => true
  | Some next => (line <? next)%nat
  end.

Definition _has_break_or_return (case_node : NodeRef)
  (all_cases : list NodeRef) (case_index : Z) : Result bool :=
  next_case_line <-
    (if case_index + 1 <? Z.of_nat (length all_cases)
     then next <- list_get all_cases (case_index + 1) ;; Ok (Some (row_of next))
     else Ok None) ;;
  let case_start_line := row_of case_node in
  scope <- match parent case_node with
           | Some p => Ok p
           | None => Raise AttributeError
           end ;;
  let break_nodes := find_nodes_by_type scope "break_statement" in
  let return_nodes := find_nodes_by_type scope "return_statement" in
  if existsb (in_case_range case_start_line next_case_line) break_nodes
  then Ok true
  else if existsb (in_case_range case_start_line next_case_line) return_nodes
  then Ok true
  else Ok false.

Definition mentions_fallthrough (line : string) : bool :=
  let line_content := lower line in
  str_in "fallthrough" line_content ||
  str_in "fall through" line_content ||
  str_in "falls through" line_content.

Definition _has_fallthrough_comment (case_node : NodeRef) (content : string)
  : Result bool :=
  let lines := split (ascii_of_nat 10) content in
  let case_line := Z.of_nat (row_of case_node) in
  for_any (fun i => l <- list_get lines i ;; Ok (mentions_fallthrough l))
          (range case_line (Z.min (case_line + 5) (Z.of_nat (length lines)))).

(** The body of the loop over [enumerate(case_nodes)]. *)
Definition check_case (self : BaseRule) (file_info : FileInfo)
  (case_nodes : list NodeRef) (ic : Z * NodeRef) : Result (list Issue) :=
  let '(i, case_node) := ic in
  safe <- _has_break_or_return case_node case_nodes i ;;
  if negb safe then
    intended <- _has_fallthrough_comment case_node (content file_info) ;;
    if negb intended then
      issue <- create_issue self file_info case_node
                 "case语句缺少break，可能导致意外的穿透执行"
                 "添加break语句，或用注释明确说明有意穿透"
                 None ;;
      Ok [issue]
    else Ok []
  else Ok [].

(** [enumerate(l)]. *)
Definition enumerate {A : Type} (l : list A) : list (Z * A) :=
  combine (map Z.of_nat (seq 0 (length l))) l.

(** The body of the loop over the switch statements. *)
Definition check_switch (self : BaseRule) (file_info : FileInfo)
  (switch_node : NodeRef) : Result (list Issue) :=
  match _find_switch_body switch_node with
  | None => Ok []
  | Some switch_body =>
      let case_nodes := find_nodes_by_type switch_body "case_statement" in
      for_extend (check_case self file_info case_nodes) (enumerate case_nodes)
  end.

Definition check (self : BaseRule) (file_info : FileInfo)
  : Result (list Issue) :=
  let switch_nodes :=
    find_nodes_by_type (root_node file_info) "switch_statement" in
  for_extend (check_switch self file_info) switch_nodes.

Definition rule : Rule := mkRule init is_applicable check.

End SwitchFallthroughRule.

(** *** DivisionByZeroRule *)

Module DivisionByZeroRule.

Definition init : BaseRule :=
  mkBaseRule "L005" "除零检查" "Division by Zero Check" true CRITICAL
    "逻辑错误" "检测可能的除零操作"
    (mkReference "《C陷阱与缺陷》" "第6章" "P78-P82" "" "除零是未定义行为")
    (JDict []).

(** [_find_containing_function]: the nearest enclosing function
    definition, walking the parents. *)
Fixpoint first_function (above : list Node) : option NodeRef :=
  match above with
  | [] => None
  | a :: rest =>
      if String.eqb (type a) "function_definition" then Some (mkRef a rest)
      else first_function rest
  end.

Definition _find_containing_function (n : NodeRef) : option NodeRef :=
  first_function (ancestors n).

(** The test of [_has_zero_check] on the text of one [if] statement. *)
Definition guards (divisor_name : string) (if_text : string) : bool :=
  str_in (divisor_name ++ " != 0") if_text ||
  str_in (divisor_name ++ " > 0") if_text ||
  str_in ("0 != " ++ divisor_name) if_text.

Definition _has_zero_check (division_node : NodeRef) (divisor_name : string)
  (content : string) : bool :=
  match _find_containing_function division_node with
  | None => false
  | Some func_node =>
      let if_nodes := find_nodes_by_type func_node "if_statement" in
      existsb (fun if_node => guards divisor_name (get_node_text if_node content))
              if_nodes
  end.

(** The body of the loop over the binary expressions. *)
Definition check_binary (self : BaseRule) (file_info : FileInfo)
  (binary_node : NodeRef) : Result (list Issue) :=
  let content := content file_info in
  match children_of binary_node with
  | left_node :: op_node :: right_node :: _ =>
      let op_text := get_node_text op_node content in
      if str_list_mem op_text ["/"; "%"] then
        let right_text := strip (get_node_text right_node content) in
        if String.eqb right_text "0" || String.eqb right_text "0.0" then
          issue <- create_issue self file_info binary_node
                     ("检测到" ++ op_text ++ "零操作")
                     "在进行除法运算前检查除数是否为零"
                     None ;;
          Ok [issue]
        else if negb (_has_zero_check binary_node right_text content) then
          issue <- create_issue self file_info binary_node
                     ("除法运算未检查除数'" ++ right_text ++ "'是否为零")
                     ("在除法前添加检查: if(" ++ right_text ++ " != 0)")
                     (Some WARNING) ;;
          Ok [issue]
        else Ok []
      else Ok []
  | _ => Ok []
  end.

Definition check (self : BaseRule) (file_info : FileInfo)
  : Result (list Issue) :=
  let binary_nodes :=
    find_nodes_by_type (root_node file_info) "binary_expression" in
  for_extend (check_binary self file_info) binary_nodes.

Definition rule : Rule := mkRule init is_applicable check.

End DivisionByZeroRule.


(** *** FunctionReturnRule *)

Module FunctionReturnRule.

Definition init : BaseRule :=
  mkBaseRule "L004" "函数返回值检查" "Function Return Value Check" true
    SUGGESTION "代码质量" "检测未检查的函数返回值"
    (mkReference "C编程最佳实践" "错误处理" "" ""
                 "始终检查可能失败的函数返回值")
    (JDict []).

Definition critical_functions : gset string :=
  list_to_set
    ["malloc"; "calloc"; "realloc";
     "fopen"; "fread"; "fwrite"; "fclose";
     "scanf"; "fscanf"; "sscanf";
     "system"; "exec"; "fork"].

(** [_is_return_value_used]: four tests of the parent's type, in turn. *)
Definition _is_return_value_used (call_node : NodeRef) : bool :=
  match parent call_node with
  | Some p =>
      if String.eqb (type_of p) "assignment_expression" then true
      else if str_list_mem (type_of p)
                ["if_statement"; "while_statement"; "for_statement"]
      then true
      else if String.eqb (type_of p) "binary_expression" then true
      else if String.eqb (type_of p) "init_declarator" then true
      else false
  | None => false
  end.

(** The body of the loop over the call expressions. *)
Definition check_call (self : BaseRule) (file_info : FileInfo)
  (call_node : NodeRef) : Result (list Issue) :=
  let content := content file_info in
  match children_of call_node with
  | func_node :: _ =>
      let func_name := get_node_text func_node content in
      if bool_decide (func_name ∈ critical_functions) then
        if negb (_is_return_value_used call_node) then
          issue <- create_issue self file_info call_node
                     ("函数'" ++ func_name ++ "'的返回值未被检查")
                     ("检查" ++ func_name ++ "的返回值以处理可能的错误")
                     None ;;
          Ok [issue]
        else Ok []
      else Ok []
  | [] => Ok []
  end.

Definition check (self : BaseRule) (file_info : FileInfo)
  : Result (list Issue) :=
  let call_nodes :=
    find_nodes_by_type (root_node file_info) "call_expression" in
  for_extend (check_call self file_info) call_nodes.

Definition rule : Rule := mkRule init is_applicable check.

End FunctionReturnRule.

(** *** UnusedVariableRule *)

Module UnusedVariableRule.

Definition init : BaseRule :=
  mkBaseRule "L003" "未使用变量检查" "Unused Variable Check" true SUGGESTION
    "代码质量" "检测声明但未使用的变量"
    (mkReference "代码整洁之道" "变量管理" "" "" "删除未使用的代码")
    (JDict []).

(** An entry of [_collect_variable_declarations]. *)
Record Declared : Type := mkDeclared {
  declared_name : string;
  declared_node : NodeRef;
  declared_line : Z
}.

Definition type_keywords : gset string :=
  list_to_set
    ["int"; "char"; "float"; "double"; "void"; "long"; "short";
     "unsigned"; "signed"; "const"; "volatile"; "static"; "extern"].

Definition _is_likely_type_name (name : string) : bool :=
  bool_decide (name ∈ type_keywords).

Definition _extract_variable_names_from_declaration (decl_node : NodeRef)
  (content : string) : list string :=
  flat_map
    (fun identifier =>
       let id_text := get_node_text identifier content in
       if negb (_is_likely_type_name id_text) then [id_text] else [])
    (find_nodes_by_type decl_node "identifier").

Definition _collect_variable_declarations (func_node : NodeRef)
  (content : string) : list Declared :=
  flat_map
    (fun decl_node =>
       map (fun var_name =>
              mkDeclared var_name decl_node (Z.of_nat (row_of decl_node) + 1))
           (_extract_variable_names_from_declaration decl_node content))
    (find_nodes_by_type func_node "declaration").

(** [_is_in_declaration]: some node above is a declaration. *)
Definition _is_in_declaration (identifier_node : NodeRef) : bool :=
  some_parent (fun p => String.eqb (type p) "declaration")
              (ancestors identifier_node).

Definition _collect_variable_usages (func_node : NodeRef) (content : string)
  : gset string :=
  fold_left
    (fun used_vars identifier =>
       if negb (_is_in_declaration identifier)
       then {[ get_node_text identifier content ]} ∪ used_vars
       else used_vars)
    (find_nodes_by_type func_node "identifier") ∅.

(** The body of the loop over the declared variables of one function. *)
Definition check_variable (self : BaseRule) (file_info : FileInfo)
  (used_vars : gset string) (var_info : Declared) : Result (list Issue) :=
  let var_name := declared_name var_info in
  if negb (bool_decide (var_name ∈ used_vars)) then
    issue <- create_issue self file_info (declared_node var_info)
               ("变量'" ++ var_name ++ "'声明但从未使用")
               ("删除未使用的变量'" ++ var_name ++ "'")
               None ;;
    Ok [issue]
  else Ok [].

Definition check (self : BaseRule) (file_info : FileInfo)
  : Result (list Issue) :=
  let content := content file_info in
  let functions := find_function_definitions (root_node file_info) in
  for_extend
    (fun func_info =>
       let func_node := fn_node func_info in
       let declared_vars := _collect_variable_declarations func_node content in
       let used_vars := _collect_variable_usages func_node content in
       for_extend (check_variable self file_info used_vars) declared_vars)
    functions.

Definition rule : Rule := mkRule init is_applicable check.

End UnusedVariableRule.

End logic_rules.

(** ** rules/memory_rules.py *)

Module memory_rules.
Import Py tree_sitter parser base_rule.
Local Open Scope py_scope.

Module ArrayBoundsRule.

Definition init : BaseRule :=
  mkBaseRule "C001" "数组越界检查" "Array Bounds Check" true CRITICAL
    "内存安全" "检测可能的数组下标越界访问"
    (mkReference "《C陷阱与缺陷》" "第2章" "P23-P27" ""
                 "数组下标从0开始是C语言的一个陷阱...")
    (JDict []).

(** [_is_numeric_constant]: [int(text)] in a [try], [False] on
    [ValueError]. *)
Definition _is_numeric_constant (text : string) : Result bool :=
  try_except (_ <- int text ;; Ok true) is_ValueError (fun _ => Ok false).

(** The loop of [_find_array_size] over the array declarators. *)
Fixpoint find_size_in (decl_nodes : list NodeRef) (array_name : string)
  (content : string) : Result (option Z) :=
  match decl_nodes with
  | [] => Ok None
  | decl_node :: rest =>
      match children_of decl_node with
      | name_node :: _ :: size_node :: _ =>
          let name_text := get_node_text name_node content in
          if String.eqb name_text array_name then
            let size_text := strip (get_node_text size_node content) in
            numeric <- _is_numeric_constant size_text ;;
            if numeric : bool then
              v <- int size_text ;; Ok (Some v)
            else find_size_in rest array_name content
          else find_size_in rest array_name content
      | _ => find_size_in rest array_name content
      end
  end.

Definition _find_array_size (root_node : NodeRef) (array_name : string)
  (content : string) : Result (option Z) :=
  find_size_in (find_nodes_by_type root_node "array_declarator")
               array_name content.

(** The body of the loop over the subscript expressions. *)
Definition check_subscript (self : BaseRule) (file_info : FileInfo)
  (n : NodeRef) : Result (list Issue) :=
  let content := content file_info in
  match children_of n with
  | array_node :: _ :: index_node :: _ =>
      let index_text := strip (get_node_text index_node content) in
      numeric <- _is_numeric_constant index_text ;;
      if numeric : bool then
        index_value <- int index_text ;;
        let array_name := get_node_text array_node content in
        array_size <- _find_array_size (root_node file_info) array_name content ;;
        match array_size with
        | Some array_size =>
            if index_value >=? array_size then
              issue <- create_issue self file_info n
                ("数组'" ++ array_name ++ "'大小为" ++ str_of_int array_size
                 ++ "，但访问索引" ++ str_of_int index_value ++ "超出范围")
                ("将索引改为0到" ++ str_of_int (array_size - 1) ++ "之间的值")
                None ;;
              Ok [issue]
            else if index_value <? 0 then
              issue <- create_issue self file_info n
                ("数组'" ++ array_name ++ "'使用负数索引"
                 ++ str_of_int index_value)
                "数组索引必须为非负数"
                None ;;
              Ok [issue]
            else Ok []
        | None => Ok []
        end
      else Ok []
  | _ => Ok []
  end.

Definition check (self : BaseRule) (file_info : FileInfo)
  : Result (list Issue) :=
  let subscript_nodes :=
    find_nodes_by_type (root_node file_info) "subscript_expression" in
  for_extend (check_subscript self file_info) subscript_nodes.

Definition rule : Rule := mkRule init is_applicable check.

End ArrayBoundsRule.


(** *** MemoryLeakRule *)

Module MemoryLeakRule.

Definition init : BaseRule :=
  mkBaseRule "C003" "内存泄漏检查" "Memory Leak Check" true WARNING
    "内存安全" "检测malloc后未free的情况"
    (mkReference "C编程最佳实践" "内存管理" "" ""
                 "每个malloc都应该有对应的free")
    (JDict []).

(** An entry of [_find_malloc_in_function]. *)
Record MallocCall : Type := mkMallocCall {
  malloc_node : NodeRef;
  malloc_function_name : string;
  malloc_line : Z
}.

(** An entry of [_find_free_in_function]. *)
Record FreeCall : Type := mkFreeCall {
  free_node : NodeRef;
  free_line : Z
}.

Definition _find_malloc_in_function (func_node : NodeRef) (content : string)
  : list MallocCall :=
  let malloc_functions := ["malloc"; "calloc"; "realloc"] in
  flat_map
    (fun call_node =>
       match children_of call_node with
       | func_node_name :: _ =>
           let func_name := get_node_text func_node_name content in
           if str_list_mem func_name malloc_functions
           then [mkMallocCall call_node func_name
                              (Z.of_nat (row_of call_node) + 1)]
           else []
       | [] => []
       end)
    (find_nodes_by_type func_node "call_expression").

Definition _find_free_in_function (func_node : NodeRef) (content : string)
  : list FreeCall :=
  flat_map
    (fun call_node =>
       match children_of call_node with
       | func_node_name :: _ =>
           let func_name := get_node_text func_node_name content in
           if String.eqb func_name "free"
           then [mkFreeCall call_node (Z.of_nat (row_of call_node) + 1)]
           else []
       | [] => []
       end)
    (find_nodes_by_type func_node "call_expression").

(** The body of the loop over the functions; the inner loop over the
    allocation calls ends in [break] after its first turn. *)
Definition check_function (self : BaseRule) (file_info : FileInfo)
  (func_info : FunctionInfo) : Result (list Issue) :=
  let content := content file_info in
  let func_node := fn_node func_info in
  let func_name := get_node_text (fn_name_node func_info) content in
  let malloc_calls := _find_malloc_in_function func_node content in
  let free_calls := _find_free_in_function func_node content in
  if len malloc_calls >? len free_calls then
    match malloc_calls with
    | malloc_call :: _ =>
        issue <- create_issue self file_info (malloc_node malloc_call)
                   ("函数'" ++ func_name ++ "'中可能存在内存泄漏")
                   "确保每个malloc/calloc都有对应的free调用"
                   None ;;
        Ok [issue]
    | [] => Ok []
    end
  else Ok [].

Definition check (self : BaseRule) (file_info : FileInfo)
  : Result (list Issue) :=
  let functions := find_function_definitions (root_node file_info) in
  for_extend (check_function self file_info) functions.

Definition rule : Rule := mkRule init is_applicable check.

End MemoryLeakRule.

(** *** BufferOverflowRule *)

Module BufferOverflowRule.

Definition init : BaseRule :=
  mkBaseRule "C004" "缓冲区溢出检查" "Buffer Overflow Check" true CRITICAL
    "内存安全" "检测可能的缓冲区溢出"
    (mkReference "安全编程指南" "缓冲区溢出防护" "" ""
                 "避免使用不安全的字符串函数")
    (JDict []).

Definition dangerous_functions : gmap string string :=
  <["strcpy" := "strncpy"]>
  (<["strcat" := "strncat"]>
  (<["sprintf" := "snprintf"]>
  (<["scanf" := "fgets + sscanf"]>
  (<["gets" := "fgets"]> ∅)))).

(** The body of the loop over the call expressions. *)
Definition check_call (self : BaseRule) (file_info : FileInfo)
  (call_node : NodeRef) : Result (list Issue) :=
  let content := content file_info in
  match children_of call_node with
  | func_node :: _ =>
      let func_name := get_node_text func_node content in
      if bool_decide (is_Some (dangerous_functions !! func_name)) then
        safer_alternative <- dict_get dangerous_functions func_name ;;
        issue <- create_issue self file_info call_node
                   ("使用了不安全的函数'" ++ func_name
                    ++ "'，可能导致缓冲区溢出")
                   ("考虑使用更安全的替代函数: " ++ safer_alternative)
                   None ;;
        Ok [issue]
      else Ok []
  | [] => Ok []
  end.

Definition check (self : BaseRule) (file_info : FileInfo)
  : Result (list Issue) :=
  let call_nodes :=
    find_nodes_by_type (root_node file_info) "call_expression" in
  for_extend (check_call self file_info) call_nodes.

Definition rule : Rule := mkRule init is_applicable check.

End BufferOverflowRule.

(** *** NullPointerRule *)

Module NullPointerRule.

Definition init : BaseRule :=
  mkBaseRule "C002" "空指针检查" "Null Pointer Check" true CRITICAL
    "内存安全" "检测空指针解引用"
    (mkReference "《C陷阱与缺陷》" "第5章" "P67-P73" ""
                 "空指针的解引用是未定义行为...")
    (JDict []).

(** An entry of [_find_null_assignments] and of
    [_find_pointer_dereferences]. *)
Record VariableUse : Type := mkVariableUse {
  use_node : NodeRef;
  use_variable : string;
  use_line : Z
}.

(** An entry of [_find_malloc_calls]. *)
Record MallocCall : Type := mkMallocCall {
  call_node : NodeRef;
  call_function_node : NodeRef;
  call_function_name : string;
  call_line : Z
}.

Definition _find_null_assignments (root_node : NodeRef) (content : string)
  : list VariableUse :=
  flat_map
    (fun assign_node =>
       match children_of assign_node with
       | left_node :: _ :: right_node :: _ =>
           let right_text := strip (get_node_text right_node content) in
           if str_list_mem (upper right_text) ["NULL"; "0"; "nullptr"]
           then [mkVariableUse assign_node (get_node_text left_node content)
                               (Z.of_nat (row_of assign_node) + 1)]
           else []
       | _ => []
       end)
    (find_nodes_by_type root_node "assignment_expression").

Definition _find_pointer_dereferences (root_node : NodeRef) (content : string)
  : list VariableUse :=
  let dereferences :=
    flat_map
      (fun unary_node =>
         match children_of unary_node with
         | op_node :: operand_node :: _ =>
             if String.eqb (get_node_text op_node content) "*"
             then [mkVariableUse unary_node
                                 (get_node_text operand_node content)
                                 (Z.of_nat (row_of unary_node) + 1)]
             else []
         | _ => []
         end)
      (find_nodes_by_type root_node "unary_expression") in
  (dereferences ++
   flat_map
     (fun field_node =>
        match children_of field_node with
        | ptr_node :: op_node :: _ :: _ =>
            if String.eqb (get_node_text op_node content) "->"
            then [mkVariableUse field_node (get_node_text ptr_node content)
                                (Z.of_nat (row_of field_node) + 1)]
            else []
        | _ => []
        end)
     (find_nodes_by_type root_node "field_expression"))%list.

Definition _find_malloc_calls (root_node : NodeRef) (content : string)
  : list MallocCall :=
  let malloc_functions := ["malloc"; "calloc"; "realloc"; "strdup"] in
  flat_map
    (fun call_node =>
       match children_of call_node with
       | func_node :: _ =>
           let func_name := get_node_text func_node content in
           if str_list_mem func_name malloc_functions
           then [mkMallocCall call_node func_node func_name
                              (Z.of_nat (row_of call_node) + 1)]
           else []
       | [] => []
       end)
    (find_nodes_by_type root_node "call_expression").

Definition _has_null_check_after (malloc_info : MallocCall)
  (root_node : NodeRef) (content : string) : bool :=
  let malloc_line := call_line malloc_info in
  let statements := find_nodes_by_type root_node "if_statement" in
  existsb
    (fun stmt =>
       let stmt_line := Z.of_nat (row_of stmt) + 1 in
       if (stmt_line >? malloc_line) && (stmt_line - malloc_line <=? 5) then
         let stmt_text := get_node_text stmt content in
         str_in "NULL" stmt_text || str_in "!=" stmt_text
       else false)
    statements.

(** The body of the loop over the allocation calls. *)
Definition check_call (self : BaseRule) (file_info : FileInfo)
  (call_info : MallocCall) : Result (list Issue) :=
  if negb (_has_null_check_after call_info (root_node file_info)
                                 (content file_info)) then
    issue <- create_issue self file_info (call_node call_info)
               ("调用" ++ call_function_name call_info
                ++ "后未检查返回值是否为NULL")
               "在使用返回的指针前检查是否为NULL"
               None ;;
    Ok [issue]
  else Ok [].

(** [check]; the two lists it builds first are not read again. *)
Definition check (self : BaseRule) (file_info : FileInfo)
  : Result (list Issue) :=
  let root_node := root_node file_info in
  let content := content file_info in
  let null_assignments := _find_null_assignments root_node content in
  let pointer_dereferences := _find_pointer_dereferences root_node content in
  let malloc_calls := _find_malloc_calls root_node content in
  for_extend (check_call self file_info) malloc_calls.

Definition rule : Rule := mkRule init is_applicable check.

End NullPointerRule.

(** *** UseAfterFreeRule *)

Module UseAfterFreeRule.

Definition init : BaseRule :=
  mkBaseRule "C005" "释放后使用检查" "Use After Free Check" true CRITICAL
    "内存安全" "检测释放后使用指针的情况"
    (mkReference "《C陷阱与缺陷》" "内存管理" "" ""
                 "free后的指针变成了悬空指针")
    (JDict []).

(** An entry of [_find_free_calls_in_function]. *)
Record FreeCall : Type := mkFreeCall {
  free_node : NodeRef;
  free_line : Z
}.

Definition _find_free_calls_in_function (func_node : NodeRef)
  (content : string) : list FreeCall :=
  flat_map
    (fun call_node =>
       match children_of call_node with
       | func_name_node :: _ =>
           if String.eqb (get_node_text func_name_node content) "free"
           then [mkFreeCall call_node (Z.of_nat (row_of call_node) + 1)]
           else []
       | [] => []
       end)
    (find_nodes_by_type func_node "call_expression").

(** [_get_freed_variable]: the text of the first identifier among the
    arguments, [None] when there is none. *)
Definition _get_freed_variable (free_call : FreeCall) (content : string)
  : option string :=
  let call_node := free_node free_call in
  match children_of call_node with
  | _ :: args_node :: _ =>
      if String.eqb (type_of args_node) "argument_list"
         && (0 <? len (children_of args_node))
      then
        match List.find (fun child => String.eqb (type_of child) "identifier")
                        (children_of args_node) with
        | Some child => Some (get_node_text child content)
        | None => None
        end
      else None
  | _ => None
  end.

(** The walk of [_is_null_assignment]: the nearest assignment expression
    above the node. *)
Fixpoint first_assignment (above : list Node) : option NodeRef :=
  match above with
  | [] => None
  | a :: rest =>
      if negb (String.eqb (type a) "assignment_expression")
      then first_assignment rest
      else Some (mkRef a rest)
  end.

Definition _is_null_assignment (var_ref : VariableReference)
  (content : string) : bool :=
  match first_assignment (ancestors (ref_node var_ref)) with
  | Some p =>
      let assign_text := get_node_text p content in
      str_in "NULL" assign_text || str_in "= 0" assign_text
  | None => false
  end.

Definition _has_usage_after_free (func_node : NodeRef) (free_call : FreeCall)
  (var_name : string) (content : string) : bool :=
  let free_line := free_line free_call in
  let var_references := find_variable_references func_node content var_name in
  existsb
    (fun ref =>
       if ref_line ref >? free_line
       then negb (_is_null_assignment ref content)
       else false)
    var_references.

(** The body of the loop over the calls of [free] of one function. *)
Definition check_free (self : BaseRule) (file_info : FileInfo)
  (func_node : NodeRef) (free_call : FreeCall) : Result (list Issue) :=
  let content := content file_info in
  match _get_freed_variable free_call content with
  | Some freed_var =>
      if negb (String.eqb freed_var "") then
        if _has_usage_after_free func_node free_call freed_var content then
          issue <- create_issue self file_info (free_node free_call)
                     ("指针'" ++ freed_var ++ "'在释放后可能被继续使用")
                     ("在free(" ++ freed_var
                      ++ ")后将其设置为NULL，或避免后续使用")
                     None ;;
          Ok [issue]
        else Ok []
      else Ok []
  | None => Ok []
  end.

Definition check (self : BaseRule) (file_info : FileInfo)
  : Result (list Issue) :=
  let content := content file_info in
  let functions := find_function_definitions (root_node file_info) in
  for_extend
    (fun func_info =>
       let func_node := fn_node func_info in
       let free_calls := _find_free_calls_in_function func_node content in
       for_extend (check_free self file_info func_node) free_calls)
    functions.

Definition rule : Rule := mkRule init is_applicable check.

End UseAfterFreeRule.

End memory_rules.

(** ** core/rule_engine.py *)

Module rule_engine.
Import Py tree_sitter parser base_rule.

(** One entry of a [rule_settings] mapping, in a template or in an exported
    configuration; every key is optional when the mapping is read. *)
Record Settings : Type := mkSettings {
  s_enabled : option bool;
  s_severity : option string;
  s_category : option string;
  s_config : option Json
}.

(** A rule template: the built-in ones, or one read from a JSON file. *)
Record Template : Type := mkTemplate {
  t_name : option string;
  t_description : option string;
  t_enabled_rules : option (list string);
  t_rule_settings : option (gmap string Settings)
}.

(** The JSON document [export_config] writes and [import_config] reads. *)
Record Config : Type := mkConfig {
  c_version : option string;
  c_export_time : option string;
  c_enabled_rules : option (list string);
  c_rule_settings : option (gmap string Settings)
}.

(** The state the engine's methods act on: the attributes of the
    [RuleEngine] object, and the JSON files by path.  A file holds the
    document [json.dump] wrote to it, which [json.load] returns. *)
Record State : Type := mkState {
  rules : list Rule;
  rule_templates : gmap string Template;
  fs : gmap string Config;
  cwd : string
}.

Definition set_rules (rs : list Rule) (st : State) : State :=
  mkState rs (rule_templates st) (fs st) (cwd st).

Definition set_rule_templates (ts : gmap string Template) (st : State) : State :=
  mkState (rules st) ts (fs st) (cwd st).

Definition set_fs (f : gmap string Config) (st : State) : State :=
  mkState (rules st) (rule_templates st) f (cwd st).

(** The monad of the engine's methods: state and exceptions.  The state
    reached when an exception is raised is kept, as the mutations a Python
    method made before raising are. *)
Definition M (A : Type) : Type := State -> State * Result A.

Definition ret {A : Type} (a : A) : M A := fun st => (st, Ok a).

Definition raise {A : Type} (e : Exc) : M A := fun st => (st, Raise e).

Definition bindM {A B : Type} (m : M A) (k : A -> M B) : M B :=
  fun st =>
    match m st with
    | (st', Ok a) => k a st'
    | (st', Raise e) => (st', Raise e)
    end.

Definition get : M State := fun st => (st, Ok st).

Definition put (st' : State) : M unit := fun _ => (st', Ok tt).

(** A call of a rule's method, which reads the rule and the file. *)
Definition lift {A : Type} (r : Result A) : M A := fun st => (st, r).

(** [try: body except Exception: handler]. *)
Definition tryM {A : Type} (body : M A) (handler : Exc -> M A) : M A :=
  fun st =>
    match body st with
    | (st', Ok a) => (st', Ok a)
    | (st', Raise e) => handler e st'
    end.

Declare Scope engine_scope.
Delimit Scope engine_scope with engine.
Notation "x <- c1 ;; c2" := (bindM c1 (fun x => c2))
  (at level 100, c1 at next level, right associativity) : engine_scope.
Local Open Scope engine_scope.

(** [for x in l: out.extend(body(x))] in the engine's monad. *)
Fixpoint forM_extend {A B : Type} (body : A -> M (list B)) (l : list A)
  : M (list B) :=
  match l with
  | [] => ret []
  | x :: l' =>
      ys <- body x ;;
      zs <- forM_extend body l' ;;
      ret (ys ++ zs)%list
  end.

(** [for rule in self.rules: body(rule)], where the body assigns to the
    attributes of the rule object: the objects before the failing one are
    updated, the failing one keeps what was assigned before the exception,
    the ones after it are untouched. *)
Fixpoint for_each_rule (body : Rule -> Rule * Result unit) (rs : list Rule)
  : list Rule * Result unit :=
  match rs with
  | [] => ([], Ok tt)
  | r :: rest =>
      match body r with
      | (r', Ok _) =>
          let '(rest', res) := for_each_rule body rest in (r' :: rest', res)
      | (r', Raise e) => (r' :: rest, Raise e)
      end
  end.

Definition for_rules (body : Rule -> Rule * Result unit) : M unit :=
  fun st =>
    let '(rs, res) := for_each_rule body (rules st) in (set_rules rs st, res).

Definition id_of (r : Rule) : string := rule_id (self r).

(** The body of the loop of [apply_template]. *)
Definition apply_to_rule (enabled_rules : list string)
  (rule_settings : gmap string Settings) (rule : Rule) : Rule * Result unit :=
  let rule := update_self (set_enabled (str_list_mem (id_of rule) enabled_rules))
                          rule in
  match rule_settings !! id_of rule with
  | Some settings =>
      match s_severity settings with
      | Some v =>
          match Severity_of v with
          | Ok s => (update_self (set_severity s) rule, Ok tt)
          | Raise e => (rule, Raise e)
          end
      | None => (rule, Ok tt)
      end
  | None => (rule, Ok tt)
  end.

(** [RuleEngine.apply_template]. *)
Definition apply_template (template_name : string) : M unit :=
  st <- get ;;
  match rule_templates st !! template_name with
  | None => ret tt
  | Some template =>
      let enabled_rules := default [] (t_enabled_rules template) in
      let rule_settings := default ∅ (t_rule_settings template) in
      _ <- for_rules (apply_to_rule enabled_rules rule_settings) ;;
      (* the closing message reads template['name'] *)
      match t_name template with
      | Some _ => ret tt
      | None => raise KeyError
      end
  end.

(** [RuleEngine.get_enabled_rules]. *)
Definition get_enabled_rules : M (list Rule) :=
  st <- get ;;
  ret (List.filter (fun rule => enabled (self rule)) (rules st)).

(** [RuleEngine.get_rule_by_id]. *)
Definition get_rule_by_id (rule_id : string) : M (option Rule) :=
  st <- get ;;
  ret (List.find (fun rule => String.eqb (id_of rule) rule_id) (rules st)).

(** [RuleEngine.remove_rule]. *)
Definition remove_rule (rule_id : string) : M unit :=
  st <- get ;;
  put (set_rules
         (List.filter (fun rule => negb (String.eqb (id_of rule) rule_id))
                      (rules st)) st).

(** [RuleEngine.add_rule]. *)
Definition add_rule (rule : Rule) : M unit :=
  found <- get_rule_by_id (id_of rule) ;;
  _ <- match found with
       | Some _ => remove_rule (id_of rule)
       | None => ret tt
       end ;;
  st <- get ;;
  put (set_rules (rules st ++ [rule])%list st).

(** One turn of the inner loop of [check_files]: the [try] block around
    [is_applicable] and [check], and its [except Exception]. *)
Definition run_rule (file_info : FileInfo) (rule : Rule) : M (list Issue) :=
  tryM (applicable <- lift (rule_is_applicable rule file_info) ;;
        if applicable : bool then lift (rule_check rule file_info) else ret [])
       (fun _ => ret []).

(** [RuleEngine.check_files]. *)
Definition check_files (parsed_files : list FileInfo) : M (list Issue) :=
  enabled_rules <- get_enabled_rules ;;
  match enabled_rules with
  | [] => ret []
  | _ =>
      forM_extend
        (fun file_info => forM_extend (run_rule file_info) enabled_rules)
        parsed_files
  end.

Definition settings_of (rule : Rule) : Settings :=
  mkSettings (Some (enabled (self rule)))
             (Some (value (severity (self rule))))
             (Some (category (self rule)))
             (Some (config (self rule))).

(** [RuleEngine.export_config]. *)
Definition export_config (config_path : string) : M unit :=
  st <- get ;;
  let config :=
    mkConfig
      (Some "1.0")
      (Some (cwd st))
      (Some (map id_of (List.filter (fun rule => enabled (self rule)) (rules st))))
      (Some (fold_left (fun d rule => <[id_of rule := settings_of rule]> d)
                       (rules st) ∅)) in
  put (set_fs (<[config_path := config]> (fs st)) st).

(** The body of the loop of [import_config]; an invalid severity is
    reported and skipped. *)
Definition import_to_rule (enabled_rules : list string)
  (rule_settings : gmap string Settings) (rule : Rule) : Rule * Result unit :=
  let rule := update_self (set_enabled (str_list_mem (id_of rule) enabled_rules))
                          rule in
  match rule_settings !! id_of rule with
  | Some settings =>
      let '(rule, res) :=
        match s_severity settings with
        | Some v =>
            match Severity_of v with
            | Ok s => (update_self (set_severity s) rule, Ok tt)
            | Raise ValueError => (rule, Ok tt)
            | Raise e => (rule, Raise e)
            end
        | None => (rule, Ok tt)
        end in
      match res with
      | Ok _ =>
          match s_config settings with
          | Some c => (update_self (set_config c) rule, Ok tt)
          | None => (rule, Ok tt)
          end
      | Raise e => (rule, Raise e)
      end
  | None => (rule, Ok tt)
  end.

(** [RuleEngine.import_config]; its [except Exception] reports and raises
    again. *)
Definition import_config (config_path : string) : M unit :=
  tryM (st <- get ;;
        match fs st !! config_path with
        | None => raise FileNotFoundError
        | Some config =>
            let enabled_rules := default [] (c_enabled_rules config) in
            let rule_settings := default ∅ (c_rule_settings config) in
            for_rules (import_to_rule enabled_rules rule_settings)
        end)
       (fun e => raise e).

(** [RuleEngine._load_all_rules]: the instances it creates, in its
    order. *)
Definition loaded_rules : list Rule :=
  [ memory_rules.ArrayBoundsRule.rule;
    memory_rules.NullPointerRule.rule;
    memory_rules.MemoryLeakRule.rule;
    memory_rules.BufferOverflowRule.rule;
    memory_rules.UseAfterFreeRule.rule;
    logic_rules.AssignmentInConditionRule.rule;
    logic_rules.SwitchFallthroughRule.rule;
    logic_rules.UnusedVariableRule.rule;
    logic_rules.FunctionReturnRule.rule;
    logic_rules.DivisionByZeroRule.rule ].

(** *** The other methods of the engine *)

(** One turn of the loop of [get_rules_by_category]: the category gets an
    empty list when it is new, then the rule is appended to its list. *)
Definition file_rule (categories : gmap string (list Rule)) (rule : Rule)
  : Result (gmap string (list Rule)) :=
  let category := category (self rule) in
  let categories :=
    match categories !! category with
    | None => <[category := []]> categories
    | Some _ => categories
    end in
  Py.bind (dict_get categories category)
          (fun l => Ok (<[category := (l ++ [rule])%list]> categories)).

(** [RuleEngine.get_rules_by_category]. *)
Definition get_rules_by_category : M (gmap string (list Rule)) :=
  st <- get ;;
  lift (for_fold file_rule (rules st) ∅).

(** The entry of one category in the summaries: [{'total': .., 'enabled': ..}]. *)
Record CategoryCount : Type := mkCategoryCount {
  total : Z;
  enabled_count : Z
}.

(** The dictionary [generate_rule_summary] returns. *)
Record Summary : Type := mkSummary {
  summary_total_rules : Z;
  summary_enabled_rules : Z;
  summary_categories : gmap string CategoryCount;
  summary_severity_distribution : gmap string Z
}.

(** The dictionary [get_rule_statistics] returns. *)
Record Statistics : Type := mkStatistics {
  stats_total_rules : Z;
  stats_enabled_rules : Z;
  stats_categories : gmap string CategoryCount;
  stats_severity_distribution : gmap string Z;
  stats_templates_available : Z
}.

(** [{'严重': 0, '警告': 0, '建议': 0}]. *)
Definition no_severity_counted : gmap string Z :=
  <["严重" := 0]> (<["警告" := 0]> (<["建议" := 0]> ∅)).

(** [distribution[rule.severity.value] += 1]. *)
Definition count_severity (distribution : gmap string Z) (rule : Rule)
  : Result (gmap string Z) :=
  let key := value (severity (self rule)) in
  Py.bind (dict_get distribution key)
          (fun n => Ok (<[key := n + 1]> distribution)).

(** [{'total': len(rules), 'enabled': sum(1 for rule in rules if rule.enabled)}]. *)
Definition count_category (rs : list Rule) : CategoryCount :=
  mkCategoryCount (len rs)
                  (len (List.filter (fun rule => enabled (self rule)) rs)).

(** [RuleEngine.generate_rule_summary].  The loop over
    [categories.items()] assigns one entry per category. *)
Definition generate_rule_summary : M Summary :=
  categories <- get_rules_by_category ;;
  enabled_rules <- get_enabled_rules ;;
  st <- get ;;
  distribution <- lift (for_fold count_severity enabled_rules
                                 no_severity_counted) ;;
  ret (mkSummary (len (rules st)) (len enabled_rules)
                 (count_category <$> categories) distribution).

(** One turn of the loop of [get_rule_statistics]. *)
Definition count_rule (counts : gmap string CategoryCount * gmap string Z)
  (rule : Rule) : Result (gmap string CategoryCount * gmap string Z) :=
  let '(categories, distribution) := counts in
  let category := category (self rule) in
  let categories :=
    match categories !! category with
    | None => <[category := mkCategoryCount 0 0]> categories
    | Some _ => categories
    end in
  Py.bind (dict_get categories category) (fun c =>
  let categories :=
    <[category := mkCategoryCount (total c + 1) (enabled_count c)]> categories in
  if enabled (self rule) then
    Py.bind (dict_get categories category) (fun c =>
    let categories :=
      <[category := mkCategoryCount (total c) (enabled_count c + 1)]>
        categories in
    Py.bind (count_severity distribution rule) (fun distribution =>
    Ok (categories, distribution)))
  else Ok (categories, distribution)).

(** [RuleEngine.get_rule_statistics]. *)
Definition get_rule_statistics : M Statistics :=
  st <- get ;;
  enabled_rules <- get_enabled_rules ;;
  counts <- lift (for_fold count_rule (rules st) (∅, no_severity_counted)) ;;
  ret (mkStatistics (len (rules st)) (len enabled_rules)
                    (fst counts) (snd counts)
                    (Z.of_nat (size (rule_templates st)))).

(** One turn of the loop of [validate_rules]: the problems found so far
    and the identifiers seen so far. *)
Definition validate_rule (found : list string * gset string) (rule : Rule)
  : list string * gset string :=
  let '(issues, rule_ids) := found in
  let issues :=
    if decide (id_of rule ∈ rule_ids)
    then (issues ++ [("重复的规则ID: " ++ id_of rule)%string])%list else issues in
  let rule_ids := {[ id_of rule ]} ∪ rule_ids in
  let issues :=
    if String.eqb (name_cn (self rule)) ""
    then (issues ++ [("规则 " ++ id_of rule ++ " 缺少中文名称")%string])%list
    else issues in
  let issues :=
    if String.eqb (description_cn (self rule)) ""
    then (issues ++ [("规则 " ++ id_of rule ++ " 缺少中文描述")%string])%list
    else issues in
  let issues :=
    if String.eqb (category (self rule)) ""
    then (issues ++ [("规则 " ++ id_of rule ++ " 缺少分类")%string])%list
    else issues in
  (issues, rule_ids).

(** [RuleEngine.validate_rules]. *)
Definition validate_rules : M (list string) :=
  st <- get ;;
  ret (fst (fold_left validate_rule (rules st) ([], ∅))).

(** The built-in templates of [_load_templates], for the rules loaded. *)
Definition builtin_templates (rs : list Rule) : gmap string Template :=
  <["beginner" :=
      mkTemplate (Some "新手友好版") (Some "包含最基础和最重要的代码检查规则")
                 (Some ["C001"; "C002"; "L001"; "L002"; "L005"]) (Some ∅)]>
  (<["c_traps" :=
      mkTemplate (Some "C陷阱与缺陷版") (Some "基于《C陷阱与缺陷》书籍的规则集")
                 (Some ["C001"; "C002"; "C004"; "L001"; "L002"; "L005"])
                 (Some ∅)]>
  (<["embedded" :=
      mkTemplate (Some "嵌入式专用版") (Some "适用于ESP32/STM32等嵌入式开发")
                 (Some ["C001"; "C002"; "C003"; "C004"; "L001"; "L005"])
                 (Some ∅)]>
  (<["misra_c" :=
      mkTemplate (Some "MISRA-C精选版") (Some "工业级代码标准规则")
                 (Some ["C001"; "C002"; "C003"; "C004"; "C005"; "L001"; "L002"])
                 (Some ∅)]>
  (<["enterprise" :=
      mkTemplate (Some "企业级严格版") (Some "包含所有规则的完整检查")
                 (Some (map id_of rs)) (Some ∅)]> ∅)))).

(** [RuleEngine._load_templates].  [template_files] is what the templates
    directory holds (nothing when it does not exist): the stem of every
    [*.json] file with what [json.load] makes of it; a file that cannot be
    read is reported and skipped, a file that can replaces the template of
    the same name. *)
Definition _load_templates (template_files : list (string * Result Template))
  : M unit :=
  st <- get ;;
  put (set_rule_templates
         (fold_left (fun templates file =>
                       match snd file with
                       | Ok template_data => <[fst file := template_data]> templates
                       | Raise _ => templates
                       end)
                    template_files (builtin_templates (rules st)))
         st).

End rule_engine.

(** ** Sample files

    The syntax trees tree-sitter-c builds for a few small sources.  A tree
    is written as its shape (grammar symbols and tokens, in order); [place]
    finds the position of every token in the source text, and a node spans
    from its first to its last token. *)

Module samples.
Import Py tree_sitter parser base_rule.

Unset Elimination Schemes.
Inductive Shape : Type :=
| Tok (type text : string)
| Inner (type : string) (kids : list Shape).
Set Elimination Schemes.

Record Cursor : Type := mkCursor {
  rest : string;
  offset : nat;
  row : nat;
  col : nat
}.

(** Skip blanks and line ends before a token. *)
Fixpoint skip_blank (s : string) (offset row col : nat) : Cursor :=
  match s with
  | String c s' =>
      if Ascii.eqb c " "%char then skip_blank s' (S offset) row (S col)
      else if Ascii.eqb c (ascii_of_nat 10) then skip_blank s' (S offset) (S row) O
      else mkCursor s offset row col
  | EmptyString => mkCursor s offset row col
  end.

Fixpoint drop (n : nat) (s : string) : string :=
  match n, s with
  | S n', String _ s' => drop n' s'
  | _, _ => s
  end.

Definition place_token (type text : string) (c : Cursor) : Node * Cursor :=
  let c := skip_blank (rest c) (offset c) (row c) (col c) in
  let n := String.length text in
  (mkNode type (offset c) (offset c + n) (row c, col c) (row c, col c + n) [],
   mkCursor (drop n (rest c)) (offset c + n) (row c) (col c + n))%nat.

Definition spanning (type : string) (kids : list Node) (c : Cursor) : Node :=
  match kids with
  | [] => mkNode type (offset c) (offset c) (row c, col c) (row c, col c) []
  | k :: _ =>
      let l := List.last kids k in
      mkNode type (start_byte k) (end_byte l) (start_point k) (end_point l) kids
  end.

Fixpoint place (s : Shape) (c : Cursor) {struct s} : Node * Cursor :=
  match s with
  | Tok type text => place_token type text c
  | Inner type kids =>
      let '(nodes, c') :=
        (fix place_all (l : list Shape) (c : Cursor) : list Node * Cursor :=
           match l with
           | [] => ([], c)
           | k :: l' =>
               let '(n, c1) := place k c in
               let '(ns, c2) := place_all l' c1 in
               (n :: ns, c2)
           end) kids c in
      (spanning type nodes c, c')
  end.

(** The [file_info] that [parse_file] builds from a source text and the
    root of its tree. *)
Definition parse_result (path content : string) (shape : Shape) : FileInfo :=
  let root := fst (place shape (mkCursor content O O O)) in
  let lines := split (ascii_of_nat 10) content in
  mkFileInfo path content (mkRef root []) lines (length lines) "utf-8".

(** The texts of the tokens of a tree, in order. *)
Fixpoint token_texts (content : string) (n : Node) {struct n} : list string :=
  match children n with
  | [] => [slice content (start_byte n) (end_byte n)]
  | kids => flat_map (token_texts content) kids
  end.

(** Shapes of the grammar of tree-sitter-c. *)
Definition tok (s : string) : Shape := Tok s s.
Definition ident (s : string) : Shape := Tok "identifier" s.
Definition num (s : string) : Shape := Tok "number_literal" s.
Definition prim (s : string) : Shape := Tok "primitive_type" s.
Definition block (stmts : list Shape) : Shape :=
  Inner "compound_statement" ([tok "{"] ++ stmts ++ [tok "}"])%list.
Definition paren (e : Shape) : Shape :=
  Inner "parenthesized_expression" [tok "("; e; tok ")"].
Definition assign (l r : Shape) : Shape :=
  Inner "assignment_expression" [l; tok "="; r].
Definition binop (l : Shape) (op : string) (r : Shape) : Shape :=
  Inner "binary_expression" [l; tok op; r].
Definition if_ (c : Shape) (body : list Shape) : Shape :=
  Inner "if_statement" [tok "if"; paren c; block body].
Definition expr_stmt (e : Shape) : Shape :=
  Inner "expression_statement" [e; tok ";"].
Definition call (f : string) : Shape :=
  Inner "call_expression" [ident f; Inner "argument_list" [tok "("; tok ")"]].
Definition decl_init (t n : string) (e : Shape) : Shape :=
  Inner "declaration" [prim t; Inner "init_declarator" [ident n; tok "="; e]; tok ";"].
Definition decl_array (t n : string) (size : Shape) : Shape :=
  Inner "declaration"
        [prim t; Inner "array_declarator" [ident n; tok "["; size; tok "]"]; tok ";"].
Definition subscript (a i : Shape) : Shape :=
  Inner "subscript_expression" [a; tok "["; i; tok "]"].
Definition return_ (e : Shape) : Shape :=
  Inner "return_statement" [tok "return"; e; tok ";"].
Definition break_ : Shape := Inner "break_statement" [tok "break"; tok ";"].
Definition case_ (v : string) (stmts : list Shape) : Shape :=
  Inner "case_statement" ([tok "case"; num v; tok ":"] ++ stmts)%list.
Definition switch_ (c : Shape) (cases : list Shape) : Shape :=
  Inner "switch_statement" [tok "switch"; paren c; block cases].
Definition param (t n : string) : Shape :=
  Inner "parameter_declaration" [prim t; ident n].
Definition func (ret name : string) (params : list Shape) (body : list Shape)
  : Shape :=
  Inner "function_definition"
        [prim ret;
         Inner "function_declarator"
               [ident name; Inner "parameter_list" ([tok "("] ++ params ++ [tok ")"])%list];
         block body].
Definition unit_ (items : list Shape) : Shape := Inner "translation_unit" items.

(** *** Conditions *)

Definition assign_in_if : FileInfo :=
  parse_result "assign_in_if.c"
    "void f(int x) { if (x = 5) { } }"
    (unit_ [func "void" "f" [param "int" "x"]
              [if_ (assign (ident "x") (num "5")) []]]).

Definition compare_in_if : FileInfo :=
  parse_result "compare_in_if.c"
    "void f(int x) { if (x == 5) { } }"
    (unit_ [func "void" "f" [param "int" "x"]
              [if_ (binop (ident "x") "==" (num "5")) []]]).

Definition wrapped_assign_in_if : FileInfo :=
  parse_result "wrapped_assign_in_if.c"
    "void f(int x) { if ((x = 5) != 0) { } }"
    (unit_ [func "void" "f" [param "int" "x"]
              [if_ (binop (paren (assign (ident "x") (num "5"))) "!=" (num "0")) []]]).

Definition double_paren_assign : FileInfo :=
  parse_result "double_paren_assign.c"
    "void f(int x) { if ((x = 5)) { } }"
    (unit_ [func "void" "f" [param "int" "x"]
              [if_ (paren (assign (ident "x") (num "5"))) []]]).

(** *** Divisions *)

Definition div_by_literal : FileInfo :=
  parse_result "div_by_literal.c"
    (join nl [ "int f(int a) {";
               "  int r = a / 0;";
               "  return r;";
               "}" ])
    (unit_ [func "int" "f" [param "int" "a"]
              [decl_init "int" "r" (binop (ident "a") "/" (num "0"));
               return_ (ident "r")]]).

Definition div_unguarded : FileInfo :=
  parse_result "div_unguarded.c"
    (join nl [ "int f(int a, int b) {";
               "  int r = a / b;";
               "  return r;";
               "}" ])
    (unit_ [func "int" "f" [param "int" "a"; tok ","; param "int" "b"]
              [decl_init "int" "r" (binop (ident "a") "/" (ident "b"));
               return_ (ident "r")]]).

Definition div_guarded : FileInfo :=
  parse_result "div_guarded.c"
    (join nl [ "int f(int a, int b) {";
               "  int r = 0;";
               "  if (b != 0) { r = a / b; }";
               "  return r;";
               "}" ])
    (unit_ [func "int" "f" [param "int" "a"; tok ","; param "int" "b"]
              [decl_init "int" "r" (num "0");
               if_ (binop (ident "b") "!=" (num "0"))
                   [expr_stmt (assign (ident "r")
                                      (binop (ident "a") "/" (ident "b")))];
               return_ (ident "r")]]).


(** *** Array accesses *)

Definition array_access (name index_text : string) (index : Shape) : FileInfo :=
  parse_result name
    (join nl [ "void f(void) {";
               "  int arr[10];";
               "  arr[" ++ index_text ++ "] = 1;";
               "}" ])
    (unit_ [func "void" "f" [Inner "parameter_declaration" [prim "void"]]
              [decl_array "int" "arr" (num "10");
               expr_stmt (assign (subscript (ident "arr") index) (num "1"))]]).

Definition arr_index_10 : FileInfo := array_access "arr_index_10.c" "10" (num "10").
Definition arr_index_9 : FileInfo := array_access "arr_index_9.c" "9" (num "9").
Definition arr_index_var : FileInfo :=
  array_access "arr_index_var.c" "someVar" (ident "someVar").
Definition arr_index_negative : FileInfo :=
  array_access "arr_index_negative.c" "-1" (num "-1").


(** *** Texts with a character beyond ASCII

    The tree is placed on the UTF-8 bytes of the text, which is what
    [parse_file] hands to tree-sitter; the text keeps one character at each
    position. *)







(** *** Switch statements *)

Definition two_cases : Shape :=
  unit_ [func "void" "f" [param "int" "x"]
           [switch_ (ident "x")
              [case_ "1" [expr_stmt (call "foo")];
               case_ "2" [expr_stmt (call "bar"); break_]]]].


Definition switch_lines : FileInfo :=
  parse_result "switch_lines.c"
    (join nl [ "void f(int x) {";
               "  switch (x) {";
               "    case 1:";
               "      foo();";
               "    case 2:";
               "      bar();";
               "      break;";
               "  }";
               "}" ])
    two_cases.


(** The double quote, for the C texts below. *)
Definition dq : string := String (ascii_of_nat 34) EmptyString.

(** The rule of the usage example of [base_rule.py] (SimplePatternRule),
    with the attributes its construction sets. *)
Definition demo_rule : RuleObject :=
  mkRuleObject
    (mkBaseRule "DEMO001" "演示规则" "Demo Rule" true WARNING "演示"
                "这是一个演示规则"
                (mkReference "C安全编程指南" "第3章" "P45-P50" "" "")
                (JDict []))
    "" "" ""
    [CodeExample_of ("printf(" ++ dq ++ "Hello %s" ++ dq ++ ", name);")
                    "直接使用printf可能不安全"]
    [CodeExample_of ("snprintf(buffer, sizeof(buffer), " ++ dq ++ "Hello %s"
                     ++ dq ++ ", name);")
                    "使用snprintf更安全"].

(** A dictionary with an enabled flag and nothing else. *)
Definition only_disabled : RuleDict :=
  mkRuleDict None None None (Some false) None None None None None None None
             None None None.

End samples.

(** ** Reference definitions for the properties below *)

Module spec.
Import Py tree_sitter parser base_rule rule_engine.

(** What one rule adds to the issues of one file in a batch: the issues its
    check returns when it applies to the file, nothing when it does not
    apply or when one of the two calls raises. *)
Definition contribution (file_info : FileInfo) (rule : Rule) : list Issue :=
  match rule_is_applicable rule file_info with
  | Ok true =>
      match rule_check rule file_info with
      | Ok issues => issues
      | Raise _ => []
      end
  | _ => []
  end.

(** The issues of a batch, in (file order, rule order). *)
Definition batch_issues (rs : list Rule) (parsed_files : list FileInfo)
  : list Issue :=
  flat_map (fun file_info =>
              flat_map (contribution file_info)
                       (List.filter (fun rule => enabled (self rule)) rs))
           parsed_files.

(** The configuration of a rule that export and import carry. *)
Definition triple (r : Rule) : bool * Severity * Json :=
  (enabled (self r), severity (self r), config (self r)).

(** The non-empty fields among book, chapter and page, joined. *)
Definition non_empty_fields_joined (r : RuleReference) : string :=
  join " - " (List.filter (fun s => negb (String.eqb s ""))
                          [book r; chapter r; page r]).

(** The snippet of an issue on 1-based line [L]: the 0-based indices of the
    source lines shown, and how each is rendered. *)
Definition snippet_window (lines : list string) (L : Z) : list Z :=
  range (Z.max 0 (L - 3)) (Z.min (Z.of_nat (length lines)) (L + 2)).

Definition snippet_row (lines : list string) (L : Z) (i : Z) : string :=
  (if i =? L - 1 then ">>> " else "    ")
  ++ format_4d (i + 1) ++ ": " ++ nth (Z.to_nat i) lines "".

Definition expected_snippet (lines : list string) (L : Z) : string :=
  join nl (map (snippet_row lines L) (snippet_window lines L)).

(** [create_issue] in closed form: the issue of a node. *)
Definition built_issue (self : BaseRule) (file_info : FileInfo) (n : NodeRef)
  (message suggestion : string) (custom_severity : option Severity) : Issue :=
  mkIssue (rule_id self) (name_cn self) (path file_info)
          (Z.of_nat (row_of n) + 1) (column_of n)
          (match custom_severity with
           | Some s => s
           | None => severity self
           end)
          message (description_cn self)
          (expected_snippet (lines file_info) (Z.of_nat (row_of n) + 1))
          suggestion (_format_reference self).

(** What [apply_template] is to do to one rule: [r'] is [r] after the
    template with these enabled rules and settings was applied. *)
Definition applied (enabled_rules : list string)
  (rule_settings : gmap string Settings) (r r' : Rule) : Prop :=
  id_of r' = id_of r
  /\ enabled (self r') = str_list_mem (id_of r) enabled_rules
  /\ (rule_settings !! id_of r = None -> severity (self r') = severity (self r)).

(** One step of the dictionary [export_config] fills. *)
Definition record_settings (d : gmap string Settings) (rule : Rule)
  : gmap string Settings :=
  <[id_of rule := settings_of rule]> d.








(** The first node of a type at or below a node, and in a file, in
    document order. *)
Definition first_below (node_type : string) (n : NodeRef) : NodeRef :=
  nth 0 (find_nodes_by_type n node_type) n.

Definition first_of (node_type : string) (file_info : FileInfo) : NodeRef :=
  first_below node_type (root_node file_info).

(** *** Closed forms of the other methods *)

(** The severity a settings entry asks for, when it names a value of
    [Severity]. *)
Definition severity_override (settings : Settings) : option Severity :=
  match s_severity settings with
  | Some v =>
      match Severity_of v with
      | Ok s => Some s
      | Raise _ => None
      end
  | None => None
  end.

(** A rule after a template was applied to it in full. *)
Definition templated (enabled_rules : list string)
  (rule_settings : gmap string Settings) (r : Rule) : Rule :=
  update_self
    (fun a =>
       set_severity
         (default (severity a) (rule_settings !! rule_id a ≫= severity_override))
         (set_enabled (str_list_mem (rule_id a) enabled_rules) a))
    r.

(** A rule after a configuration document was imported. *)
Definition imported (enabled_rules : list string)
  (rule_settings : gmap string Settings) (r : Rule) : Rule :=
  update_self
    (fun a =>
       set_config
         (default (config a) (rule_settings !! rule_id a ≫= s_config))
         (self (templated enabled_rules rule_settings r)))
    r.

(** Every severity the settings give to a registered rule is a value of
    [Severity]. *)
Definition valid_severities (rule_settings : gmap string Settings)
  (rs : list Rule) : Prop :=
  forall r settings v,
    In r rs -> rule_settings !! id_of r = Some settings ->
    s_severity settings = Some v -> exists s, Severity_of v = Ok s.

(** The rules of a category, in registration order. *)
Definition in_category (c : string) (rs : list Rule) : list Rule :=
  List.filter (fun rule => String.eqb (category (self rule)) c) rs.

(** The enabled rules of a list. *)
Definition enabled_of (rs : list Rule) : list Rule :=
  List.filter (fun rule => enabled (self rule)) rs.

(** The number of rules with a severity value. *)
Definition with_severity (v : string) (rs : list Rule) : Z :=
  len (List.filter (fun rule => String.eqb (value (severity (self rule))) v) rs).

(** The rule has the attributes [validate_rules] asks for. *)
Definition described (rule : Rule) : Prop :=
  name_cn (self rule) <> "" /\ description_cn (self rule) <> ""
  /\ category (self rule) <> "".

(** The problems [validate_rules] reports for one rule, given the
    identifiers seen before it. *)
Definition problems_of (rule_ids : gset string) (rule : Rule) : list string :=
  ((if decide (id_of rule ∈ rule_ids)
    then [("重复的规则ID: " ++ id_of rule)%string] else [])
   ++ (if String.eqb (name_cn (self rule)) ""
       then [("规则 " ++ id_of rule ++ " 缺少中文名称")%string] else [])
   ++ (if String.eqb (description_cn (self rule)) ""
       then [("规则 " ++ id_of rule ++ " 缺少中文描述")%string] else [])
   ++ (if String.eqb (category (self rule)) ""
       then [("规则 " ++ id_of rule ++ " 缺少分类")%string] else []))%list.

(** The distributions the loops go through have the three severity values
    as keys. *)
Definition counts_severities (distribution : gmap string Z) : Prop :=
  forall s : Severity, is_Some (distribution !! value s).

(** The counts of one category after the loop of [get_rule_statistics]
    went through [rs], starting from the counts [c0]. *)
Definition counted (c0 : CategoryCount) (rs : list Rule) : CategoryCount :=
  mkCategoryCount (total c0 + len rs)
                  (enabled_count c0 + len (enabled_of rs)).


(** The nodes at and below a node, in document order (pre-order). *)
Fixpoint nodes_below (above : list Node) (n : Node) {struct n}
  : list NodeRef :=
  mkRef n above :: flat_map (nodes_below (n :: above)) (children n).

Definition nodes_of (root : NodeRef) : list NodeRef :=
  nodes_below (ancestors root) (node root).

(** The text of the callee of a call expression: of its first child. *)
Definition callee (content : string) (call_node : NodeRef) : option string :=
  match children_of call_node with
  | func_node :: _ => Some (get_node_text func_node content)
  | [] => None
  end.

(** The call expressions at or below a node whose callee text satisfies a
    test, in document order. *)
Definition calls_to (test : string -> bool) (root : NodeRef)
  (content : string) : list NodeRef :=
  List.filter (fun call_node =>
                 match callee content call_node with
                 | Some name => test name
                 | None => false
                 end)
              (find_nodes_by_type root "call_expression").

(** The replacement [BufferOverflowRule] suggests for an unsafe function. *)
Definition safer_alternative (func_name : string) : option string :=
  if String.eqb func_name "strcpy" then Some "strncpy"
  else if String.eqb func_name "strcat" then Some "strncat"
  else if String.eqb func_name "sprintf" then Some "snprintf"
  else if String.eqb func_name "scanf" then Some "fgets + sscanf"
  else if String.eqb func_name "gets" then Some "fgets"
  else None.

(** The issue of [BufferOverflowRule] for one call expression. *)
Definition overflow_report (self : BaseRule) (file_info : FileInfo)
  (call_node : NodeRef) : option Issue :=
  func_name ← callee (content file_info) call_node;
  alternative ← safer_alternative func_name;
  Some (built_issue self file_info call_node
          ("使用了不安全的函数'" ++ func_name ++ "'，可能导致缓冲区溢出")
          ("考虑使用更安全的替代函数: " ++ alternative)
          None).

(** The issue of [MemoryLeakRule] for one function: at its first
    allocation call, when it has more allocation calls than calls of
    [free]. *)
Definition leak_report (self : BaseRule) (file_info : FileInfo)
  (func_info : FunctionInfo) : option Issue :=
  let content := content file_info in
  let allocations :=
    calls_to (fun name => str_list_mem name ["malloc"; "calloc"; "realloc"])
             (fn_node func_info) content in
  let frees :=
    calls_to (fun name => String.eqb name "free")
             (fn_node func_info) content in
  if (length frees <? length allocations)%nat then
    option_map
      (fun call_node =>
         built_issue self file_info call_node
           ("函数'" ++ get_node_text (fn_name_node func_info) content
            ++ "'中可能存在内存泄漏")
           "确保每个malloc/calloc都有对应的free调用"
           None)
      (head allocations)
  else None.

(** The issue of [FunctionReturnRule] for one call expression. *)
Definition unchecked_report (self : BaseRule) (file_info : FileInfo)
  (call_node : NodeRef) : option Issue :=
  func_name ← callee (content file_info) call_node;
  if str_list_mem func_name
       ["malloc"; "calloc"; "realloc"; "fopen"; "fread"; "fwrite"; "fclose";
        "scanf"; "fscanf"; "sscanf"; "system"; "exec"; "fork"]
     && negb match parent call_node with
             | Some p =>
                 str_list_mem (type_of p)
                   ["assignment_expression"; "if_statement";
                    "while_statement"; "for_statement"; "binary_expression";
                    "init_declarator"]
             | None => false
             end
  then Some (built_issue self file_info call_node
               ("函数'" ++ func_name ++ "'的返回值未被检查")
               ("检查" ++ func_name ++ "的返回值以处理可能的错误")
               None)
  else None.

(** Some [if] statement of the file starts one to five lines below the
    call and has a text containing [NULL] or [!=]. *)
Definition null_checked (file_info : FileInfo) (call_node : NodeRef) : bool :=
  existsb
    (fun stmt =>
       (row_of call_node <? row_of stmt)%nat
       && (row_of stmt <=? row_of call_node + 5)%nat
       && (str_in "NULL" (get_node_text stmt (content file_info))
           || str_in "!=" (get_node_text stmt (content file_info))))
    (find_nodes_by_type (root_node file_info) "if_statement").

(** The issue of [NullPointerRule] for one call expression. *)
Definition allocation_report (self : BaseRule) (file_info : FileInfo)
  (call_node : NodeRef) : option Issue :=
  func_name ← callee (content file_info) call_node;
  if str_list_mem func_name ["malloc"; "calloc"; "realloc"; "strdup"]
     && negb (null_checked file_info call_node)
  then Some (built_issue self file_info call_node
               ("调用" ++ func_name ++ "后未检查返回值是否为NULL")
               "在使用返回的指针前检查是否为NULL"
               None)
  else None.

(** An identifier of the function, outside every declaration, has the
    text [name]. *)
Definition used_outside_declarations (func_node : NodeRef)
  (content name : string) : bool :=
  existsb
    (fun identifier =>
       negb (existsb (fun p => String.eqb (type p) "declaration")
                     (ancestors identifier))
       && String.eqb (get_node_text identifier content) name)
    (find_nodes_by_type func_node "identifier").

(** The issues of [UnusedVariableRule] for one function: for every
    declaration below it and every identifier below the declaration, in
    document order. *)
Definition unused_reports (self : BaseRule) (file_info : FileInfo)
  (func_node : NodeRef) : list Issue :=
  let content := content file_info in
  flat_map
    (fun decl_node =>
       flat_map
         (fun identifier =>
            let name := get_node_text identifier content in
            if negb (str_list_mem name
                       ["int"; "char"; "float"; "double"; "void"; "long";
                        "short"; "unsigned"; "signed"; "const"; "volatile";
                        "static"; "extern"])
               && negb (used_outside_declarations func_node content name)
            then [built_issue self file_info decl_node
                    ("变量'" ++ name ++ "'声明但从未使用")
                    ("删除未使用的变量'" ++ name ++ "'")
                    None]
            else [])
         (find_nodes_by_type decl_node "identifier"))
    (find_nodes_by_type func_node "declaration").

(** The variable a call frees: the text of the first identifier among the
    children of its second child, when that is an argument list. *)
Definition freed_variable (content : string) (call_node : NodeRef)
  : option string :=
  match children_of call_node with
  | _ :: args_node :: _ =>
      if String.eqb (type_of args_node) "argument_list" then
        option_map (fun child => get_node_text child content)
                   (List.find
                      (fun child => String.eqb (type_of child) "identifier")
                      (children_of args_node))
      else None
  | _ => None
  end.

(** The nearest assignment expression above a node, if any, has a text
    containing [NULL] or [= 0]. *)
Definition nulled (content : string) (n : NodeRef) : bool :=
  match List.find (fun a => String.eqb (type a) "assignment_expression")
                  (ancestors n) with
  | Some a =>
      str_in "NULL" (Py.slice content (start_byte a) (end_byte a))
      || str_in "= 0" (Py.slice content (start_byte a) (end_byte a))
  | None => false
  end.

(** An identifier of the function with the text [name] lies on a line
    below the call's and is not [nulled]. *)
Definition used_below (func_node : NodeRef) (content : string)
  (call_node : NodeRef) (name : string) : bool :=
  existsb
    (fun identifier =>
       String.eqb (get_node_text identifier content) name
       && (row_of call_node <? row_of identifier)%nat
       && negb (nulled content identifier))
    (find_nodes_by_type func_node "identifier").

(** The issue of [UseAfterFreeRule] for one call expression of a
    function. *)
Definition use_after_free_report (self : BaseRule) (file_info : FileInfo)
  (func_node call_node : NodeRef) : option Issue :=
  let content := content file_info in
  func_name ← callee content call_node;
  if String.eqb func_name "free" then
    freed_var ← freed_variable content call_node;
    if negb (String.eqb freed_var "")
       && used_below func_node content call_node freed_var
    then Some (built_issue self file_info call_node
                 ("指针'" ++ freed_var ++ "'在释放后可能被继续使用")
                 ("在free(" ++ freed_var
                  ++ ")后将其设置为NULL，或避免后续使用")
                 None)
    else None
  else None.

(** *** The reports of the three rules, node by node

    The texts are those [get_node_text] gives: [content[start_byte:end_byte]],
    the source text of the node when only ASCII characters stand before
    it. *)








End spec.

(** ** Engine states used as examples *)

Module engines.
Import Py base_rule rule_engine.

(** A template as a JSON file of the templates directory may define it:
    the severity it asks for is not a value of [Severity]. *)
Definition strict_template : Template :=
  mkTemplate (Some "strict") (Some "one rule, raised severity")
             (Some ["C001"])
             (Some {[ "C001" := mkSettings None (Some "high") None None ]}).

(** The engine after start-up (every rule enabled), with that template. *)
Definition engine_with_strict : State :=
  mkState loaded_rules {[ "strict" := strict_template ]} ∅ "/work".

(** A template with a valid severity override. *)
Definition careful_template : Template :=
  mkTemplate (Some "careful") (Some "two rules")
             (Some ["C001"; "L005"])
             (Some {[ "L005" := mkSettings None (Some "警告") None None ]}).

Definition engine_with_careful : State :=
  mkState loaded_rules {[ "careful" := careful_template ]} ∅ "/work".

(** An engine with a configuration file whose entry for L001 has a
    severity that is no value of [Severity], and a config. *)
Definition odd_config : Config :=
  mkConfig (Some "1.0") (Some "/work") (Some ["L001"; "Z999"])
           (Some {[ "L001" := mkSettings (Some true) (Some "high") (Some "x")
                                         (Some (JDict [("limit", JInt 3)])) ]}).

Definition engine_with_file : State :=
  mkState loaded_rules ∅ {[ "odd.json" := odd_config ]} "/work".

End engines.
(** * Properties *)

Import Py tree_sitter parser base_rule rule_engine.

(** ** The sample files

    The tokens [place] locates in two of the samples are the tokens of the
    source text, in order. *)

Example wrapped_assign_tokens :
  samples.token_texts (content samples.wrapped_assign_in_if)
                      (node (root_node samples.wrapped_assign_in_if))
  = ["void"; "f"; "("; "int"; "x"; ")"; "{"; "if"; "("; "("; "x"; "="; "5";
     ")"; "!="; "0"; ")"; "{"; "}"; "}"].
Proof. vm_compute. reflexivity. Qed.

Example switch_lines_case_rows :
  map row_of (find_nodes_by_type (root_node samples.switch_lines)
                                 "case_statement") = [2%nat; 4%nat]
  /\ map row_of (find_nodes_by_type (root_node samples.switch_lines)
                                    "break_statement") = [6%nat].
Proof. split; vm_compute; reflexivity. Qed.

(** ** Batches of checks *)

Section Batch.

Lemma run_rule_eq (file_info : FileInfo) (rule : Rule) (st : State) :
  run_rule file_info rule st = (st, Ok (spec.contribution file_info rule)).
Proof.
  unfold run_rule, tryM, bindM, lift, ret, spec.contribution.
  destruct (rule_is_applicable rule file_info) as [[|]|e]; try reflexivity.
  destruct (rule_check rule file_info); reflexivity.
Qed.

Lemma forM_extend_reads {A B : Type} (body : A -> M (list B))
  (g : A -> list B) (l : list A) :
  (forall x st, body x st = (st, Ok (g x))) ->
  forall st, forM_extend body l st = (st, Ok (flat_map g l)).
Proof.
  intros Hbody. induction l as [|x l IH]; intros st; simpl.
  - reflexivity.
  - unfold bindM. rewrite Hbody, IH. reflexivity.
Qed.

Lemma flat_map_nothing {A B : Type} (l : list A) :
  flat_map (fun _ : A => @nil B) l = [].
Proof. induction l; simpl; auto. Qed.

Lemma check_files_eq (parsed_files : list FileInfo) (st : State) :
  check_files parsed_files st
  = (st, Ok (spec.batch_issues (rules st) parsed_files)).
Proof.
  unfold check_files, get_enabled_rules, bindM, get, ret, spec.batch_issues.
  destruct (List.filter _ (rules st)) as [|r rs] eqn:E.
  - simpl. rewrite flat_map_nothing. reflexivity.
  - apply forM_extend_reads. intros f st'.
    apply forM_extend_reads. intros r' st''. apply run_rule_eq.
Qed.

End Batch.

(** C8: a rule whose check raises on one file adds no issue for that file;
    every other pair of an enabled rule and a file is still evaluated, and
    the batch returns, without raising, the issues collected in (file
    order, rule order). *)
Theorem check_files_isolates_failures
  (parsed_files : list FileInfo) (st : State) :
  snd (check_files parsed_files st)
  = Ok (flat_map
          (fun file_info =>
             flat_map (spec.contribution file_info)
                      (List.filter (fun rule => enabled (self rule)) (rules st)))
          parsed_files)
  /\ (forall file_info rule e,
        rule_check rule file_info = Raise e ->
        spec.contribution file_info rule = [])
  /\ (forall file_info rule issues,
        rule_is_applicable rule file_info = Ok true ->
        rule_check rule file_info = Ok issues ->
        spec.contribution file_info rule = issues).
Proof.
  split; [| split].
  - rewrite check_files_eq. reflexivity.
  - intros f r e H. unfold spec.contribution. rewrite H.
    destruct (rule_is_applicable r f) as [[|]|]; reflexivity.
  - intros f r iss Ha Hc. unfold spec.contribution. rewrite Ha, Hc. reflexivity.
Qed.

(** C10: a batch of checks leaves the engine as it found it: the same rule
    list, and for every rule the same enabled flag, severity and config. *)
Theorem check_files_frame (parsed_files : list FileInfo) (st : State) :
  fst (check_files parsed_files st) = st
  /\ map spec.triple (rules (fst (check_files parsed_files st)))
     = map spec.triple (rules st).
Proof.
  rewrite check_files_eq. split; reflexivity.
Qed.

(** ** Templates *)

Section Templates.

Lemma Severity_of_raises (v : string) (e : Exc) :
  Severity_of v = Raise e -> e = ValueError.
Proof.
  unfold Severity_of.
  repeat match goal with |- context [if ?b then _ else _] => destruct b end;
    congruence.
Qed.

Lemma apply_to_rule_ok enabled_rules rule_settings r r' :
  apply_to_rule enabled_rules rule_settings r = (r', Ok tt) ->
  spec.applied enabled_rules rule_settings r r'.
Proof.
  unfold apply_to_rule, spec.applied, id_of. cbn [update_self self set_enabled rule_id].
  destruct (rule_settings !! rule_id (self r)) as [s|] eqn:Hs.
  - destruct (s_severity s) as [v|].
    + destruct (Severity_of v); intros H; inversion H; subst; cbn.
      repeat split; auto; discriminate.
    + intros H; inversion H; subst; cbn. repeat split; auto; discriminate.
  - intros H; inversion H; subst; cbn. repeat split; auto.
Qed.

Lemma apply_to_rule_raises enabled_rules rule_settings r r' e :
  apply_to_rule enabled_rules rule_settings r = (r', Raise e) ->
  e = ValueError.
Proof.
  unfold apply_to_rule.
  destruct (rule_settings !! _) as [s|]; [|congruence].
  destruct (s_severity s) as [v|]; [|congruence].
  destruct (Severity_of v) eqn:E; [congruence|].
  intros H; inversion H; subst. eapply Severity_of_raises; eauto.
Qed.

Lemma apply_loop enabled_rules rule_settings rs :
  match for_each_rule (apply_to_rule enabled_rules rule_settings) rs with
  | (rs', Ok _) => Forall2 (spec.applied enabled_rules rule_settings) rs rs'
  | (_, Raise e) => e = ValueError
  end.
Proof.
  induction rs as [|r rs IH]; simpl.
  - constructor.
  - destruct (apply_to_rule enabled_rules rule_settings r) as [r' [[]|e]] eqn:E.
    + destruct (for_each_rule _ rs) as [rs' [[]|e]]; auto.
      constructor; auto. apply apply_to_rule_ok; auto.
    + eapply apply_to_rule_raises; eauto.
Qed.

(** When no severity override of the template is invalid (the call does
    not raise [ValueError]), the template is applied to every rule. *)
Lemma apply_template_without_value_error template_name template st :
  rule_templates st !! template_name = Some template ->
  snd (apply_template template_name st) <> Raise ValueError ->
  Forall2 (spec.applied (default [] (t_enabled_rules template))
                   (default ∅ (t_rule_settings template)))
          (rules st) (rules (fst (apply_template template_name st))).
Proof.
  intros Ht.
  unfold apply_template, bindM, get, for_rules. rewrite Ht.
  pose proof (apply_loop (default [] (t_enabled_rules template))
                         (default ∅ (t_rule_settings template)) (rules st)) as H.
  destruct (for_each_rule _ (rules st)) as [rs' [[]|e]].
  - intros _. destruct (t_name template); exact H.
  - subst e. cbn. congruence.
Qed.

End Templates.

(** C1, on the template [strict] whose severity override for C001 is the
    string "high": [apply_template] raises [ValueError] at the first rule
    and returns with the nine other rules still enabled, although the
    enabled rules of the template are C001 alone. *)
Theorem apply_template_stops_at_invalid_severity :
  rule_templates engines.engine_with_strict !! "strict"
  = Some engines.strict_template
  /\ t_enabled_rules engines.strict_template = Some ["C001"]
  /\ snd (apply_template "strict" engines.engine_with_strict) = Raise ValueError
  /\ map (fun r => (id_of r, enabled (self r)))
         (rules (fst (apply_template "strict" engines.engine_with_strict)))
     = [("C001", true); ("C002", true); ("C003", true); ("C004", true);
        ("C005", true); ("L001", true); ("L002", true); ("L003", true);
        ("L004", true); ("L005", true)].
Proof. repeat split; vm_compute; reflexivity. Qed.

(** ** Export and import of the configuration *)

Section RoundTrip.

Lemma Severity_of_value (s : Severity) : Severity_of (value s) = Ok s.
Proof. destruct s; reflexivity. Qed.

Lemma str_list_mem_In (x : string) (l : list string) :
  str_list_mem x l = true <-> In x l.
Proof.
  unfold str_list_mem. rewrite existsb_exists. split.
  - intros (y & Hy & E). apply String.eqb_eq in E. subst. exact Hy.
  - intros H. exists x. split; auto. apply String.eqb_refl.
Qed.

(** With distinct identifiers, the exported list of enabled rules tells of
    every rule whether it was enabled. *)
Lemma exported_enabled (rs : list Rule) (r : Rule) :
  List.NoDup (map id_of rs) -> In r rs ->
  str_list_mem (id_of r)
    (map id_of (List.filter (fun rule => enabled (self rule)) rs))
  = enabled (self r).
Proof.
  intros Hnd Hin.
  destruct (enabled (self r)) eqn:En.
  - apply str_list_mem_In. apply in_map. apply filter_In. auto.
  - destruct (str_list_mem _ _) eqn:Hm; auto.
    apply str_list_mem_In in Hm. apply in_map_iff in Hm.
    destruct Hm as (r' & Hid & Hr'). apply filter_In in Hr'.
    destruct Hr' as [Hr' En'].
    assert (r' = r); [|congruence].
    clear En En'. induction rs as [|a rs IH]; [contradiction|].
    simpl in Hnd. inversion Hnd as [|? ? Hnotin Hnd']; subst.
    destruct Hin as [->|Hin], Hr' as [->|Hr']; auto.
    + exfalso. apply Hnotin. rewrite <- Hid. apply in_map. exact Hr'.
    + exfalso. apply Hnotin. rewrite Hid. apply in_map. exact Hin.
Qed.

Lemma fold_settings_other (rs : list Rule) (d : gmap string Settings)
  (k : string) :
  ~ In k (map id_of rs) ->
  fold_left spec.record_settings rs d !! k = d !! k.
Proof.
  revert d. induction rs as [|a rs IH]; intros d Hk; simpl; auto.
  rewrite IH.
  - unfold spec.record_settings. apply lookup_insert_ne. intros E. apply Hk.
    left. exact E.
  - intros H. apply Hk. right. exact H.
Qed.

(** With distinct identifiers, the exported settings hold every rule's own
    entry. *)
Lemma exported_settings (rs : list Rule) (d : gmap string Settings) (r : Rule) :
  List.NoDup (map id_of rs) -> In r rs ->
  fold_left spec.record_settings rs d !! id_of r = Some (settings_of r).
Proof.
  revert d. induction rs as [|a rs IH]; intros d Hnd Hin; [contradiction|].
  simpl in *. inversion Hnd as [|? ? Hnotin Hnd']; subst.
  destruct Hin as [->|Hin].
  - rewrite fold_settings_other; auto. unfold spec.record_settings.
    apply lookup_insert_eq.
  - apply IH; auto.
Qed.

Lemma import_to_rule_restores enabled_rules rule_settings (r2 r : Rule) :
  id_of r2 = id_of r ->
  str_list_mem (id_of r) enabled_rules = enabled (self r) ->
  rule_settings !! id_of r = Some (settings_of r) ->
  exists r3,
    import_to_rule enabled_rules rule_settings r2 = (r3, Ok tt)
    /\ spec.triple r3 = spec.triple r
    /\ id_of r3 = id_of r2.
Proof.
  intros Hid Hen Hset. unfold import_to_rule.
  cbn [id_of update_self self set_enabled rule_id].
  fold (id_of r2). rewrite Hid, Hset. cbn [settings_of s_severity s_config].
  rewrite Severity_of_value. eexists. split; [reflexivity|].
  unfold spec.triple. cbn. rewrite Hen. auto.
Qed.

Lemma import_loop enabled_rules rule_settings (rs2 rs : list Rule) :
  map id_of rs2 = map id_of rs ->
  (forall r, In r rs ->
     str_list_mem (id_of r) enabled_rules = enabled (self r)
     /\ rule_settings !! id_of r = Some (settings_of r)) ->
  exists rs3,
    for_each_rule (import_to_rule enabled_rules rule_settings) rs2
    = (rs3, Ok tt)
    /\ map spec.triple rs3 = map spec.triple rs
    /\ map id_of rs3 = map id_of rs2.
Proof.
  revert rs. induction rs2 as [|r2 rs2 IH]; intros [|r rs] Hids Hall;
    simpl in Hids; try discriminate.
  - exists []. auto.
  - inversion Hids as [[Hid Hrest]].
    destruct (Hall r (or_introl eq_refl)) as [Hen Hset].
    destruct (import_to_rule_restores _ _ r2 r Hid Hen Hset)
      as (r3 & E3 & T3 & I3).
    destruct (IH rs Hrest) as (rs3 & Ers3 & Trs3 & Irs3).
    { intros r' Hr'. apply Hall. right. exact Hr'. }
    exists (r3 :: rs3). simpl. rewrite E3, Ers3. simpl.
    rewrite T3, Trs3, I3, Irs3. auto.
Qed.

End RoundTrip.

(** C2: with distinct rule identifiers (the registry's invariant), export
    followed by import from the same destination restores, for every
    registered rule, the enabled flag, the severity and the config it had at
    export time, whatever the rules hold when the import starts (the same
    engine later, or a freshly constructed one with the same rule set). *)
Theorem export_import_round_trip (config_path : string) (st st2 : State) :
  List.NoDup (map id_of (rules st)) ->
  map id_of (rules st2) = map id_of (rules st) ->
  fs st2 !! config_path = fs (fst (export_config config_path st)) !! config_path ->
  snd (export_config config_path st) = Ok tt
  /\ snd (import_config config_path st2) = Ok tt
  /\ map spec.triple (rules (fst (import_config config_path st2)))
     = map spec.triple (rules st)
  /\ map id_of (rules (fst (import_config config_path st2)))
     = map id_of (rules st).
Proof.
  intros Hnd Hids Hfs.
  unfold export_config, bindM, get, put in Hfs |- *. cbn in Hfs |- *.
  rewrite lookup_insert_eq in Hfs.
  split; [reflexivity|].
  unfold import_config, tryM, bindM, get, for_rules. rewrite Hfs.
  cbn [c_enabled_rules c_rule_settings default from_option id].
  destruct (import_loop
              (map id_of (List.filter (fun rule => enabled (self rule)) (rules st)))
              (fold_left (fun d rule => <[id_of rule := settings_of rule]> d)
                         (rules st) ∅)
              (rules st2) (rules st) Hids) as (rs3 & E & T & I).
  { intros r Hr. split.
    - apply exported_enabled; auto.
    - apply (exported_settings (rules st) ∅ r Hnd Hr). }
  rewrite E. cbn. rewrite I, Hids. auto.
Qed.

(** The engine's own way of registering a rule keeps identifiers
    distinct. *)
Lemma add_rule_keeps_ids_distinct (rule : Rule) (st : State) :
  List.NoDup (map id_of (rules st)) ->
  List.NoDup (map id_of (rules (fst (add_rule rule st)))).
Proof.
  intros Hnd.
  assert (Hfilter : forall rs, List.NoDup (map id_of rs) ->
            List.NoDup (map id_of
              (List.filter (fun r => negb (String.eqb (id_of r) (id_of rule))) rs))
            /\ ~ In (id_of rule) (map id_of
              (List.filter (fun r => negb (String.eqb (id_of r) (id_of rule))) rs))).
  { induction rs as [|a rs IH]; intros H; simpl.
    - split; [constructor | auto].
    - inversion H as [|? ? Hn Hr]; subst. destruct (IH Hr) as [IH1 IH2].
      destruct (String.eqb (id_of a) (id_of rule)) eqn:E; simpl; auto.
      split.
      + constructor; auto. intros Hin. apply Hn.
        apply in_map_iff in Hin. destruct Hin as (x & Hx & Hin).
        apply filter_In in Hin. rewrite <- Hx. apply in_map. tauto.
      + intros [Ha|Hin]; auto. apply String.eqb_neq in E. auto. }
  assert (Happ : forall rs, List.NoDup (map id_of rs) ->
            ~ In (id_of rule) (map id_of rs) ->
            List.NoDup (map id_of (rs ++ [rule])%list)).
  { intros rs H Hn. rewrite map_app. simpl.
    induction (map id_of rs) as [|k ks IH]; simpl.
    - constructor; [auto | constructor].
    - inversion H as [|? ? Hk Hks]; subst. constructor.
      + rewrite in_app_iff. intros [Hin|[E|[]]]; [auto|].
        apply Hn. left. auto.
      + apply IH; auto. intros Hin. apply Hn. right. exact Hin. }
  unfold add_rule, get_rule_by_id, remove_rule, bindM, get, put, ret.
  destruct (List.find _ (rules st)) as [r|] eqn:Ef; cbn.
  - destruct (Hfilter _ Hnd). apply Happ; auto.
  - apply Happ; auto. intros Hin. apply in_map_iff in Hin.
    destruct Hin as (x & Hx & Hin).
    pose proof (find_none _ _ Ef x Hin) as Hne. cbn in Hne.
    rewrite Hx, String.eqb_refl in Hne. discriminate.
Qed.

(** The rules the engine loads have distinct identifiers. *)
Example loaded_rules_ids_distinct : List.NoDup (map id_of loaded_rules).
Proof.
  vm_compute. repeat constructor; intros H;
    repeat (destruct H as [H|H]; [discriminate H|]); exact H.
Qed.

(** The round trip on the engine as it starts: export to a file, change
    everything, import the file. *)
Lemma export_import_round_trip_witness :
  map spec.triple
      (rules (fst (import_config "rules.json"
                     (fst (apply_template "careful"
                             (fst (export_config "rules.json"
                                     engines.engine_with_careful)))))))
  = map spec.triple (rules engines.engine_with_careful).
Proof.
  apply (export_import_round_trip "rules.json" engines.engine_with_careful
           (fst (apply_template "careful"
                   (fst (export_config "rules.json"
                           engines.engine_with_careful))))).
  - vm_compute. repeat constructor; intros H;
      repeat (destruct H as [H|H]; [discriminate H|]); exact H.
  - vm_compute. reflexivity.
  - vm_compute. reflexivity.
Defined.

(** ** Issues *)

Section Issues.

Lemma length_append (s t : string) :
  String.length (s ++ t) = (String.length s + String.length t)%nat.
Proof. induction s as [|c s IH]; simpl; auto. Qed.

Lemma length_spaces (n : nat) : String.length (spaces n) = n.
Proof. induction n; simpl; auto. Qed.

Lemma length_format_4d (n : Z) :
  String.length (format_4d n) = Nat.max 4 (String.length (str_of_int n)).
Proof.
  unfold format_4d. rewrite length_append, length_spaces. lia.
Qed.

Lemma short_numbers_below_10000 :
  forallb (fun k => (String.length (str_of_int (Z.of_nat k)) <=? 4)%nat)
          (seq 0 (Z.to_nat 10000)) = true.
Proof. vm_compute. reflexivity. Qed.

Lemma format_4d_width (n : Z) :
  (4 <= String.length (format_4d n))%nat
  /\ (0 <= n < 10000 -> String.length (format_4d n) = 4%nat).
Proof.
  rewrite length_format_4d. split; [lia|].
  intros Hn.
  pose proof short_numbers_below_10000 as H.
  rewrite forallb_forall in H.
  specialize (H (Z.to_nat n)).
  rewrite Z2Nat.id in H by lia.
  assert (Hin : In (Z.to_nat n) (seq 0 (Z.to_nat 10000))) by (apply in_seq; lia).
  apply H in Hin. apply Nat.leb_le in Hin. lia.
Qed.

Lemma range_In (a b x : Z) : In x (range a b) <-> a <= x < b.
Proof.
  unfold range. rewrite in_map_iff. split.
  - intros (k & <- & Hk). apply in_seq in Hk. lia.
  - intros H. exists (Z.to_nat (x - a)). split; [lia|]. apply in_seq. lia.
Qed.

Lemma range_five (a : Z) : range a (a + 5) = [a; a + 1; a + 2; a + 3; a + 4].
Proof.
  unfold range. replace (a + 5 - a) with 5 by lia. simpl.
  repeat f_equal; lia.
Qed.

Lemma list_get_in_range {A : Type} (l : list A) (i : Z) (d : A) :
  0 <= i < Z.of_nat (length l) -> list_get l i = Ok (nth (Z.to_nat i) l d).
Proof.
  intros H. unfold list_get.
  destruct (i <? 0) eqn:E1; [lia|].
  destruct (0 <=? i) eqn:E2; [|lia].
  destruct (i <? Z.of_nat (length l)) eqn:E3; [|lia]. simpl.
  destruct (nth_error l (Z.to_nat i)) eqn:E.
  - erewrite nth_error_nth; eauto.
  - apply nth_error_None in E. lia.
Qed.

Lemma for_append_ok {A B : Type} (f : A -> Result B) (g : A -> B)
  (l : list A) :
  (forall x, In x l -> f x = Ok (g x)) -> for_append f l = Ok (map g l).
Proof.
  induction l as [|x l IH]; intros H; simpl; auto.
  rewrite (H x) by (left; auto). simpl. rewrite IH; auto.
  intros y Hy. apply H. right. exact Hy.
Qed.


(** [create_issue] never raises: every line it reads exists. *)
Lemma create_issue_eq self file_info n message suggestion custom_severity :
  create_issue self file_info n message suggestion custom_severity
  = Ok (spec.built_issue self file_info n message suggestion custom_severity).
Proof.
  unfold create_issue, spec.built_issue, spec.expected_snippet, spec.snippet_window.
  rewrite (for_append_ok _ (spec.snippet_row (lines file_info)
                                             (Z.of_nat (row_of n) + 1))).
  - reflexivity.
  - intros i Hi. apply range_In in Hi.
    unfold snippet_line, spec.snippet_row.
    rewrite (list_get_in_range _ _ "") by lia. reflexivity.
Qed.

End Issues.

(** C7: the snippet of an issue on the node's 1-based line [L] shows the
    source lines with 0-based indices from [max(0, L-3)] up to, not
    including, [min(lineCount, L+2)], joined by newlines; each as its
    marker (">>> " on the triggering line, four blanks elsewhere), its
    1-based number right-aligned in a field of four characters, ": " and the
    line.  Away from the ends of the file these are five lines: two before,
    the triggering one, two after. *)
Theorem create_issue_snippet
  (self : BaseRule) (file_info : FileInfo) (n : NodeRef)
  (message suggestion : string) (custom_severity : option Severity) :
  let L := Z.of_nat (row_of n) + 1 in
  let lineCount := Z.of_nat (length (lines file_info)) in
  let shown := range (Z.max 0 (L - 3)) (Z.min lineCount (L + 2)) in
  exists issue,
    create_issue self file_info n message suggestion custom_severity = Ok issue
    /\ line_number issue = L
    /\ code_snippet issue
       = join nl
           (map (fun i =>
                   (if i =? L - 1 then ">>> " else "    ")
                   ++ format_4d (i + 1) ++ ": "
                   ++ nth (Z.to_nat i) (lines file_info) "")
                shown)
    /\ (forall i, In i shown <-> Z.max 0 (L - 3) <= i < Z.min lineCount (L + 2))
    /\ (3 <= L <= lineCount - 2 -> shown = [L - 3; L - 2; L - 1; L; L + 1])
    /\ (forall i, In i shown ->
          (4 <= String.length (format_4d (i + 1)))%nat
          /\ (i + 1 < 10000 -> String.length (format_4d (i + 1)) = 4%nat)).
Proof.
  intros L lineCount shown.
  exists (spec.built_issue self file_info n message suggestion custom_severity).
  split; [apply create_issue_eq|]. split; [reflexivity|].
  split; [reflexivity|]. split; [|split].
  - intros i. apply range_In.
  - intros H. unfold shown.
    replace (Z.max 0 (L - 3)) with (L - 3) by lia.
    replace (Z.min lineCount (L + 2)) with (L - 3 + 5) by lia.
    rewrite range_five. repeat (f_equal; try lia).
  - intros i Hi. apply range_In in Hi.
    destruct (format_4d_width (i + 1)) as [H4 Heq]. split; [exact H4|].
    intros Hlt. apply Heq. lia.
Qed.

(** C9, as the code has it: an empty book gives the empty string whatever
    the chapter and the page; otherwise the result is the non-empty fields
    among book, chapter and page, in that order, joined by " - ". *)
Theorem format_reference_needs_book (self : BaseRule) :
  _format_reference self
  = if String.eqb (book (reference self)) "" then ""
    else spec.non_empty_fields_joined (reference self).
Proof.
  unfold _format_reference, spec.non_empty_fields_joined.
  destruct (String.eqb (book (reference self)) "") eqn:Eb; [reflexivity|].
  simpl. rewrite Eb. simpl.
  destruct (String.eqb (chapter (reference self)) "");
    destruct (String.eqb (page (reference self)) ""); reflexivity.
Qed.

(** C9 does not hold as stated: a reference with a chapter and a page but no
    book is formatted as the empty string, not as its non-empty fields. *)
Lemma format_reference_drops_chapter_without_book :
  let r := mkReference "" "第1章" "P8-P12" "" "" in
  let rule := mkBaseRule "X001" "rule" "rule" true WARNING "通用" "" r (JDict []) in
  _format_reference rule = ""
  /\ spec.non_empty_fields_joined r = "第1章 - P8-P12"
  /\ _format_reference rule <> spec.non_empty_fields_joined r.
Proof.
  cbv zeta. split; [reflexivity|]. split; [reflexivity|].
  vm_compute. discriminate.
Qed.

(** ** Texts *)

Section Texts.

Local Arguments String.append !_ _ / : simpl nomatch.










End Texts.

(** ** Loops that collect issues *)

Section Loops.

(** A loop whose every turn adds one issue or none. *)
Lemma for_extend_omap {A B : Type} (f : A -> Result (list B))
  (g : A -> option B) (l : list A) :
  (forall x, In x l -> f x = Ok (match g x with
                                 | Some y => [y]
                                 | None => []
                                 end)) ->
  for_extend f l = Ok (omap g l).
Proof.
  induction l as [|x l IH]; intros H; cbn [for_extend omap list_omap];
    [reflexivity|].
  rewrite (H x) by (left; reflexivity).
  rewrite IH by (intros y Hy; apply H; right; exact Hy).
  cbn [Py.bind]. destruct (g x); reflexivity.
Qed.

Lemma for_extend_flat {A B : Type} (f : A -> Result (list B))
  (g : A -> list B) (l : list A) :
  (forall x, In x l -> f x = Ok (g x)) ->
  for_extend f l = Ok (flat_map g l).
Proof.
  induction l as [|x l IH]; intros H; cbn [for_extend flat_map];
    [reflexivity|].
  rewrite (H x) by (left; reflexivity).
  rewrite IH by (intros y Hy; apply H; right; exact Hy). reflexivity.
Qed.

End Loops.

(** ** Array bounds *)

Section ArrayBounds.
Import memory_rules.ArrayBoundsRule.






End ArrayBounds.


(** The three array accesses of the specification. *)
Example array_index_at_size_is_flagged :
  exists issue,
    memory_rules.ArrayBoundsRule.check memory_rules.ArrayBoundsRule.init
                                       samples.arr_index_10 = Ok [issue]
    /\ line_number issue = 3.
Proof. eexists. split; vm_compute; reflexivity. Qed.

Example array_index_below_size_is_accepted :
  memory_rules.ArrayBoundsRule.check memory_rules.ArrayBoundsRule.init
                                     samples.arr_index_9 = Ok [].
Proof. vm_compute. reflexivity. Qed.

Example array_index_variable_is_accepted :
  memory_rules.ArrayBoundsRule.check memory_rules.ArrayBoundsRule.init
                                     samples.arr_index_var = Ok [].
Proof. vm_compute. reflexivity. Qed.


(** ** Division by zero *)

Section Division.
Import logic_rules.DivisionByZeroRule.








End Division.


(** The three divisions of the specification. *)
Example division_by_literal_zero_is_critical :
  exists issue,
    logic_rules.DivisionByZeroRule.check logic_rules.DivisionByZeroRule.init
                                         samples.div_by_literal = Ok [issue]
    /\ issue_severity issue = CRITICAL /\ line_number issue = 2.
Proof.
  eexists. split; [vm_compute; reflexivity|].
  split; vm_compute; reflexivity.
Qed.

Example division_unguarded_is_warning :
  exists issue,
    logic_rules.DivisionByZeroRule.check logic_rules.DivisionByZeroRule.init
                                         samples.div_unguarded = Ok [issue]
    /\ issue_severity issue = WARNING /\ line_number issue = 2.
Proof.
  eexists. split; [vm_compute; reflexivity|].
  split; vm_compute; reflexivity.
Qed.

Example division_guarded_is_accepted :
  logic_rules.DivisionByZeroRule.check logic_rules.DivisionByZeroRule.init
                                       samples.div_guarded = Ok [].
Proof. vm_compute. reflexivity. Qed.


(** ** Switch fallthrough *)

Section Traversal.

(** Induction over a syntax tree. *)
Lemma Node_tree_ind (P : Node -> Prop) :
  (forall n, Forall P (children n) -> P n) -> forall n, P n.
Proof.
  intros H. fix IH 1. intros [ty sb eb sp ep kids]. apply H. simpl.
  induction kids as [|k kids IHk]; constructor; [apply IH | exact IHk].
Qed.

(** A node found below [n] has the ancestors of [n] above it, and more
    unless it is [n] itself. *)
Lemma traverse_ancestors (node_type : string) (n : Node) :
  forall above r,
    In r (traverse node_type above n) ->
    exists below, ancestors r = (below ++ above)%list
                  /\ (below = [] -> node r = n).
Proof.
  induction n as [n IH] using Node_tree_ind. intros above r.
  destruct n as [ty sb eb sp ep kids]. simpl in *.
  rewrite in_app_iff. intros [Hr|Hr].
  - destruct (String.eqb ty node_type); [|contradiction].
    destruct Hr as [<-|[]]. exists []. auto.
  - apply in_flat_map in Hr. destruct Hr as (k & Hk & Hr).
    rewrite List.Forall_forall in IH.
    destruct (IH k Hk _ _ Hr) as (below & Hb & _).
    exists (below ++ [mkNode ty sb eb sp ep kids])%list. split.
    + rewrite Hb, <- app_assoc. reflexivity.
    + intros E. destruct below; discriminate.
Qed.


End Traversal.

Section Fallthrough.
Import logic_rules.SwitchFallthroughRule.














End Fallthrough.



(** ** Assignment in a condition *)

(** The first two conditions of the specification: an assignment is
    flagged, on the assignment node; a comparison is not. *)
Example assignment_in_condition_is_flagged :
  let f := samples.assign_in_if in
  let assign_node := spec.first_of "assignment_expression" f in
  get_node_text assign_node (content f) = "x = 5"
  /\ exists issue,
       logic_rules.AssignmentInConditionRule.check
         logic_rules.AssignmentInConditionRule.init f = Ok [issue]
       /\ line_number issue = Z.of_nat (row_of assign_node) + 1
       /\ column issue = column_of assign_node.
Proof.
  cbv zeta. split; [vm_compute; reflexivity|]. eexists.
  split; [vm_compute; reflexivity|]. split; vm_compute; reflexivity.
Qed.

Example comparison_in_condition_is_accepted :
  logic_rules.AssignmentInConditionRule.check
    logic_rules.AssignmentInConditionRule.init samples.compare_in_if = Ok [].
Proof. vm_compute. reflexivity. Qed.

(** What the code takes for an intended assignment: parentheses directly
    around the parenthesised assignment, as in [if ((x = 5))]. *)
Example doubled_parentheses_are_accepted :
  logic_rules.AssignmentInConditionRule.check
    logic_rules.AssignmentInConditionRule.init samples.double_paren_assign
  = Ok [].
Proof. vm_compute. reflexivity. Qed.

(** C3, third condition, on [if ((x = 5) != 0)]: the parent of the
    assignment is a parenthesised expression, but the parent of that one is
    the comparison, not a second pair of parentheses; the assignment is not
    taken for an intended one, and one issue is produced for it. *)
Theorem assignment_wrapped_in_comparison_is_flagged :
  let f := samples.wrapped_assign_in_if in
  let assign_node := spec.first_of "assignment_expression" f in
  content f = "void f(int x) { if ((x = 5) != 0) { } }"
  /\ get_node_text assign_node (content f) = "x = 5"
  /\ option_map type_of (parent assign_node) = Some "parenthesized_expression"
  /\ option_map type_of (mbind parent (parent assign_node))
     = Some "binary_expression"
  /\ logic_rules.AssignmentInConditionRule._is_intentional_assignment assign_node
     = false
  /\ exists issue,
       logic_rules.AssignmentInConditionRule.check
         logic_rules.AssignmentInConditionRule.init f = Ok [issue]
       /\ line_number issue = 1
       /\ column issue = column_of assign_node.
Proof.
  cbv zeta. split; [reflexivity|].
  split; [vm_compute; reflexivity|]. split; [vm_compute; reflexivity|].
  split; [vm_compute; reflexivity|]. split; [vm_compute; reflexivity|].
  eexists. split; [vm_compute; reflexivity|]. split; vm_compute; reflexivity.
Qed.

(** * Further properties *)

(** ** The engine's configuration methods *)

Section Configuration.

Lemma for_each_rule_total (body : Rule -> Rule * Result unit)
  (g : Rule -> Rule) (rs : list Rule) :
  (forall r, In r rs -> body r = (g r, Ok tt)) ->
  for_each_rule body rs = (map g rs, Ok tt).
Proof.
  induction rs as [|r rs IH]; intros H; simpl.
  - reflexivity.
  - rewrite (H r) by (left; reflexivity).
    rewrite IH by (intros x Hx; apply H; right; exact Hx). reflexivity.
Qed.

Lemma import_to_rule_eq enabled_rules rule_settings r :
  import_to_rule enabled_rules rule_settings r
  = (spec.imported enabled_rules rule_settings r, Ok tt).
Proof.
  unfold import_to_rule, spec.imported, spec.templated, spec.severity_override,
    id_of.
  destruct r as [a f g]. destruct a. unfold update_self.
  cbn [update_self self set_enabled set_severity set_config rule_id enabled
       severity config is_applicable_method check_method name_cn name_en
       category description_cn reference].
  destruct (rule_settings !! rule_id0) as [s|]; cbn; [|reflexivity].
  destruct (s_severity s) as [v|]; cbn.
  - destruct (Severity_of v) as [sv|e] eqn:E.
    + destruct (s_config s); reflexivity.
    + apply Severity_of_raises in E. subst e. destruct (s_config s); reflexivity.
  - destruct (s_config s); reflexivity.
Qed.

Lemma apply_to_rule_eq enabled_rules rule_settings r :
  (forall settings v,
     rule_settings !! id_of r = Some settings ->
     s_severity settings = Some v -> exists s, Severity_of v = Ok s) ->
  apply_to_rule enabled_rules rule_settings r
  = (spec.templated enabled_rules rule_settings r, Ok tt).
Proof.
  unfold apply_to_rule, spec.templated, spec.severity_override, id_of.
  destruct r as [a f g]. destruct a. unfold update_self.
  cbn [update_self self set_enabled set_severity set_config rule_id enabled
       severity config is_applicable_method check_method name_cn name_en
       category description_cn reference].
  intros Hv.
  destruct (rule_settings !! rule_id0) as [s|]; cbn; [|reflexivity].
  destruct (s_severity s) as [v|] eqn:Es; cbn; [|reflexivity].
  destruct (Hv s v eq_refl Es) as [sv Hsv]. rewrite Hsv. reflexivity.
Qed.

Lemma apply_template_eq template_name template st :
  rule_templates st !! template_name = Some template ->
  spec.valid_severities (default ∅ (t_rule_settings template)) (rules st) ->
  apply_template template_name st
  = (set_rules (map (spec.templated (default [] (t_enabled_rules template))
                                    (default ∅ (t_rule_settings template)))
                    (rules st)) st,
     match t_name template with
     | Some _ => Ok tt
     | None => Raise KeyError
     end).
Proof.
  intros Ht Hv. unfold apply_template, bindM, get, for_rules. rewrite Ht.
  erewrite for_each_rule_total.
  - destruct (t_name template); reflexivity.
  - intros r Hr. apply apply_to_rule_eq. intros s v. apply Hv. exact Hr.
Qed.

(** Applying the loop body of [apply_template] to its own outcome changes
    nothing more and ends the same way. *)
Lemma apply_to_rule_again enabled_rules rule_settings r :
  apply_to_rule enabled_rules rule_settings
                (fst (apply_to_rule enabled_rules rule_settings r))
  = apply_to_rule enabled_rules rule_settings r.
Proof.
  destruct r as [a f g]. destruct a.
  unfold apply_to_rule, id_of, update_self.
  cbn [self rule_id set_enabled set_severity].
  destruct (rule_settings !! rule_id0) as [s|] eqn:Hs.
  - destruct (s_severity s) as [v|] eqn:Ev.
    + destruct (Severity_of v) eqn:Es;
        cbn [fst self rule_id set_enabled set_severity is_applicable_method
             check_method name_cn name_en enabled severity category
             description_cn reference config];
        rewrite Hs, Ev, Es; reflexivity.
    + cbn [fst self rule_id set_enabled set_severity is_applicable_method
           check_method name_cn name_en enabled severity category
           description_cn reference config].
      rewrite Hs, Ev. reflexivity.
  - cbn [fst self rule_id set_enabled set_severity is_applicable_method
         check_method name_cn name_en enabled severity category
         description_cn reference config].
    rewrite Hs. reflexivity.
Qed.

Lemma for_each_rule_again (body : Rule -> Rule * Result unit) (rs : list Rule) :
  (forall r, body (fst (body r)) = body r) ->
  for_each_rule body (fst (for_each_rule body rs)) = for_each_rule body rs.
Proof.
  intros Hb. induction rs as [|r rs IH]; simpl; [reflexivity|].
  pose proof (Hb r) as Hr.
  destruct (body r) as [r' [[]|e]] eqn:E; cbn in Hr.
  - destruct (for_each_rule body rs) as [rs' res] eqn:Er. cbn in IH |- *.
    rewrite Hr, IH. reflexivity.
  - cbn. rewrite Hr. reflexivity.
Qed.

Lemma for_each_rule_flags (enabled_rules : list string)
  (rule_settings : gmap string Settings) (rs : list Rule) :
  Forall2 (fun r r' =>
             exists b s,
               r' = update_self (fun a => set_severity s (set_enabled b a)) r)
          rs (fst (for_each_rule (apply_to_rule enabled_rules rule_settings) rs)).
Proof.
  assert (Hsame : forall r : Rule,
            r = update_self (fun a => set_severity (severity (self r))
                                        (set_enabled (enabled (self r)) a)) r).
  { intros [[] f g]. reflexivity. }
  assert (Hbody : forall r,
            exists b s,
              fst (apply_to_rule enabled_rules rule_settings r)
              = update_self (fun a => set_severity s (set_enabled b a)) r).
  { intros r. unfold apply_to_rule, id_of.
    destruct r as [a f g]. destruct a.
    cbn [update_self self set_enabled set_severity rule_id].
    destruct (rule_settings !! rule_id0) as [s|]; cbn;
      [|exists (str_list_mem rule_id0 enabled_rules), severity0; reflexivity].
    destruct (s_severity s) as [v|]; cbn;
      [|exists (str_list_mem rule_id0 enabled_rules), severity0; reflexivity].
    destruct (Severity_of v) as [sv|e]; cbn.
    - exists (str_list_mem rule_id0 enabled_rules), sv. reflexivity.
    - exists (str_list_mem rule_id0 enabled_rules), severity0. reflexivity. }
  induction rs as [|r rs IH]; simpl; [constructor|].
  destruct (Hbody r) as (b & s & Hr).
  destruct (apply_to_rule enabled_rules rule_settings r) as [r' [[]|e]];
    cbn in Hr; subst r'.
  - destruct (for_each_rule _ rs) as [rs' res]. cbn in *.
    constructor; [exists b, s; reflexivity | exact IH].
  - cbn. constructor; [exists b, s; reflexivity |].
    clear - Hsame. induction rs as [|x rs IH]; constructor; auto.
    exists (enabled (self x)), (severity (self x)). apply Hsame.
Qed.

End Configuration.

(** X1: importing a configuration file that exists never raises and never
    stops half-way: every registered rule gets its enabled flag from the
    document's list, the severity of its settings entry when that names a
    value of [Severity] (an invalid one is skipped), and the config of its
    entry when it has one; nothing else of the engine changes. *)
Theorem import_config_applies_document
  (config_path : string) (config : Config) (st : State) :
  fs st !! config_path = Some config ->
  import_config config_path st
  = (set_rules (map (spec.imported (default [] (c_enabled_rules config))
                                   (default ∅ (c_rule_settings config)))
                    (rules st)) st,
     Ok tt).
Proof.
  intros Hf. unfold import_config, tryM, bindM, get, for_rules. rewrite Hf.
  erewrite for_each_rule_total; [reflexivity|].
  intros r _. apply import_to_rule_eq.
Qed.

Lemma import_config_applies_document_witness :
  fs engines.engine_with_file !! "odd.json" = Some engines.odd_config
  /\ import_config "odd.json" engines.engine_with_file
     = (set_rules
          (map (spec.imported
                  (default [] (c_enabled_rules engines.odd_config))
                  (default ∅ (c_rule_settings engines.odd_config)))
               (rules engines.engine_with_file))
          engines.engine_with_file,
        Ok tt).
Proof.
  split; [reflexivity|].
  apply (import_config_applies_document "odd.json" engines.odd_config
           engines.engine_with_file).
  reflexivity.
Defined.

(** X2: a template whose severity overrides for the registered rules are all
    values of [Severity] is applied to every rule: the enabled flag is
    membership in the template's list, the severity is the override when
    there is one, and the call raises only [KeyError], after the loop, when
    the template has no name. *)
Theorem apply_template_applies_valid_template
  (template_name : string) (template : Template) (st : State) :
  rule_templates st !! template_name = Some template ->
  spec.valid_severities (default ∅ (t_rule_settings template)) (rules st) ->
  apply_template template_name st
  = (set_rules (map (spec.templated (default [] (t_enabled_rules template))
                                    (default ∅ (t_rule_settings template)))
                    (rules st)) st,
     match t_name template with
     | Some _ => Ok tt
     | None => Raise KeyError
     end).
Proof. apply apply_template_eq. Qed.

Lemma apply_template_applies_valid_template_witness :
  map (fun r => (id_of r, enabled (self r), severity (self r)))
      (rules (fst (apply_template "careful" engines.engine_with_careful)))
  = [("C001", true, CRITICAL); ("C002", false, CRITICAL);
     ("C003", false, WARNING); ("C004", false, CRITICAL);
     ("C005", false, CRITICAL); ("L001", false, CRITICAL);
     ("L002", false, WARNING); ("L003", false, SUGGESTION);
     ("L004", false, SUGGESTION); ("L005", true, WARNING)].
Proof.
  rewrite (apply_template_applies_valid_template
             "careful" engines.careful_template engines.engine_with_careful).
  - vm_compute. reflexivity.
  - reflexivity.
  - intros r settings v Hr Hs Hv.
    cbn in Hr.
    repeat (destruct Hr as [<-|Hr];
            [vm_compute in Hs; try discriminate Hs;
             injection Hs as <-; injection Hv as <-;
             exists WARNING; reflexivity|]).
    destruct Hr.
Defined.

(** X3: applying a template a second time changes nothing more and ends as
    the first call did, whether that returned or raised. *)
Theorem apply_template_idempotent (template_name : string) (st : State) :
  apply_template template_name (fst (apply_template template_name st))
  = apply_template template_name st.
Proof.
  unfold apply_template, bindM, get, for_rules, ret.
  destruct (rule_templates st !! template_name) as [t|] eqn:Ht; cbn;
    [|rewrite Ht; reflexivity].
  pose proof (for_each_rule_again
                (apply_to_rule (default [] (t_enabled_rules t))
                               (default ∅ (t_rule_settings t)))
                (rules st) (apply_to_rule_again _ _)) as Hagain.
  destruct (for_each_rule _ (rules st)) as [rs' [[]|e]] eqn:E; cbn in Hagain.
  - destruct (t_name t) eqn:En; unfold raise;
      cbn [fst rule_templates set_rules rules]; rewrite Ht;
      cbn [rules set_rules]; rewrite Hagain, En; reflexivity.
  - cbn [fst rule_templates set_rules rules]. rewrite Ht.
    cbn [rules set_rules]. rewrite Hagain. reflexivity.
Qed.

(** X4: whatever the template and however the call ends, [apply_template]
    keeps the registered rules in number and order and assigns to nothing
    but their enabled flag and severity; the templates, the files and the
    working directory stay as they were, and an unknown template name
    leaves the whole engine as it was. *)
Theorem apply_template_frame (template_name : string) (st : State) :
  let st' := fst (apply_template template_name st) in
  Forall2 (fun r r' =>
             exists b s,
               r' = update_self (fun a => set_severity s (set_enabled b a)) r)
          (rules st) (rules st')
  /\ rule_templates st' = rule_templates st
  /\ fs st' = fs st
  /\ cwd st' = cwd st
  /\ (rule_templates st !! template_name = None ->
      apply_template template_name st = (st, Ok tt)).
Proof.
  unfold apply_template, bindM, get, for_rules, ret.
  destruct (rule_templates st !! template_name) as [t|] eqn:Ht; cbn.
  - pose proof (for_each_rule_flags (default [] (t_enabled_rules t))
                  (default ∅ (t_rule_settings t)) (rules st)) as H.
    destruct (for_each_rule _ (rules st)) as [rs' [[]|e]]; cbn in H.
    + destruct (t_name t); cbn; repeat split; auto; discriminate.
    + cbn. repeat split; auto; discriminate.
  - repeat split; auto.
    clear. induction (rules st) as [|[[] f g] rs IH]; constructor; auto.
    exists enabled0, severity0. reflexivity.
Qed.

(** ** The registry of rules *)

Section Registry.

Lemma find_filter_other (id id' : string) (rs : list Rule) :
  id' <> id ->
  List.find (fun rule => String.eqb (id_of rule) id')
            (List.filter (fun rule => negb (String.eqb (id_of rule) id)) rs)
  = List.find (fun rule => String.eqb (id_of rule) id') rs.
Proof.
  intros Hne. induction rs as [|r rs IH]; simpl; [reflexivity|].
  destruct (String.eqb (id_of r) id) eqn:E; simpl.
  - apply String.eqb_eq in E.
    destruct (String.eqb (id_of r) id') eqn:E'; [|exact IH].
    apply String.eqb_eq in E'. congruence.
  - rewrite IH. reflexivity.
Qed.

Lemma find_filter_same (id : string) (rs : list Rule) :
  List.find (fun rule => String.eqb (id_of rule) id)
            (List.filter (fun rule => negb (String.eqb (id_of rule) id)) rs)
  = None.
Proof.
  induction rs as [|r rs IH]; simpl; [reflexivity|].
  destruct (String.eqb (id_of r) id) eqn:E; simpl; [exact IH|].
  rewrite E. exact IH.
Qed.

Lemma find_app_last (id : string) (rs : list Rule) (rule : Rule) :
  List.find (fun r => String.eqb (id_of r) id) (rs ++ [rule])%list
  = match List.find (fun r => String.eqb (id_of r) id) rs with
    | Some r => Some r
    | None => if String.eqb (id_of rule) id then Some rule else None
    end.
Proof.
  induction rs as [|r rs IH]; simpl; [reflexivity|].
  destruct (String.eqb (id_of r) id); [reflexivity | exact IH].
Qed.

Lemma filter_without (id : string) (rs : list Rule) :
  List.find (fun r => String.eqb (id_of r) id) rs = None ->
  List.filter (fun r => negb (String.eqb (id_of r) id)) rs = rs.
Proof.
  induction rs as [|r rs IH]; simpl; [reflexivity|].
  destruct (String.eqb (id_of r) id); [discriminate|].
  intros H. simpl. rewrite IH by exact H. reflexivity.
Qed.

Lemma add_rule_eq (rule : Rule) (st : State) :
  add_rule rule st
  = (set_rules
       (List.filter (fun r => negb (String.eqb (id_of r) (id_of rule)))
                    (rules st) ++ [rule])%list st,
     Ok tt).
Proof.
  unfold add_rule, get_rule_by_id, remove_rule, bindM, get, put, ret.
  destruct (List.find _ (rules st)) as [r|] eqn:Ef; cbn.
  - reflexivity.
  - rewrite filter_without by exact Ef. reflexivity.
Qed.

End Registry.

(** X5: [add_rule] never raises; it drops every registered rule with the new
    rule's identifier and appends the new rule, so that a look-up of that
    identifier returns the new rule and a look-up of any other identifier
    returns what it returned before. *)
Theorem add_rule_then_get_rule_by_id (rule : Rule) (st : State) :
  let st' := fst (add_rule rule st) in
  snd (add_rule rule st) = Ok tt
  /\ rules st'
     = (List.filter (fun r => negb (String.eqb (id_of r) (id_of rule)))
                    (rules st) ++ [rule])%list
  /\ snd (get_rule_by_id (id_of rule) st') = Ok (Some rule)
  /\ (forall id, id <> id_of rule ->
        snd (get_rule_by_id id st') = snd (get_rule_by_id id st)).
Proof.
  cbv zeta. rewrite add_rule_eq. cbn [fst snd set_rules rules].
  unfold get_rule_by_id, bindM, get, ret. cbn [fst snd rules set_rules].
  split; [reflexivity|]. split; [reflexivity|]. split.
  - rewrite find_app_last, find_filter_same, String.eqb_refl. reflexivity.
  - intros id Hne. rewrite find_app_last, find_filter_other by exact Hne.
    destruct (List.find _ (rules st)); [reflexivity|].
    destruct (String.eqb (id_of rule) id) eqn:E; [|reflexivity].
    apply String.eqb_eq in E. congruence.
Qed.

(** X6: after [remove_rule] a look-up of the removed identifier finds
    nothing, a look-up of any other identifier returns what it returned
    before, and the rules that stay keep their order. *)
Theorem remove_rule_then_get_rule_by_id (rule_id : string) (st : State) :
  let st' := fst (remove_rule rule_id st) in
  snd (remove_rule rule_id st) = Ok tt
  /\ snd (get_rule_by_id rule_id st') = Ok None
  /\ (forall id, id <> rule_id ->
        snd (get_rule_by_id id st') = snd (get_rule_by_id id st))
  /\ (forall r, In r (rules st') <-> In r (rules st) /\ id_of r <> rule_id)
  /\ rule_templates st' = rule_templates st.
Proof.
  cbv zeta. unfold remove_rule, get_rule_by_id, bindM, get, put, ret.
  cbn [fst snd set_rules rules rule_templates]. repeat split.
  - rewrite find_filter_same. reflexivity.
  - intros id Hne. rewrite find_filter_other by exact Hne. reflexivity.
  - apply filter_In in H. tauto.
  - apply filter_In in H. destruct H as [_ H].
    apply negb_true_iff, String.eqb_neq in H. exact H.
  - intros [Hin Hne]. apply filter_In. split; [exact Hin|].
    apply negb_true_iff, String.eqb_neq. exact Hne.
Qed.

(** ** Templates and the enabled rules *)

Section EnabledRules.

Lemma filter_map_templated enabled_rules rule_settings (rs : list Rule) :
  map id_of
      (List.filter (fun rule => enabled (self rule))
                   (map (spec.templated enabled_rules rule_settings) rs))
  = List.filter (fun id => str_list_mem id enabled_rules) (map id_of rs).
Proof.
  induction rs as [|[[] f g] rs IH]; simpl; [reflexivity|].
  unfold id_of at 2. cbn [self rule_id].
  destruct (str_list_mem rule_id0 enabled_rules); simpl; rewrite IH; reflexivity.
Qed.

Lemma builtin_enterprise (rs : list Rule) :
  builtin_templates rs !! "enterprise"
  = Some (mkTemplate (Some "企业级严格版") (Some "包含所有规则的完整检查")
                     (Some (map id_of rs)) (Some ∅)).
Proof.
  unfold builtin_templates.
  rewrite !lookup_insert_ne by discriminate. apply lookup_insert_eq.
Qed.

Lemma loaded_templates_other (files : list (string * Result Template))
  (name : string) (templates : gmap string Template) :
  Forall (fun file => fst file <> name) files ->
  fold_left (fun templates file =>
               match snd file with
               | Ok template_data => <[fst file := template_data]> templates
               | Raise _ => templates
               end) files templates !! name
  = templates !! name.
Proof.
  intros H. revert templates.
  induction H as [|[stem [t|e]] files Hne _ IH]; intros templates; simpl.
  - reflexivity.
  - rewrite IH. apply lookup_insert_ne. exact Hne.
  - apply IH.
Qed.

Lemma templated_all (rs' rs : list Rule) :
  incl rs rs' ->
  map (spec.templated (map id_of rs') ∅) rs
  = map (update_self (set_enabled true)) rs.
Proof.
  intros Hincl. apply map_ext_in. intros r Hr.
  assert (Hm : str_list_mem (rule_id (self r)) (map id_of rs') = true).
  { apply str_list_mem_In. apply (in_map id_of). apply Hincl. exact Hr. }
  destruct r as [[] f g]. unfold spec.templated, update_self.
  cbn [self rule_id severity set_enabled set_severity is_applicable_method
       check_method name_cn name_en enabled category description_cn reference
       config] in *.
  rewrite lookup_empty, Hm. reflexivity.
Qed.

End EnabledRules.

(** X7: after a template with valid severity overrides was applied, the
    enabled rules are the registered rules whose identifier is in the
    template's list, in registration order. *)
Theorem get_enabled_rules_after_template
  (template_name : string) (template : Template) (st : State) :
  rule_templates st !! template_name = Some template ->
  spec.valid_severities (default ∅ (t_rule_settings template)) (rules st) ->
  exists enabled_rules,
    snd (get_enabled_rules (fst (apply_template template_name st)))
    = Ok enabled_rules
    /\ map id_of enabled_rules
       = List.filter
           (fun id => str_list_mem id (default [] (t_enabled_rules template)))
           (map id_of (rules st)).
Proof.
  intros Ht Hv. rewrite (apply_template_eq _ _ _ Ht Hv).
  unfold get_enabled_rules, bindM, get, ret. cbn [fst snd set_rules rules].
  eexists. split; [reflexivity|]. apply filter_map_templated.
Qed.

Lemma get_enabled_rules_after_template_witness :
  exists enabled_rules,
    snd (get_enabled_rules
           (fst (apply_template "careful" engines.engine_with_careful)))
    = Ok enabled_rules
    /\ map id_of enabled_rules
       = List.filter
           (fun id => str_list_mem id
                        (default [] (t_enabled_rules engines.careful_template)))
           (map id_of (rules engines.engine_with_careful)).
Proof.
  apply (get_enabled_rules_after_template
           "careful" engines.careful_template engines.engine_with_careful).
  - reflexivity.
  - intros r settings v Hr Hs Hv.
    cbn in Hr.
    repeat (destruct Hr as [<-|Hr];
            [vm_compute in Hs; try discriminate Hs;
             injection Hs as <-; injection Hv as <-;
             exists WARNING; reflexivity|]).
    destruct Hr.
Defined.

(** X8: when no file of the templates directory is called [enterprise],
    the engine's start-up leaves the built-in template of that name, and
    applying it enables every registered rule, changes nothing else and
    returns. *)
Theorem enterprise_template_enables_every_rule
  (template_files : list (string * Result Template)) (st : State) :
  Forall (fun file => fst file <> "enterprise") template_files ->
  let st1 := fst (_load_templates template_files st) in
  apply_template "enterprise" st1
  = (set_rules (map (update_self (set_enabled true)) (rules st)) st1, Ok tt).
Proof.
  intros Hfiles st1.
  assert (Ht : rule_templates st1 !! "enterprise"
               = Some (mkTemplate (Some "企业级严格版")
                                  (Some "包含所有规则的完整检查")
                                  (Some (map id_of (rules st))) (Some ∅))).
  { unfold st1, _load_templates, bindM, get, put. cbn [fst rule_templates
      set_rule_templates].
    rewrite loaded_templates_other by exact Hfiles. apply builtin_enterprise. }
  rewrite (apply_template_eq _ _ _ Ht).
  - cbn [t_enabled_rules t_rule_settings t_name default from_option id].
    change (rules st1) with (rules st).
    rewrite templated_all by apply incl_refl. reflexivity.
  - intros r settings v _ Hs. cbn in Hs. rewrite lookup_empty in Hs.
    discriminate.
Qed.

Lemma enterprise_template_enables_every_rule_witness :
  map (fun r => (id_of r, enabled (self r)))
      (rules (fst (apply_template "enterprise"
                     (fst (_load_templates
                             [("strict", Ok engines.strict_template);
                              ("broken", Raise ValueError)]
                             (fst (apply_template "careful"
                                     engines.engine_with_careful)))))))
  = [("C001", true); ("C002", true); ("C003", true); ("C004", true);
     ("C005", true); ("L001", true); ("L002", true); ("L003", true);
     ("L004", true); ("L005", true)].
Proof.
  rewrite (enterprise_template_enables_every_rule
             [("strict", Ok engines.strict_template);
              ("broken", Raise ValueError)]).
  - vm_compute. reflexivity.
  - repeat constructor; discriminate.
Defined.

(** X9: the registry invariant behind the round trip of the
    configuration: when the registered rules have distinct identifiers,
    they still have after [add_rule], whether the rule is new or replaces
    one, and after [remove_rule]. *)
Theorem registry_keeps_ids_distinct (rule : Rule) (rule_id : string)
  (st : State) :
  List.NoDup (map id_of (rules st)) ->
  List.NoDup (map id_of (rules (fst (add_rule rule st))))
  /\ List.NoDup (map id_of (rules (fst (remove_rule rule_id st)))).
Proof.
  intros Hnd. split; [apply add_rule_keeps_ids_distinct; exact Hnd|].
  unfold remove_rule, bindM, get, put. cbn [fst set_rules rules].
  induction (rules st) as [|r rs IH]; simpl; [constructor|].
  inversion Hnd as [|? ? Hn Hr]; subst.
  destruct (String.eqb (id_of r) rule_id); simpl; [apply IH; exact Hr|].
  constructor; [|apply IH; exact Hr].
  intros Hin. apply Hn. apply in_map_iff in Hin.
  destruct Hin as (x & Hx & Hin). apply filter_In in Hin.
  rewrite <- Hx. apply in_map. tauto.
Qed.

Lemma registry_keeps_ids_distinct_witness :
  List.NoDup (map id_of
    (rules (fst (add_rule logic_rules.DivisionByZeroRule.rule
                          engines.engine_with_careful))))
  /\ List.NoDup (map id_of
       (rules (fst (remove_rule "L001" engines.engine_with_careful)))).
Proof.
  apply (registry_keeps_ids_distinct logic_rules.DivisionByZeroRule.rule
           "L001" engines.engine_with_careful).
  exact loaded_rules_ids_distinct.
Defined.

(** ** Validation and statistics *)

Section Statistics.

Lemma validate_rule_eq issues rule_ids rule :
  validate_rule (issues, rule_ids) rule
  = ((issues ++ spec.problems_of rule_ids rule)%list, {[ id_of rule ]} ∪ rule_ids).
Proof.
  unfold validate_rule, spec.problems_of.
  destruct (decide (id_of rule ∈ rule_ids));
    destruct (String.eqb (name_cn (self rule)) "");
    destruct (String.eqb (description_cn (self rule)) "");
    destruct (String.eqb (category (self rule)) "");
    cbn [List.app]; rewrite <- ?List.app_assoc, ?List.app_nil_r; reflexivity.
Qed.

Lemma problems_of_nil rule_ids rule :
  spec.problems_of rule_ids rule = []
  <-> (id_of rule ∉ rule_ids) /\ spec.described rule.
Proof.
  unfold spec.problems_of, spec.described.
  destruct (decide (id_of rule ∈ rule_ids)) as [Hin|Hin];
    destruct (String.eqb (name_cn (self rule)) "") eqn:E1;
    destruct (String.eqb (description_cn (self rule)) "") eqn:E2;
    destruct (String.eqb (category (self rule)) "") eqn:E3;
    cbn [List.app];
    rewrite ?String.eqb_eq, ?String.eqb_neq in *;
    (split; [intros H; try discriminate H | intros (H1 & H2 & H3 & H4)]);
    try tauto; try congruence.
Qed.

Lemma validate_loop (rs : list Rule) :
  forall issues rule_ids,
    fst (fold_left validate_rule rs (issues, rule_ids)) = []
    <-> issues = []
        /\ (forall r, In r rs -> id_of r ∉ rule_ids)
        /\ List.NoDup (map id_of rs)
        /\ Forall spec.described rs.
Proof.
  induction rs as [|r rs IH]; intros issues rule_ids; cbn [fold_left fst].
  - split; [intros H | intros (H & _)]; auto.
    split; [auto|]. split; [intros ? []|]. split; constructor.
  - rewrite validate_rule_eq, IH. split.
    + intros (Hi & Hout & Hnd & Hd).
      apply List.app_eq_nil in Hi. destruct Hi as [Hi Hp].
      apply problems_of_nil in Hp. destruct Hp as [Hr Hdr].
      split; [exact Hi|]. split; [|split].
      * intros x [<-|Hx]; [exact Hr|].
        intros Hc. apply (Hout x Hx). apply elem_of_union. right. exact Hc.
      * constructor; [|exact Hnd].
        intros Hin. apply in_map_iff in Hin. destruct Hin as (x & Hx & Hin).
        apply (Hout x Hin). rewrite Hx. apply elem_of_union. left.
        apply elem_of_singleton. reflexivity.
      * constructor; [exact Hdr | exact Hd].
    + intros (Hi & Hout & Hnd & Hd).
      inversion Hnd as [|? ? Hn Hnd']; subst.
      inversion Hd as [|? ? Hdr Hd']; subst.
      split; [|split; [|split]].
      * cbn [List.app]. apply problems_of_nil.
        split; [apply Hout; left; reflexivity | exact Hdr].
      * intros x Hx Hc. apply elem_of_union in Hc. destruct Hc as [Hc|Hc].
        -- apply elem_of_singleton in Hc. apply Hn. rewrite <- Hc.
           apply in_map. exact Hx.
        -- apply (Hout x (or_intror Hx)). exact Hc.
      * exact Hnd'.
      * exact Hd'.
Qed.

(** One turn of the loop of [get_rules_by_category], in closed form. *)
Lemma file_rule_eq (categories : gmap string (list Rule)) (rule : Rule) :
  file_rule categories rule
  = Ok (<[category (self rule) :=
           (default [] (categories !! category (self rule)) ++ [rule])%list]>
          categories).
Proof.
  unfold file_rule, dict_get.
  destruct (categories !! category (self rule)) as [l|] eqn:E.
  - rewrite E. reflexivity.
  - rewrite lookup_insert_eq. cbn. rewrite insert_insert_eq. reflexivity.
Qed.

Lemma in_category_cons (c : string) (r : Rule) (rs : list Rule) :
  spec.in_category c (r :: rs)
  = if String.eqb (category (self r)) c
    then r :: spec.in_category c rs else spec.in_category c rs.
Proof. reflexivity. Qed.

Lemma get_rules_by_category_loop (rs : list Rule) :
  forall categories,
  exists categories',
    for_fold file_rule rs categories = Ok categories'
    /\ forall c,
         categories' !! c
         = match spec.in_category c rs with
           | [] => categories !! c
           | l => Some (default [] (categories !! c) ++ l)%list
           end.
Proof.
  induction rs as [|r rs IH]; intros categories.
  - exists categories. split; reflexivity.
  - cbn [for_fold]. rewrite file_rule_eq. cbn [Py.bind].
    destruct (IH (<[category (self r) :=
                     (default [] (categories !! category (self r)) ++ [r])%list]>
                    categories)) as (m & Hm & Hl).
    exists m. split; [exact Hm|]. intros c. rewrite Hl, in_category_cons.
    destruct (String.eqb (category (self r)) c) eqn:E.
    + apply String.eqb_eq in E. subst c. rewrite lookup_insert_eq. cbn.
      destruct (spec.in_category (category (self r)) rs) as [|x l].
      * destruct (categories !! category (self r)); reflexivity.
      * rewrite <- List.app_assoc. reflexivity.
    + apply String.eqb_neq in E. rewrite lookup_insert_ne by exact E.
      reflexivity.
Qed.

Lemma get_rules_by_category_eq (st : State) :
  exists categories,
    get_rules_by_category st = (st, Ok categories)
    /\ forall c,
         categories !! c
         = match spec.in_category c (rules st) with
           | [] => None
           | l => Some l
           end.
Proof.
  destruct (get_rules_by_category_loop (rules st) ∅) as (m & Hm & Hl).
  exists m. unfold get_rules_by_category, bindM, get, lift. rewrite Hm.
  split; [reflexivity|]. intros c. rewrite Hl, lookup_empty.
  destruct (spec.in_category c (rules st)); reflexivity.
Qed.

Lemma with_severity_cons (v : string) (r : Rule) (rs : list Rule) :
  spec.with_severity v (r :: rs)
  = (if String.eqb (value (severity (self r))) v then 1 else 0)
    + spec.with_severity v rs.
Proof.
  unfold spec.with_severity, len. cbn [List.filter].
  destruct (String.eqb (value (severity (self r))) v); cbn [length]; lia.
Qed.

Lemma no_severity_counted_keys : spec.counts_severities no_severity_counted.
Proof. intros []; eexists; vm_compute; reflexivity. Qed.

Lemma count_severity_eq (distribution : gmap string Z) (rule : Rule) :
  spec.counts_severities distribution ->
  exists n,
    distribution !! value (severity (self rule)) = Some n
    /\ count_severity distribution rule
       = Ok (<[value (severity (self rule)) := n + 1]> distribution)
    /\ spec.counts_severities
         (<[value (severity (self rule)) := n + 1]> distribution).
Proof.
  intros Hk. destruct (Hk (severity (self rule))) as [n Hn].
  exists n. split; [exact Hn|]. split.
  - unfold count_severity, dict_get. rewrite Hn. reflexivity.
  - intros s. apply lookup_insert_is_Some'. right. apply Hk.
Qed.

Lemma count_severity_loop (rs : list Rule) :
  forall distribution,
    spec.counts_severities distribution ->
    exists distribution',
      for_fold count_severity rs distribution = Ok distribution'
      /\ forall k,
           distribution' !! k
           = (fun n => n + spec.with_severity k rs) <$> distribution !! k.
Proof.
  induction rs as [|r rs IH]; intros distribution Hk.
  - exists distribution. split; [reflexivity|]. intros k.
    destruct (distribution !! k); cbn; [|reflexivity].
    f_equal; unfold spec.with_severity, len; cbn; lia.
  - destruct (count_severity_eq distribution r Hk) as (n & Hn & Hc & Hk').
    cbn [for_fold]. rewrite Hc. cbn [Py.bind].
    destruct (IH _ Hk') as (d & Hd & Hl).
    exists d. split; [exact Hd|]. intros k. rewrite Hl, with_severity_cons.
    destruct (String.eqb (value (severity (self r))) k) eqn:E.
    + apply String.eqb_eq in E. subst k. rewrite lookup_insert_eq, Hn. cbn.
      f_equal; lia.
    + apply String.eqb_neq in E. rewrite lookup_insert_ne by exact E.
      destruct (distribution !! k); cbn; [|reflexivity]. f_equal; lia.
Qed.

Lemma with_severity_sum (rs : list Rule) :
  spec.with_severity (value CRITICAL) rs
  + spec.with_severity (value WARNING) rs
  + spec.with_severity (value SUGGESTION) rs
  = len rs.
Proof.
  induction rs as [|r rs IH].
  - reflexivity.
  - rewrite !with_severity_cons.
    replace (len (r :: rs)) with (1 + len rs)
      by (unfold len; cbn [length]; lia).
    destruct (severity (self r));
      repeat match goal with
             | |- context [String.eqb (value ?a) (value ?b)] =>
                 let v := eval vm_compute in (String.eqb (value a) (value b)) in
                 change (String.eqb (value a) (value b)) with v
             end;
      cbv iota; lia.
Qed.

Lemma count_rule_eq (categories : gmap string CategoryCount)
  (distribution : gmap string Z) (rule : Rule) :
  count_rule (categories, distribution) rule
  = Py.bind (if enabled (self rule) then count_severity distribution rule
             else Ok distribution)
            (fun distribution' =>
               Ok (<[category (self rule) :=
                      spec.counted (default (mkCategoryCount 0 0)
                                       (categories !! category (self rule)))
                              [rule]]> categories,
                   distribution')).
Proof.
  unfold count_rule, dict_get, spec.counted, spec.enabled_of, len.
  cbn [List.filter].
  destruct (categories !! category (self rule)) as [c|] eqn:E;
    rewrite ?E, ?lookup_insert_eq; cbn [Py.bind];
    destruct (enabled (self rule));
    rewrite ?lookup_insert_eq; cbn [Py.bind total enabled_count length default
                                     from_option id];
    rewrite ?insert_insert_eq;
    try (destruct (count_severity distribution rule); cbn [Py.bind]);
    repeat (f_equal; try lia).
Qed.

Lemma counted_cons (c0 : CategoryCount) (r : Rule) (rs : list Rule) :
  spec.counted (spec.counted c0 [r]) rs = spec.counted c0 (r :: rs).
Proof.
  unfold spec.counted, spec.enabled_of, len. cbn [List.filter total enabled_count].
  destruct (enabled (self r)); cbn [length]; f_equal; lia.
Qed.

Lemma get_rule_statistics_loop (rs : list Rule) :
  forall categories distribution,
    spec.counts_severities distribution ->
    exists categories' distribution',
      for_fold count_rule rs (categories, distribution)
      = Ok (categories', distribution')
      /\ for_fold count_severity (spec.enabled_of rs) distribution
         = Ok distribution'
      /\ forall c,
           categories' !! c
           = match spec.in_category c rs with
             | [] => categories !! c
             | l => Some (spec.counted (default (mkCategoryCount 0 0)
                                           (categories !! c)) l)
             end.
Proof.
  induction rs as [|r rs IH]; intros categories distribution Hk.
  - exists categories, distribution. repeat split.
  - cbn [for_fold]. rewrite count_rule_eq.
    unfold spec.enabled_of. cbn [List.filter]. fold (spec.enabled_of rs).
    destruct (enabled (self r)).
    + destruct (count_severity_eq distribution r Hk) as (n & Hn & Hc & Hk').
      cbn [for_fold]. rewrite Hc. cbn [Py.bind].
      destruct (IH (<[category (self r) :=
                       spec.counted (default (mkCategoryCount 0 0)
                                        (categories !! category (self r)))
                               [r]]> categories) _ Hk')
        as (m & d & Hm & Hd & Hl).
      exists m, d. split; [exact Hm|]. split; [exact Hd|].
      intros c. rewrite Hl, in_category_cons.
      destruct (String.eqb (category (self r)) c) eqn:E.
      * apply String.eqb_eq in E. subst c. rewrite lookup_insert_eq.
        cbn [default from_option id].
        destruct (spec.in_category (category (self r)) rs) as [|x l];
          [reflexivity|]. rewrite counted_cons. reflexivity.
      * apply String.eqb_neq in E. rewrite lookup_insert_ne by exact E.
        reflexivity.
    + cbn [Py.bind].
      destruct (IH (<[category (self r) :=
                       spec.counted (default (mkCategoryCount 0 0)
                                        (categories !! category (self r)))
                               [r]]> categories) _ Hk)
        as (m & d & Hm & Hd & Hl).
      exists m, d. split; [exact Hm|]. split; [exact Hd|].
      intros c. rewrite Hl, in_category_cons.
      destruct (String.eqb (category (self r)) c) eqn:E.
      * apply String.eqb_eq in E. subst c. rewrite lookup_insert_eq.
        cbn [default from_option id].
        destruct (spec.in_category (category (self r)) rs) as [|x l];
          [reflexivity|]. rewrite counted_cons. reflexivity.
      * apply String.eqb_neq in E. rewrite lookup_insert_ne by exact E.
        reflexivity.
Qed.

Lemma enabled_of_in_category (c : string) (rs : list Rule) :
  List.filter (fun rule => enabled (self rule)) (spec.in_category c rs)
  = spec.enabled_of (spec.in_category c rs).
Proof. reflexivity. Qed.

End Statistics.

(** X10: [validate_rules] reports no problem exactly when the registered
    rules have distinct identifiers and each has a Chinese name, a Chinese
    description and a category; it never raises and leaves the engine as
    it was. *)
Theorem validate_rules_accepts_well_formed_registry (st : State) :
  fst (validate_rules st) = st
  /\ exists issues,
       snd (validate_rules st) = Ok issues
       /\ (issues = []
           <-> List.NoDup (map id_of (rules st))
               /\ Forall spec.described (rules st)).
Proof.
  unfold validate_rules, bindM, get, ret. cbn [fst snd].
  split; [reflexivity|]. eexists. split; [reflexivity|].
  rewrite validate_loop. split.
  - intros (_ & _ & Hnd & Hd). auto.
  - intros (Hnd & Hd). repeat split; auto. intros r _. apply not_elem_of_empty.
Qed.

(** X11: [get_rules_by_category] never raises (the key it reads was just
    set) and leaves the engine as it was; a category is a key of the
    dictionary exactly when a registered rule has it, and its entry is the
    list of the registered rules of that category in registration order. *)
Theorem get_rules_by_category_groups_rules (st : State) :
  exists categories,
    get_rules_by_category st = (st, Ok categories)
    /\ forall c,
         categories !! c
         = match spec.in_category c (rules st) with
           | [] => None
           | l => Some l
           end.
Proof. apply get_rules_by_category_eq. Qed.

(** X12: [generate_rule_summary] and [get_rule_statistics], which count in
    two different ways (one groups the rules first, the other counts rule
    by rule), never raise and agree on the number of rules, the number of
    enabled rules, the counts per category and the distribution of the
    severities. *)
Theorem summary_and_statistics_agree (st : State) :
  exists summary stats,
    generate_rule_summary st = (st, Ok summary)
    /\ get_rule_statistics st = (st, Ok stats)
    /\ summary_total_rules summary = stats_total_rules stats
    /\ summary_enabled_rules summary = stats_enabled_rules stats
    /\ summary_categories summary = stats_categories stats
    /\ summary_severity_distribution summary
       = stats_severity_distribution stats
    /\ stats_templates_available stats = Z.of_nat (size (rule_templates st)).
Proof.
  destruct (get_rules_by_category_eq st) as (m & Hm & Hml).
  destruct (get_rule_statistics_loop (rules st) ∅ no_severity_counted
              no_severity_counted_keys) as (cs & d & Hcs & Hd & Hcl).
  unfold generate_rule_summary, get_rule_statistics, bindM.
  rewrite Hm. unfold get_enabled_rules, bindM, get, ret, lift.
  fold (spec.enabled_of (rules st)). rewrite Hd, Hcs.
  eexists _, _. split; [reflexivity|]. split; [reflexivity|].
  cbn [summary_total_rules stats_total_rules summary_enabled_rules
       stats_enabled_rules summary_categories stats_categories
       summary_severity_distribution stats_severity_distribution
       stats_templates_available fst snd].
  repeat split. apply map_eq. intros c.
  rewrite lookup_fmap, Hml, Hcl, lookup_empty.
  destruct (spec.in_category c (rules st)) as [|x l]; [reflexivity|].
  cbn [fmap option_fmap option_map default from_option id].
  unfold count_category, spec.counted, spec.enabled_of.
  cbn [total enabled_count]. f_equal.
Qed.

(** X13: in the summary, the entry of a category counts the registered
    rules of that category and the enabled ones among them; the severity
    distribution has exactly the three severity values as keys, each
    counting the enabled rules of that severity, and the three counts add
    up to the number of enabled rules. *)
Theorem generate_rule_summary_counts (st : State) :
  exists summary,
    generate_rule_summary st = (st, Ok summary)
    /\ summary_total_rules summary = len (rules st)
    /\ summary_enabled_rules summary = len (spec.enabled_of (rules st))
    /\ (forall c,
          summary_categories summary !! c
          = match spec.in_category c (rules st) with
            | [] => None
            | l => Some (mkCategoryCount (len l) (len (spec.enabled_of l)))
            end)
    /\ (forall s,
          summary_severity_distribution summary !! value s
          = Some (spec.with_severity (value s) (spec.enabled_of (rules st))))
    /\ (forall k,
          (forall s, k <> value s) ->
          summary_severity_distribution summary !! k = None)
    /\ spec.with_severity (value CRITICAL) (spec.enabled_of (rules st))
       + spec.with_severity (value WARNING) (spec.enabled_of (rules st))
       + spec.with_severity (value SUGGESTION) (spec.enabled_of (rules st))
       = summary_enabled_rules summary.
Proof.
  destruct (get_rules_by_category_eq st) as (m & Hm & Hml).
  destruct (count_severity_loop (spec.enabled_of (rules st))
              no_severity_counted no_severity_counted_keys) as (d & Hd & Hdl).
  unfold generate_rule_summary, bindM.
  rewrite Hm. unfold get_enabled_rules, bindM, get, ret, lift.
  fold (spec.enabled_of (rules st)). rewrite Hd.
  eexists. split; [reflexivity|].
  cbn [summary_total_rules summary_enabled_rules summary_categories
       summary_severity_distribution].
  split; [reflexivity|]. split; [reflexivity|]. split; [|split; [|split]].
  - intros c. rewrite lookup_fmap, Hml.
    destruct (spec.in_category c (rules st)); reflexivity.
  - intros s. rewrite Hdl.
    destruct s; unfold no_severity_counted;
      repeat first [rewrite lookup_insert_eq
                   | rewrite lookup_insert_ne by discriminate];
      cbn; f_equal; lia.
  - intros k Hn. rewrite Hdl. unfold no_severity_counted.
    rewrite !lookup_insert_ne, lookup_empty; [reflexivity| | |];
      intros <-;
      [apply (Hn SUGGESTION) | apply (Hn WARNING) | apply (Hn CRITICAL)];
      reflexivity.
  - apply with_severity_sum.
Qed.

(** ** The parser's queries *)

Section Queries.

Lemma filter_flat_map {A B : Type} (f : B -> bool) (g : A -> list B)
  (l : list A) :
  List.filter f (flat_map g l) = flat_map (fun x => List.filter f (g x)) l.
Proof.
  induction l as [|x l IH]; simpl; [reflexivity|].
  rewrite List.filter_app, IH. reflexivity.
Qed.

Lemma flat_map_ext_In {A B : Type} (f g : A -> list B) (l : list A) :
  (forall x, In x l -> f x = g x) -> flat_map f l = flat_map g l.
Proof.
  induction l as [|x l IH]; intros H; simpl; [reflexivity|].
  rewrite (H x) by (left; reflexivity).
  rewrite IH by (intros y Hy; apply H; right; exact Hy). reflexivity.
Qed.

Lemma traverse_filter (node_type : string) (n : Node) :
  forall above,
    traverse node_type above n
    = List.filter (fun r => String.eqb (type_of r) node_type)
                  (spec.nodes_below above n).
Proof.
  induction n as [n IH] using Node_tree_ind. intros above.
  destruct n as [ty sb eb sp ep kids]. cbn [traverse spec.nodes_below List.filter].
  unfold type_of at 1. cbn [node type children] in *.
  rewrite filter_flat_map.
  assert (E : flat_map (traverse node_type
                          (mkNode ty sb eb sp ep kids :: above)) kids
              = flat_map (fun x =>
                            List.filter
                              (fun r => String.eqb (type_of r) node_type)
                              (spec.nodes_below
                                 (mkNode ty sb eb sp ep kids :: above) x))
                         kids).
  { apply flat_map_ext_In. intros k Hk.
    rewrite List.Forall_forall in IH. apply IH. exact Hk. }
  rewrite E. destruct (String.eqb ty node_type); reflexivity.
Qed.

Lemma nodes_below_self (above : list Node) (n : Node) :
  In (mkRef n above) (spec.nodes_below above n).
Proof. destruct n. left. reflexivity. Qed.

(** The nodes below a node of the tree are nodes of the tree. *)
Lemma nodes_below_trans (n : Node) :
  forall above m,
    In m (spec.nodes_below above n) ->
    forall x, In x (spec.nodes_of m) -> In x (spec.nodes_below above n).
Proof.
  induction n as [n IH] using Node_tree_ind. intros above m Hm x Hx.
  destruct n as [ty sb eb sp ep kids]. cbn [spec.nodes_below children] in *.
  destruct Hm as [<-|Hm].
  - exact Hx.
  - right. apply in_flat_map in Hm. destruct Hm as (k & Hk & Hm).
    apply in_flat_map. exists k. split; [exact Hk|].
    rewrite List.Forall_forall in IH. apply (IH k Hk _ m Hm x Hx).
Qed.

(** A node of the tree is the root or has its parent in the tree. *)
Lemma nodes_below_parent (n : Node) :
  forall above m,
    In m (spec.nodes_below above n) ->
    m = mkRef n above
    \/ exists p, parent m = Some p /\ In p (spec.nodes_below above n).
Proof.
  induction n as [n IH] using Node_tree_ind. intros above m Hm.
  destruct n as [ty sb eb sp ep kids]. cbn [spec.nodes_below children] in *.
  destruct Hm as [<-|Hm]; [left; reflexivity|]. right.
  apply in_flat_map in Hm. destruct Hm as (k & Hk & Hm).
  rewrite List.Forall_forall in IH.
  destruct (IH k Hk _ m Hm) as [->|(p & Hp & Hin)].
  - exists (mkRef (mkNode ty sb eb sp ep kids) above). split; [reflexivity|].
    left. reflexivity.
  - exists p. split; [exact Hp|]. right. apply in_flat_map. eauto.
Qed.

Lemma found_is_node (root r : NodeRef) (node_type : string) :
  In r (find_nodes_by_type root node_type)
  <-> In r (spec.nodes_of root) /\ type_of r = node_type.
Proof.
  unfold find_nodes_by_type, spec.nodes_of. rewrite traverse_filter, filter_In.
  rewrite String.eqb_eq. reflexivity.
Qed.

Lemma child_parent (n c : NodeRef) :
  In c (children_of n) -> parent c = Some n.
Proof.
  unfold children_of. intros H. apply in_map_iff in H.
  destruct H as (k & <- & _). destruct n. reflexivity.
Qed.

Lemma function_entry_some (func_node : NodeRef) (e : FunctionInfo) :
  function_entry func_node = Some e ->
  fn_node e = func_node
  /\ In (fn_declarator e) (children_of func_node)
  /\ type_of (fn_declarator e) = "function_declarator"
  /\ In (fn_name_node e) (children_of (fn_declarator e))
  /\ type_of (fn_name_node e) = "identifier"
  /\ fn_start_line e = Z.of_nat (row_of func_node) + 1.
Proof.
  unfold function_entry.
  destruct (List.find _ (children_of func_node)) as [d|] eqn:Ed; [|discriminate].
  destruct (List.find _ (children_of d)) as [i|] eqn:Ei; [|discriminate].
  intros H. injection H as <-. cbn.
  apply find_some in Ed. apply find_some in Ei.
  destruct Ed as [Ed Etd]. destruct Ei as [Ei Eti].
  apply String.eqb_eq in Etd. apply String.eqb_eq in Eti.
  repeat split; auto.
Qed.

Lemma omap_length_le {A B : Type} (f : A -> option B) (l : list A) :
  (length (omap f l) <= length l)%nat.
Proof.
  induction l as [|x l IH]; cbn; [lia|]. destruct (f x); cbn; lia.
Qed.

Lemma In_omap {A B : Type} (f : A -> option B) (l : list A) (y : B) :
  In y (omap f l) <-> exists x, In x l /\ f x = Some y.
Proof.
  induction l as [|x l IH]; cbn.
  - split; [intros [] | intros (x & [] & _)].
  - destruct (f x) as [z|] eqn:E; cbn; rewrite ?IH; split.
    + intros [<-|(x' & Hx & Hf)]; eauto.
    + intros (x' & [<-|Hx] & Hf); [left; congruence | right; eauto].
    + intros (x' & Hx & Hf); eauto.
    + intros (x' & [<-|Hx] & Hf); [congruence | eauto].
Qed.

End Queries.

(** X14: [find_nodes_by_type] returns exactly the nodes of the given type at
    or below the root, in document order (pre-order), each as often as it
    occurs: the nodes of the subtree filtered by type. *)
Theorem find_nodes_by_type_filters_subtree (root : NodeRef)
  (node_type : string) :
  find_nodes_by_type root node_type
  = List.filter (fun r => String.eqb (type_of r) node_type)
                (spec.nodes_of root)
  /\ (forall r,
        In r (find_nodes_by_type root node_type)
        <-> In r (spec.nodes_of root) /\ type_of r = node_type)
  /\ In root (spec.nodes_of root).
Proof.
  split; [apply traverse_filter|]. split; [intros r; apply found_is_node|].
  destruct root as [n above]. apply nodes_below_self.
Qed.

(** X15: searching below a node that a search found stays inside the tree
    searched first: what the inner search finds the outer search finds too
    when asked for that type, and every node found is the root of the
    search or has its parent at or below that root. *)
Theorem find_nodes_by_type_nested (root found inner : NodeRef)
  (outer_type inner_type : string) :
  In found (find_nodes_by_type root outer_type) ->
  In inner (find_nodes_by_type found inner_type) ->
  In inner (find_nodes_by_type root inner_type)
  /\ (found = root
      \/ exists p, parent found = Some p /\ In p (spec.nodes_of root)).
Proof.
  intros Hf Hi. apply found_is_node in Hf. apply found_is_node in Hi.
  destruct Hf as [Hf _]. destruct Hi as [Hi Ht]. split.
  - apply found_is_node. split; [|exact Ht].
    unfold spec.nodes_of in *. eapply nodes_below_trans; eauto.
  - unfold spec.nodes_of in Hf. apply nodes_below_parent in Hf.
    destruct root as [n above]. exact Hf.
Qed.

Lemma find_nodes_by_type_nested_witness :
  let root := root_node samples.div_guarded in
  let found := nth 0 (find_nodes_by_type root "function_definition") root in
  let inner := nth 0 (find_nodes_by_type found "if_statement") root in
  In inner (find_nodes_by_type root "if_statement")
  /\ (found = root
      \/ exists p, parent found = Some p /\ In p (spec.nodes_of root)).
Proof.
  cbv zeta.
  apply (find_nodes_by_type_nested
           (root_node samples.div_guarded)
           (nth 0 (find_nodes_by_type (root_node samples.div_guarded)
                                      "function_definition")
                (root_node samples.div_guarded))
           (nth 0 (find_nodes_by_type
                     (nth 0 (find_nodes_by_type (root_node samples.div_guarded)
                                                "function_definition")
                          (root_node samples.div_guarded))
                     "if_statement")
                (root_node samples.div_guarded))
           "function_definition" "if_statement").
  - vm_compute. left. reflexivity.
  - vm_compute. left. reflexivity.
Defined.

(** X16: every entry of [find_function_definitions] belongs to a function
    definition of the tree; its declarator is a child of that definition
    and a function declarator, its name node is a child of the declarator
    and an identifier, and its start line is the definition's row plus one.
    There is at most one entry per definition, and a definition without a
    function declarator among its children has none. *)
Theorem find_function_definitions_entries (root : NodeRef) :
  Forall (fun e =>
            In (fn_node e) (find_nodes_by_type root "function_definition")
            /\ function_entry (fn_node e) = Some e
            /\ In (fn_declarator e) (children_of (fn_node e))
            /\ parent (fn_declarator e) = Some (fn_node e)
            /\ type_of (fn_declarator e) = "function_declarator"
            /\ In (fn_name_node e) (children_of (fn_declarator e))
            /\ parent (fn_name_node e) = Some (fn_declarator e)
            /\ type_of (fn_name_node e) = "identifier"
            /\ fn_start_line e = Z.of_nat (row_of (fn_node e)) + 1)
         (find_function_definitions root)
  /\ (length (find_function_definitions root)
      <= length (find_nodes_by_type root "function_definition"))%nat
  /\ (forall func_node,
        In func_node (find_nodes_by_type root "function_definition") ->
        (forall child, In child (children_of func_node) ->
                       type_of child <> "function_declarator") ->
        ~ In func_node (map fn_node (find_function_definitions root))).
Proof.
  unfold find_function_definitions. split; [|split].
  - apply List.Forall_forall. intros e He. apply In_omap in He.
    destruct He as (f & Hf & He).
    destruct (function_entry_some f e He) as (E1 & E2 & E3 & E4 & E5 & E6).
    rewrite E1. repeat split; auto using child_parent.
  - apply omap_length_le.
  - intros f Hf Hno Hin. apply in_map_iff in Hin.
    destruct Hin as (e & He & Hin). apply In_omap in Hin.
    destruct Hin as (f' & Hf' & Hin).
    destruct (function_entry_some f' e Hin) as (E1 & _).
    assert (Ef : f' = f) by congruence. rewrite Ef in Hin. clear - Hin Hno.
    unfold function_entry in Hin.
    destruct (List.find
                (fun child => String.eqb (type_of child) "function_declarator")
                (children_of f)) as [d|] eqn:Ed; [|discriminate].
    apply find_some in Ed. destruct Ed as [Ed Etd].
    apply String.eqb_eq in Etd. exact (Hno d Ed Etd).
Qed.

(** X17: [find_variable_declarations] reports initialised variables only:
    every entry's name node is an identifier child of an init declarator
    child of the entry's declaration, a declaration of the tree; so a
    declaration without init declarator child has no entry. *)
Theorem find_variable_declarations_entries (root : NodeRef) :
  Forall (fun v =>
            In (var_node v) (find_nodes_by_type root "declaration")
            /\ type_of (var_name_node v) = "identifier"
            /\ (exists declarator,
                  In declarator (children_of (var_node v))
                  /\ type_of declarator = "init_declarator"
                  /\ In (var_name_node v) (children_of declarator)
                  /\ parent (var_name_node v) = Some declarator
                  /\ parent declarator = Some (var_node v))
            /\ var_line v = Z.of_nat (row_of (var_node v)) + 1)
         (find_variable_declarations root).
Proof.
  unfold find_variable_declarations. apply List.Forall_forall. intros v Hv.
  apply in_flat_map in Hv. destruct Hv as (d & Hd & Hv).
  unfold variable_entries in Hv.
  apply in_flat_map in Hv. destruct Hv as (c & Hc & Hv).
  destruct (String.eqb (type_of c) "init_declarator") eqn:Ec; [|destruct Hv].
  apply in_flat_map in Hv. destruct Hv as (g & Hg & Hv).
  destruct (String.eqb (type_of g) "identifier") eqn:Eg; [|destruct Hv].
  destruct Hv as [<-|[]]. cbn.
  apply String.eqb_eq in Ec. apply String.eqb_eq in Eg.
  repeat split; auto. exists c. repeat split; auto using child_parent.
Qed.

(** ** Reading and parsing files *)

Section ParsedFiles.
Local Arguments String.append !_ _ / : simpl nomatch.

Variable detect_encoding : string -> string.
Variable read_file_content : string -> option string.
Variable tree_of : string -> Result Node.

Lemma split_cons (sep : ascii) (s : string) :
  exists h t, split sep s = h :: t.
Proof.
  induction s as [|c s (h & t & IH)]; cbn [split]; [eauto|].
  rewrite IH. destruct (Ascii.eqb c sep); eauto.
Qed.

Lemma concat_cons (sep x y : string) (l : list string) :
  String.concat sep (x :: y :: l) = (x ++ sep ++ String.concat sep (y :: l))%string.
Proof. reflexivity. Qed.

(** Joining the lines of a text with the newline gives the text. *)
Lemma join_split (s : string) : join nl (split (ascii_of_nat 10) s) = s.
Proof.
  unfold join, nl. induction s as [|c s IH]; cbn [split]; [reflexivity|].
  destruct (split_cons (ascii_of_nat 10) s) as (h & t & E).
  rewrite E in *. destruct (Ascii.eqb c (ascii_of_nat 10)) eqn:Ec.
  - apply Ascii.eqb_eq in Ec. subst c.
    rewrite concat_cons, IH. reflexivity.
  - destruct t as [|y t].
    + cbn [String.concat] in *. rewrite IH. reflexivity.
    + rewrite concat_cons in *. rewrite <- IH. reflexivity.
Qed.

Lemma parse_file_some (file_path : string) (self : CodeParser)
  (file_info : FileInfo) :
  snd (parse_file detect_encoding read_file_content tree_of file_path self)
  = Some file_info ->
  read_file_content file_path = Some (content file_info)
  /\ content file_info <> ""
  /\ path file_info = file_path.
Proof.
  unfold parse_file.
  destruct (read_file_content file_path) as [c|]; [|discriminate].
  destruct (String.eqb c "") eqn:Ec; [discriminate|].
  apply String.eqb_neq in Ec.
  destruct (tree_of c); [|discriminate].
  cbn. intros H. injection H as <-. cbn. auto.
Qed.

Lemma parse_file_result (file_path : string) (self self0 : CodeParser) :
  snd (parse_file detect_encoding read_file_content tree_of file_path self)
  = snd (parse_file detect_encoding read_file_content tree_of file_path self0).
Proof.
  unfold parse_file. destruct (read_file_content file_path) as [c|]; [|reflexivity].
  destruct (String.eqb c ""); [reflexivity|].
  destruct (tree_of c); reflexivity.
Qed.

Lemma parse_file_state (file_path : string) (self : CodeParser) :
  fst (parse_file detect_encoding read_file_content tree_of file_path self)
  = match snd (parse_file detect_encoding read_file_content tree_of
                          file_path self) with
    | Some file_info =>
        mkCodeParser (file_count self + 1)
                     (parsed_files self ++ [file_info])%list
    | None => self
    end.
Proof.
  unfold parse_file. destruct (read_file_content file_path) as [c|]; [|reflexivity].
  destruct (String.eqb c ""); [reflexivity|].
  destruct (tree_of c); reflexivity.
Qed.

Lemma parse_files_eq (c_files : list string) :
  forall self,
    let results :=
      omap (fun file_path =>
              snd (parse_file detect_encoding read_file_content tree_of
                              file_path self))
           c_files in
    parse_files detect_encoding read_file_content tree_of c_files self
    = (mkCodeParser (file_count self + len results)
                    (parsed_files self ++ results)%list,
       results).
Proof.
  induction c_files as [|p ps IH]; intros self; cbv zeta.
  - cbn. unfold len. cbn. rewrite Z.add_0_r, List.app_nil_r.
    destruct self; reflexivity.
  - cbn [parse_files omap list_omap].
    pose proof (parse_file_state p self) as Hs.
    destruct (parse_file detect_encoding read_file_content tree_of p self)
      as [self1 r] eqn:E.
    cbn [fst snd] in Hs. rewrite IH. cbv zeta.
    assert (Hr : forall q,
              snd (parse_file detect_encoding read_file_content tree_of q self1)
              = snd (parse_file detect_encoding read_file_content tree_of q self))
      by (intros q; apply parse_file_result).
    rewrite (list_omap_ext _
               (fun q => snd (parse_file detect_encoding read_file_content
                                         tree_of q self)) ps ps)
      by (apply Forall2_same_length_lookup_2; [reflexivity|];
          intros i x y Hx Hy; rewrite Hx in Hy; injection Hy as <-; apply Hr).
    subst self1. destruct r as [info|]; cbn [file_count parsed_files snd].
    + f_equal. f_equal.
      * unfold len. cbn [length]. lia.
      * rewrite <- List.app_assoc. reflexivity.
    + reflexivity.
Qed.

End ParsedFiles.

(** X18: what [parse_file] returns and does.  A file record is returned
    only for a file that can be read, is not empty and whose text parses;
    the record holds that text, the root of its tree (a node without
    parent), the lines of the text (which joined by newlines give the text
    back), their number (at least one) and the detected encoding, and the
    parser has appended the record to [parsed_files] and counted it.
    Otherwise the parser object is unchanged. *)
Theorem parse_file_builds_consistent_record
  (detect_encoding : string -> string)
  (read_file_content : string -> option string)
  (tree_of : string -> Result Node)
  (file_path : string) (self : CodeParser) :
  match snd (parse_file detect_encoding read_file_content tree_of
                        file_path self) with
  | Some file_info =>
      read_file_content file_path = Some (content file_info)
      /\ content file_info <> ""
      /\ tree_of (content file_info) = Ok (node (root_node file_info))
      /\ parent (root_node file_info) = None
      /\ path file_info = file_path
      /\ lines file_info = split (ascii_of_nat 10) (content file_info)
      /\ join nl (lines file_info) = content file_info
      /\ line_count file_info = length (lines file_info)
      /\ (1 <= line_count file_info)%nat
      /\ encoding file_info = detect_encoding file_path
      /\ fst (parse_file detect_encoding read_file_content tree_of
                         file_path self)
         = mkCodeParser (file_count self + 1)
                        (parsed_files self ++ [file_info])%list
  | None =>
      fst (parse_file detect_encoding read_file_content tree_of file_path self)
      = self
      /\ (read_file_content file_path = None
          \/ read_file_content file_path = Some ""
          \/ exists text e,
               read_file_content file_path = Some text
               /\ tree_of text = Raise e)
  end.
Proof.
  unfold parse_file.
  destruct (read_file_content file_path) as [c|] eqn:Er; cbn [fst snd];
    [|split; [reflexivity | left; reflexivity]].
  destruct (String.eqb c "") eqn:Ec; cbn [fst snd].
  { apply String.eqb_eq in Ec. subst c.
    split; [reflexivity | right; left; reflexivity]. }
  apply String.eqb_neq in Ec.
  destruct (tree_of c) as [root|e] eqn:Et; cbn [fst snd].
  - cbn [content root_node path lines line_count encoding node].
    repeat split; auto.
    + apply join_split.
    + destruct (split_cons (ascii_of_nat 10) c) as (h & t & ->). cbn. lia.
  - split; [reflexivity|]. right. right. exists c, e. auto.
Qed.

(** X19: [parse_project] parses the files it finds independently and in
    order: it returns the records of the files that parse, appends exactly
    these to [parsed_files] and adds their number to [file_count]; so a
    parser whose [file_count] is the length of [parsed_files] stays so, and
    every record returned is of a file found, with the text read from it. *)
Theorem parse_project_collects_parsed_files
  (detect_encoding : string -> string)
  (read_file_content : string -> option string)
  (tree_of : string -> Result Node)
  (find_c_files : string -> list string)
  (project_path : string) (self : CodeParser) :
  let run := parse_project detect_encoding read_file_content tree_of
                           find_c_files project_path self in
  snd run
  = omap (fun file_path =>
            snd (parse_file detect_encoding read_file_content tree_of
                            file_path self))
         (find_c_files project_path)
  /\ parsed_files (fst run) = (parsed_files self ++ snd run)%list
  /\ file_count (fst run) = file_count self + len (snd run)
  /\ (file_count self = len (parsed_files self) ->
      file_count (fst run) = len (parsed_files (fst run)))
  /\ Forall (fun file_info =>
               In (path file_info) (find_c_files project_path)
               /\ read_file_content (path file_info)
                  = Some (content file_info)
               /\ content file_info <> "")
            (snd run)
  /\ (length (snd run) <= length (find_c_files project_path))%nat.
Proof.
  cbv zeta. unfold parse_project. rewrite parse_files_eq. cbv zeta.
  cbn [fst snd file_count parsed_files].
  split; [reflexivity|]. split; [reflexivity|]. split; [reflexivity|].
  split; [|split].
  - intros H. rewrite H. unfold len. rewrite List.length_app. lia.
  - apply List.Forall_forall. intros info Hin. apply In_omap in Hin.
    destruct Hin as (p & Hp & Hin).
    destruct (parse_file_some detect_encoding read_file_content tree_of
                p self info Hin) as (H1 & H2 & H3).
    rewrite H3. split; [exact Hp|]. split; [exact H1 | exact H2].
  - apply omap_length_le.
Qed.

(** ** The dictionary form of a rule *)

Section Dictionary.

Lemma examples_restored (l : list CodeExample) :
  for_append example_of (map example_dict l)
  = Ok (map (fun ex => CodeExample_of (example_code ex)
                                      (example_description ex)) l).
Proof.
  induction l as [|ex l IH]; cbn [map for_append]; [reflexivity|].
  rewrite IH. reflexivity.
Qed.

Lemma examples_in_c (l : list CodeExample) :
  Forall (fun ex => language ex = "c") l ->
  map (fun ex => CodeExample_of (example_code ex) (example_description ex)) l
  = l.
Proof.
  induction 1 as [|[c d lang] l Hl _ IH]; cbn [map]; [reflexivity|].
  cbn in Hl. subst lang. rewrite IH. reflexivity.
Qed.

Lemma from_dict_to_dict (self other : RuleObject) :
  from_dict other (to_dict self)
  = (mkRuleObject
       (mkBaseRule (rule_id (base other)) (name_cn (base other))
                   (name_en (base other)) (enabled (base self))
                   (severity (base self)) (category (base self))
                   (description_cn (base self)) (reference (base self))
                   (config (base self)))
       (description_en self) (why_cn self) (why_en self)
       (map (fun ex => CodeExample_of (example_code ex)
                                      (example_description ex))
            (bad_examples self))
       (map (fun ex => CodeExample_of (example_code ex)
                                      (example_description ex))
            (good_examples self)),
     Ok tt).
Proof.
  unfold from_dict, to_dict.
  cbn [d_enabled d_severity d_category d_description_cn d_description_en
       d_why_cn d_why_en d_bad_examples d_good_examples d_reference d_config
       default from_option id].
  rewrite Severity_of_value, !examples_restored.
  destruct self as [[? ? ? ? ? ? ? [] ?] ? ? ? ? ?].
  destruct other as [[] ? ? ? ? ?]. reflexivity.
Qed.

End Dictionary.

(** X20: [from_dict] after [to_dict] never raises and restores, in any rule
    object, every attribute of the rule the dictionary was made from except
    the identifier and the two names, which [from_dict] does not read, and
    the language of the code examples, which [to_dict] does not write and
    [from_dict] sets to the default; so a rule whose examples are in that
    language is restored exactly in a rule with its identifier and
    names. *)
Theorem from_dict_restores_to_dict (self other : RuleObject) :
  from_dict other (to_dict self)
  = (mkRuleObject
       (mkBaseRule (rule_id (base other)) (name_cn (base other))
                   (name_en (base other)) (enabled (base self))
                   (severity (base self)) (category (base self))
                   (description_cn (base self)) (reference (base self))
                   (config (base self)))
       (description_en self) (why_cn self) (why_en self)
       (map (fun ex => CodeExample_of (example_code ex)
                                      (example_description ex))
            (bad_examples self))
       (map (fun ex => CodeExample_of (example_code ex)
                                      (example_description ex))
            (good_examples self)),
     Ok tt)
  /\ (rule_id (base other) = rule_id (base self) ->
      name_cn (base other) = name_cn (base self) ->
      name_en (base other) = name_en (base self) ->
      Forall (fun ex => language ex = "c") (bad_examples self) ->
      Forall (fun ex => language ex = "c") (good_examples self) ->
      from_dict other (to_dict self) = (self, Ok tt)).
Proof.
  split; [apply from_dict_to_dict|].
  intros E1 E2 E3 Hb Hg. rewrite from_dict_to_dict, E1, E2, E3.
  rewrite (examples_in_c _ Hb), (examples_in_c _ Hg).
  destruct self as [[] ? ? ? ? ?]. reflexivity.
Qed.

(** X21: [from_dict] raises [ValueError] on every dictionary without a
    severity: the default it then looks up, WARNING, is the name of a
    member of [Severity] and not a value.  The rule object is left with
    the enabled flag of the dictionary (enabled when that is missing too)
    and otherwise as it was. *)
Theorem from_dict_without_severity_raises (self : RuleObject)
  (data : RuleDict) :
  d_severity data = None ->
  from_dict self data
  = (set_base (set_enabled (default true (d_enabled data)) (base self)) self,
     Raise ValueError).
Proof.
  intros H. unfold from_dict. rewrite H. reflexivity.
Qed.

Lemma from_dict_without_severity_raises_witness :
  d_severity samples.only_disabled = None
  /\ from_dict samples.demo_rule samples.only_disabled
     = (set_base (set_enabled false (base samples.demo_rule))
                 samples.demo_rule,
        Raise ValueError).
Proof.
  split; [reflexivity|].
  apply (from_dict_without_severity_raises samples.demo_rule
           samples.only_disabled).
  reflexivity.
Defined.

(** ** The walks over the parents *)

Section Parents.

Lemma some_parent_app (test : Node -> bool) (below above : list Node) :
  some_parent test (below ++ above)
  = some_parent test below || some_parent test above.
Proof.
  induction below as [|b below IH]; cbn; [reflexivity|].
  destruct (test b); [reflexivity | exact IH].
Qed.

Lemma node_of_ancestors (root r : NodeRef) :
  In r (spec.nodes_of root) ->
  exists below, ancestors r = (below ++ ancestors root)%list.
Proof.
  intros H.
  assert (Hf : In r (find_nodes_by_type root (type_of r)))
    by (apply found_is_node; split; [exact H | reflexivity]).
  apply traverse_ancestors in Hf. destruct Hf as (below & Hb & _). eauto.
Qed.

Lemma some_parent_below (test : Node -> bool) (root r : NodeRef) :
  In r (spec.nodes_of root) ->
  some_parent test (ancestors root) = true ->
  some_parent test (ancestors r) = true.
Proof.
  intros H Ht. destruct (node_of_ancestors root r H) as (below & ->).
  rewrite some_parent_app, Ht. apply orb_true_r.
Qed.

Lemma first_function_some_parent (above : list Node) :
  some_parent (fun current => String.eqb (type current) "function_definition")
              above = true
  <-> exists f, logic_rules.DivisionByZeroRule.first_function above = Some f.
Proof.
  induction above as [|a above IH]; cbn.
  - split; [discriminate | intros [f H]; discriminate].
  - destruct (String.eqb (type a) "function_definition"); [|exact IH].
    split; eauto.
Qed.

End Parents.

(** X22: [ASTRule.is_in_function] does not depend on the function name it
    is given; it holds exactly when
    [DivisionByZeroRule._find_containing_function] finds a function around
    the node; and, like [is_in_condition], once it holds of a node it holds
    of every node below that node. *)
Theorem is_in_function_ignores_name (n : NodeRef)
  (function_name : option string) :
  is_in_function n function_name = is_in_function n None
  /\ (is_in_function n function_name = true
      <-> exists f,
            logic_rules.DivisionByZeroRule._find_containing_function n
            = Some f)
  /\ (forall r, In r (spec.nodes_of n) ->
                is_in_function n function_name = true ->
                is_in_function r function_name = true)
  /\ (forall r, In r (spec.nodes_of n) ->
                is_in_condition n = true -> is_in_condition r = true).
Proof.
  assert (E : forall m name,
            is_in_function m name
            = some_parent
                (fun current =>
                   String.eqb (type current) "function_definition")
                (ancestors m)).
  { intros m name. unfold is_in_function.
    induction (ancestors m) as [|a above IH]; cbn; [reflexivity|].
    destruct (String.eqb (type a) "function_definition");
      [destruct name; reflexivity | exact IH]. }
  split; [rewrite !E; reflexivity|]. split; [|split].
  - rewrite E. apply first_function_some_parent.
  - intros r Hr. rewrite !E. apply some_parent_below. exact Hr.
  - intros r Hr. apply some_parent_below. exact Hr.
Qed.

(** ** The other rules over call expressions *)

Section Calls.

Ltac lookup_by_name name :=
  match goal with
  | |- context [String.eqb name ?k] =>
      let E := fresh "E" in
      destruct (String.eqb name k) eqn:E;
      [apply String.eqb_eq in E; subst name;
       repeat first [rewrite lookup_insert_eq
                    | rewrite lookup_insert_ne by discriminate];
       reflexivity
      | apply String.eqb_neq in E;
        rewrite lookup_insert_ne
          by (let H := fresh in intros H; apply E; symmetry; exact H)]
  end.

Lemma dangerous_functions_lookup (func_name : string) :
  memory_rules.BufferOverflowRule.dangerous_functions !! func_name
  = spec.safer_alternative func_name.
Proof.
  unfold memory_rules.BufferOverflowRule.dangerous_functions,
    spec.safer_alternative.
  repeat lookup_by_name func_name.
  apply lookup_empty.
Qed.

Lemma overflow_check_call (self : BaseRule) (file_info : FileInfo)
  (call_node : NodeRef) :
  memory_rules.BufferOverflowRule.check_call self file_info call_node
  = Ok (match spec.overflow_report self file_info call_node with
        | Some issue => [issue]
        | None => []
        end).
Proof.
  unfold memory_rules.BufferOverflowRule.check_call, spec.overflow_report,
    spec.callee, dict_get.
  destruct (children_of call_node) as [|f rest]; [reflexivity|].
  cbn [mbind option_bind]. rewrite dangerous_functions_lookup.
  destruct (spec.safer_alternative (get_node_text f (content file_info)))
    as [alt|].
  - rewrite bool_decide_eq_true_2 by eauto. cbn [Py.bind mbind option_bind].
    rewrite create_issue_eq. reflexivity.
  - rewrite bool_decide_eq_false_2; [reflexivity|].
    intros [x Hx]. discriminate.
Qed.

Lemma critical_functions_mem (func_name : string) :
  bool_decide (func_name ∈ logic_rules.FunctionReturnRule.critical_functions)
  = str_list_mem func_name
      ["malloc"; "calloc"; "realloc"; "fopen"; "fread"; "fwrite"; "fclose";
       "scanf"; "fscanf"; "sscanf"; "system"; "exec"; "fork"].
Proof.
  unfold logic_rules.FunctionReturnRule.critical_functions.
  destruct (str_list_mem func_name _) eqn:E.
  - apply bool_decide_eq_true_2. apply elem_of_list_to_set.
    apply list_elem_of_In. apply str_list_mem_In. exact E.
  - apply bool_decide_eq_false_2. intros H.
    apply elem_of_list_to_set, list_elem_of_In, str_list_mem_In in H.
    congruence.
Qed.

Lemma is_return_value_used_eq (call_node : NodeRef) :
  logic_rules.FunctionReturnRule._is_return_value_used call_node
  = match parent call_node with
    | Some p =>
        str_list_mem (type_of p)
          ["assignment_expression"; "if_statement"; "while_statement";
           "for_statement"; "binary_expression"; "init_declarator"]
    | None => false
    end.
Proof.
  unfold logic_rules.FunctionReturnRule._is_return_value_used, str_list_mem.
  destruct (parent call_node) as [p|]; [|reflexivity].
  cbn [existsb].
  destruct (String.eqb (type_of p) "assignment_expression");
    destruct (String.eqb (type_of p) "if_statement");
    destruct (String.eqb (type_of p) "while_statement");
    destruct (String.eqb (type_of p) "for_statement");
    destruct (String.eqb (type_of p) "binary_expression");
    destruct (String.eqb (type_of p) "init_declarator"); reflexivity.
Qed.

Lemma unchecked_check_call (self : BaseRule) (file_info : FileInfo)
  (call_node : NodeRef) :
  logic_rules.FunctionReturnRule.check_call self file_info call_node
  = Ok (match spec.unchecked_report self file_info call_node with
        | Some issue => [issue]
        | None => []
        end).
Proof.
  unfold logic_rules.FunctionReturnRule.check_call, spec.unchecked_report,
    spec.callee.
  destruct (children_of call_node) as [|f rest]; [reflexivity|].
  cbn [mbind option_bind].
  rewrite critical_functions_mem, is_return_value_used_eq.
  destruct (str_list_mem (get_node_text f (content file_info)) _);
    [|reflexivity].
  cbn [andb].
  destruct (negb _); [|reflexivity].
  rewrite create_issue_eq. reflexivity.
Qed.

Lemma malloc_calls_eq (func_node : NodeRef) (content : string) :
  map memory_rules.MemoryLeakRule.malloc_node
      (memory_rules.MemoryLeakRule._find_malloc_in_function func_node content)
  = spec.calls_to
      (fun name => str_list_mem name ["malloc"; "calloc"; "realloc"])
      func_node content.
Proof.
  unfold memory_rules.MemoryLeakRule._find_malloc_in_function, spec.calls_to,
    spec.callee.
  induction (find_nodes_by_type func_node "call_expression") as [|c cs IH];
    cbn [flat_map List.filter]; [reflexivity|].
  rewrite map_app, IH.
  destruct (children_of c) as [|f rest]; [reflexivity|].
  destruct (str_list_mem (get_node_text f content) _); reflexivity.
Qed.

Lemma free_calls_eq (func_node : NodeRef) (content : string) :
  map memory_rules.MemoryLeakRule.free_node
      (memory_rules.MemoryLeakRule._find_free_in_function func_node content)
  = spec.calls_to (fun name => String.eqb name "free") func_node content.
Proof.
  unfold memory_rules.MemoryLeakRule._find_free_in_function, spec.calls_to,
    spec.callee.
  induction (find_nodes_by_type func_node "call_expression") as [|c cs IH];
    cbn [flat_map List.filter]; [reflexivity|].
  rewrite map_app, IH.
  destruct (children_of c) as [|f rest]; [reflexivity|].
  destruct (String.eqb (get_node_text f content) "free"); reflexivity.
Qed.

Lemma leak_check_function (self : BaseRule) (file_info : FileInfo)
  (func_info : FunctionInfo) :
  memory_rules.MemoryLeakRule.check_function self file_info func_info
  = Ok (match spec.leak_report self file_info func_info with
        | Some issue => [issue]
        | None => []
        end).
Proof.
  unfold memory_rules.MemoryLeakRule.check_function, spec.leak_report.
  cbv zeta.
  rewrite <- malloc_calls_eq, <- free_calls_eq. unfold len.
  rewrite !List.length_map.
  set (mallocs := memory_rules.MemoryLeakRule._find_malloc_in_function _ _).
  set (frees := memory_rules.MemoryLeakRule._find_free_in_function _ _).
  destruct (Z.of_nat (length mallocs) >? Z.of_nat (length frees)) eqn:E.
  - assert (El : (length frees <? length mallocs)%nat = true)
      by (apply Nat.ltb_lt; lia).
    rewrite El. destruct mallocs as [|m ms]; [reflexivity|].
    cbn [map head option_map]. rewrite create_issue_eq. reflexivity.
  - assert (El : (length frees <? length mallocs)%nat = false)
      by (apply Nat.ltb_ge; lia).
    rewrite El. reflexivity.
Qed.

End Calls.

(** X23: [BufferOverflowRule.check] never raises (the dictionary is read
    only at keys it holds) and returns, in document order, one issue for
    every call expression whose callee text is [strcpy], [strcat],
    [sprintf], [scanf] or [gets], and no other: on the call, with the
    rule's severity, naming the function and suggesting [strncpy],
    [strncat], [snprintf], [fgets + sscanf] or [fgets] in its place. *)
Theorem buffer_overflow_check (self : BaseRule) (file_info : FileInfo) :
  memory_rules.BufferOverflowRule.check self file_info
  = Ok (omap (spec.overflow_report self file_info)
             (find_nodes_by_type (root_node file_info) "call_expression"))
  /\ (forall func_name alternative,
        memory_rules.BufferOverflowRule.dangerous_functions !! func_name
        = Some alternative
        <-> In (func_name, alternative)
               [("strcpy", "strncpy"); ("strcat", "strncat");
                ("sprintf", "snprintf"); ("scanf", "fgets + sscanf");
                ("gets", "fgets")]).
Proof.
  split.
  - unfold memory_rules.BufferOverflowRule.check. apply for_extend_omap.
    intros c _. apply overflow_check_call.
  - intros name alt. rewrite dangerous_functions_lookup.
    unfold spec.safer_alternative. cbn [In]. split.
    + repeat match goal with
             | |- context [String.eqb name ?k] =>
                 let E := fresh "E" in
                 destruct (String.eqb name k) eqn:E;
                 [apply String.eqb_eq in E; subst name;
                  let H := fresh in intros H; injection H as <-; tauto|]
             end.
      discriminate.
    + intros H.
      repeat (destruct H as [H|H]; [injection H as <- <-; reflexivity|]).
      destruct H.
Qed.

(** X24: [MemoryLeakRule.check] never raises and reports per function of
    [find_function_definitions], in order: nothing for a function with at
    least as many calls of [free] as calls of [malloc], [calloc] or
    [realloc] below it (whatever they allocate or free), otherwise exactly
    one issue, on its first allocation call in document order, naming the
    function; so there are at most as many issues as functions. *)
Theorem memory_leak_check (self : BaseRule) (file_info : FileInfo) :
  exists issues,
    memory_rules.MemoryLeakRule.check self file_info = Ok issues
    /\ issues
       = omap (spec.leak_report self file_info)
              (find_function_definitions (root_node file_info))
    /\ (length issues
        <= length (find_nodes_by_type (root_node file_info)
                                      "function_definition"))%nat.
Proof.
  eexists. split; [|split; [reflexivity|]].
  - unfold memory_rules.MemoryLeakRule.check. apply for_extend_omap.
    intros f _. apply leak_check_function.
  - etransitivity; [apply omap_length_le|].
    unfold find_function_definitions. apply omap_length_le.
Qed.

(** X25: [FunctionReturnRule.check] never raises and returns, in document
    order, one issue for every call expression whose callee text is one of
    the thirteen listed functions and whose parent is not an assignment,
    an [if], [while] or [for] statement, a binary expression or an init
    declarator, and no other; a call without parent is reported. *)
Theorem function_return_check (self : BaseRule) (file_info : FileInfo) :
  logic_rules.FunctionReturnRule.check self file_info
  = Ok (omap (spec.unchecked_report self file_info)
             (find_nodes_by_type (root_node file_info) "call_expression")).
Proof.
  unfold logic_rules.FunctionReturnRule.check. apply for_extend_omap.
  intros c _. apply unchecked_check_call.
Qed.

(** ** The rules over allocations, frees and declarations *)

Section Pointers.

Lemma for_extend_app {A B : Type} (f : A -> Result (list B))
  (l1 l2 : list A) :
  for_extend f (l1 ++ l2)
  = Py.bind (for_extend f l1)
            (fun ys => Py.bind (for_extend f l2)
                               (fun zs => Ok (ys ++ zs)%list)).
Proof.
  induction l1 as [|x l1 IH]; cbn [for_extend List.app Py.bind].
  - destruct (for_extend f l2); reflexivity.
  - rewrite IH. destruct (f x) as [ys|e]; cbn [Py.bind]; [|reflexivity].
    destruct (for_extend f l1) as [ys1|e]; cbn [Py.bind]; [|reflexivity].
    destruct (for_extend f l2) as [ys2|e]; cbn [Py.bind]; [|reflexivity].
    rewrite List.app_assoc. reflexivity.
Qed.

(** A loop over the entries of a collecting loop is a loop over what was
    collected from. *)
Lemma for_extend_flat_map {A B C : Type} (f : B -> Result (list C))
  (g : A -> list B) (h : A -> list C) (l : list A) :
  (forall x, In x l -> for_extend f (g x) = Ok (h x)) ->
  for_extend f (flat_map g l) = Ok (flat_map h l).
Proof.
  induction l as [|x l IH]; intros H; cbn [flat_map]; [reflexivity|].
  rewrite for_extend_app, (H x) by (left; reflexivity).
  rewrite IH by (intros y Hy; apply H; right; exact Hy). reflexivity.
Qed.

Lemma flat_map_option {A B : Type} (g : A -> option B) (l : list A) :
  flat_map (fun x => match g x with
                     | Some y => [y]
                     | None => []
                     end) l
  = omap g l.
Proof.
  induction l as [|x l IH]; cbn; [reflexivity|].
  rewrite IH. destruct (g x); reflexivity.
Qed.

Lemma some_parent_existsb (test : Node -> bool) (above : list Node) :
  some_parent test above = existsb test above.
Proof.
  induction above as [|a above IH]; cbn; [reflexivity|].
  destruct (test a); [reflexivity | exact IH].
Qed.

Lemma null_check_after_eq (file_info : FileInfo)
  (call_info : memory_rules.NullPointerRule.MallocCall) :
  memory_rules.NullPointerRule.call_line call_info
  = Z.of_nat (row_of (memory_rules.NullPointerRule.call_node call_info)) + 1 ->
  memory_rules.NullPointerRule._has_null_check_after
    call_info (root_node file_info) (content file_info)
  = spec.null_checked file_info
      (memory_rules.NullPointerRule.call_node call_info).
Proof.
  intros Hl.
  unfold memory_rules.NullPointerRule._has_null_check_after,
    spec.null_checked.
  rewrite Hl. cbv zeta.
  induction (find_nodes_by_type (root_node file_info) "if_statement")
    as [|s ss IH]; cbn [existsb]; [reflexivity|].
  rewrite IH. f_equal.
  set (c := row_of (memory_rules.NullPointerRule.call_node call_info)).
  destruct (Z.of_nat (row_of s) + 1 >? Z.of_nat c + 1) eqn:E1;
    destruct (Z.of_nat (row_of s) + 1 - (Z.of_nat c + 1) <=? 5) eqn:E2;
    destruct (c <? row_of s)%nat eqn:E3;
    destruct (row_of s <=? c + 5)%nat eqn:E4;
    cbn [andb]; try reflexivity; exfalso;
    rewrite ?Nat.ltb_lt, ?Nat.ltb_ge, ?Nat.leb_le, ?Nat.leb_gt in *; lia.
Qed.

Lemma null_pointer_calls (self : BaseRule) (file_info : FileInfo)
  (c : NodeRef) :
  for_extend
    (memory_rules.NullPointerRule.check_call self file_info)
    match children_of c with
    | func_node :: _ =>
        if str_list_mem (get_node_text func_node (content file_info))
             ["malloc"; "calloc"; "realloc"; "strdup"]
        then [memory_rules.NullPointerRule.mkMallocCall
                c func_node (get_node_text func_node (content file_info))
                (Z.of_nat (row_of c) + 1)]
        else []
    | [] => []
    end
  = Ok match spec.allocation_report self file_info c with
       | Some issue => [issue]
       | None => []
       end.
Proof.
  unfold spec.allocation_report, spec.callee.
  destruct (children_of c) as [|f rest]; [reflexivity|].
  cbn [mbind option_bind].
  destruct (str_list_mem (get_node_text f (content file_info)) _);
    [|reflexivity].
  cbn [for_extend andb].
  unfold memory_rules.NullPointerRule.check_call.
  rewrite null_check_after_eq by reflexivity.
  cbn [memory_rules.NullPointerRule.call_node
       memory_rules.NullPointerRule.call_function_name].
  destruct (negb _); [|reflexivity].
  rewrite create_issue_eq. reflexivity.
Qed.

Lemma type_keywords_mem (name : string) :
  logic_rules.UnusedVariableRule._is_likely_type_name name
  = str_list_mem name
      ["int"; "char"; "float"; "double"; "void"; "long"; "short";
       "unsigned"; "signed"; "const"; "volatile"; "static"; "extern"].
Proof.
  unfold logic_rules.UnusedVariableRule._is_likely_type_name,
    logic_rules.UnusedVariableRule.type_keywords.
  destruct (str_list_mem name _) eqn:E.
  - apply bool_decide_eq_true_2. apply elem_of_list_to_set.
    apply list_elem_of_In. apply str_list_mem_In. exact E.
  - apply bool_decide_eq_false_2. intros H.
    apply elem_of_list_to_set, list_elem_of_In, str_list_mem_In in H.
    congruence.
Qed.

Lemma collected_usages (content name : string) (ids : list NodeRef) :
  forall used : gset string,
    name ∈ fold_left
             (fun used_vars identifier =>
                if negb (logic_rules.UnusedVariableRule._is_in_declaration
                           identifier)
                then {[ get_node_text identifier content ]} ∪ used_vars
                else used_vars)
             ids used
    <-> name ∈ used
        \/ existsb
             (fun identifier =>
                negb (existsb (fun p => String.eqb (type p) "declaration")
                              (ancestors identifier))
                && String.eqb (get_node_text identifier content) name)
             ids = true.
Proof.
  induction ids as [|i ids IH]; intros used; cbn [fold_left existsb].
  - split; [auto | intros [H|H]; [exact H | discriminate]].
  - rewrite IH. unfold logic_rules.UnusedVariableRule._is_in_declaration.
    rewrite some_parent_existsb.
    destruct (existsb _ (ancestors i)); cbn [negb andb orb]; [reflexivity|].
    rewrite elem_of_union, elem_of_singleton, orb_true_iff, String.eqb_eq.
    split; [intros [[H|H]|H] | intros [H|[H|H]]]; auto.
Qed.

Lemma usages_mem (func_node : NodeRef) (content name : string) :
  bool_decide
    (name ∈ logic_rules.UnusedVariableRule._collect_variable_usages
              func_node content)
  = spec.used_outside_declarations func_node content name.
Proof.
  unfold logic_rules.UnusedVariableRule._collect_variable_usages,
    spec.used_outside_declarations.
  destruct (existsb _ (find_nodes_by_type func_node "identifier")) eqn:E.
  - apply bool_decide_eq_true_2. apply collected_usages. right. exact E.
  - apply bool_decide_eq_false_2. intros H. apply collected_usages in H.
    destruct H as [H|H]; [|congruence].
    apply elem_of_empty in H. exact H.
Qed.

Lemma unused_function (self : BaseRule) (file_info : FileInfo)
  (func_node : NodeRef) :
  for_extend
    (logic_rules.UnusedVariableRule.check_variable
       self file_info
       (logic_rules.UnusedVariableRule._collect_variable_usages
          func_node (content file_info)))
    (logic_rules.UnusedVariableRule._collect_variable_declarations
       func_node (content file_info))
  = Ok (spec.unused_reports self file_info func_node).
Proof.
  unfold logic_rules.UnusedVariableRule._collect_variable_declarations,
    spec.unused_reports. cbv zeta.
  apply for_extend_flat_map. intros d _.
  unfold logic_rules.UnusedVariableRule._extract_variable_names_from_declaration.
  induction (find_nodes_by_type d "identifier") as [|i ids IH];
    cbn [flat_map map]; [reflexivity|].
  rewrite map_app, for_extend_app, IH. rewrite type_keywords_mem.
  destruct (str_list_mem (get_node_text i (content file_info)) _);
    cbn [negb andb map for_extend Py.bind List.app]; [reflexivity|].
  unfold logic_rules.UnusedVariableRule.check_variable.
  cbn [logic_rules.UnusedVariableRule.declared_name
       logic_rules.UnusedVariableRule.declared_node].
  rewrite usages_mem.
  destruct (spec.used_outside_declarations _ _ _); cbn [negb Py.bind];
    [reflexivity|].
  rewrite create_issue_eq. reflexivity.
Qed.

Lemma freed_variable_eq
  (free_call : memory_rules.UseAfterFreeRule.FreeCall) (content : string) :
  memory_rules.UseAfterFreeRule._get_freed_variable free_call content
  = spec.freed_variable content
      (memory_rules.UseAfterFreeRule.free_node free_call).
Proof.
  unfold memory_rules.UseAfterFreeRule._get_freed_variable,
    spec.freed_variable.
  destruct (children_of _) as [|f [|args rest]]; try reflexivity.
  destruct (String.eqb (type_of args) "argument_list"); [|reflexivity].
  cbn [andb]. unfold len.
  destruct (children_of args) as [|a more]; [reflexivity|].
  cbn [length]. destruct (0 <? Z.of_nat (S (length more))) eqn:E;
    [|apply Z.ltb_ge in E; lia].
  destruct (List.find _ (a :: more)); reflexivity.
Qed.

Lemma is_null_assignment_eq (var_ref : VariableReference) (content : string) :
  memory_rules.UseAfterFreeRule._is_null_assignment var_ref content
  = spec.nulled content (ref_node var_ref).
Proof.
  unfold memory_rules.UseAfterFreeRule._is_null_assignment, spec.nulled.
  induction (ancestors (ref_node var_ref)) as [|a above IH];
    cbn [memory_rules.UseAfterFreeRule.first_assignment List.find];
    [reflexivity|].
  destruct (String.eqb (type a) "assignment_expression"); cbn [negb];
    [reflexivity | exact IH].
Qed.

Lemma usage_after_free_eq (func_node : NodeRef)
  (free_call : memory_rules.UseAfterFreeRule.FreeCall)
  (var_name content : string) :
  memory_rules.UseAfterFreeRule.free_line free_call
  = Z.of_nat (row_of (memory_rules.UseAfterFreeRule.free_node free_call)) + 1 ->
  memory_rules.UseAfterFreeRule._has_usage_after_free
    func_node free_call var_name content
  = spec.used_below func_node content
      (memory_rules.UseAfterFreeRule.free_node free_call) var_name.
Proof.
  intros Hl.
  unfold memory_rules.UseAfterFreeRule._has_usage_after_free,
    spec.used_below, find_variable_references.
  rewrite Hl. cbv zeta.
  induction (find_nodes_by_type func_node "identifier") as [|i ids IH];
    cbn [flat_map existsb]; [reflexivity|].
  rewrite existsb_app, IH. f_equal.
  destruct (String.eqb (get_node_text i content) var_name);
    cbn [existsb andb orb]; [|reflexivity].
  rewrite orb_false_r. cbn [ref_line].
  rewrite is_null_assignment_eq. cbn [ref_node].
  set (c := row_of (memory_rules.UseAfterFreeRule.free_node free_call)).
  destruct (Z.of_nat (row_of i) + 1 >? Z.of_nat c + 1) eqn:E1;
    destruct (c <? row_of i)%nat eqn:E3; try reflexivity; exfalso;
    rewrite ?Nat.ltb_lt, ?Nat.ltb_ge in *; lia.
Qed.

Lemma use_after_free_function (self : BaseRule) (file_info : FileInfo)
  (func_node : NodeRef) :
  for_extend
    (memory_rules.UseAfterFreeRule.check_free self file_info func_node)
    (memory_rules.UseAfterFreeRule._find_free_calls_in_function
       func_node (content file_info))
  = Ok (omap (spec.use_after_free_report self file_info func_node)
             (find_nodes_by_type func_node "call_expression")).
Proof.
  unfold memory_rules.UseAfterFreeRule._find_free_calls_in_function.
  rewrite <- flat_map_option. apply for_extend_flat_map. intros c _.
  unfold spec.use_after_free_report, spec.callee. cbv zeta.
  destruct (children_of c) as [|f rest] eqn:Ec; [reflexivity|].
  cbn [mbind option_bind].
  destruct (String.eqb (get_node_text f (content file_info)) "free");
    [|reflexivity].
  cbn [for_extend]. unfold memory_rules.UseAfterFreeRule.check_free.
  rewrite freed_variable_eq.
  cbn [memory_rules.UseAfterFreeRule.free_node].
  destruct (spec.freed_variable (content file_info) c) as [v|];
    cbn [mbind option_bind Py.bind]; [|reflexivity].
  destruct (negb (String.eqb v "")); cbn [andb]; [|reflexivity].
  rewrite usage_after_free_eq by reflexivity.
  cbn [memory_rules.UseAfterFreeRule.free_node].
  destruct (spec.used_below _ _ _ _); [|reflexivity].
  rewrite create_issue_eq. reflexivity.
Qed.

End Pointers.

(** X27: [NullPointerRule.check] never raises and returns, in document
    order, one issue for every call expression whose callee text is
    [malloc], [calloc], [realloc] or [strdup], unless some [if] statement
    of the file (any one, whatever it tests) starts one to five lines
    below the call's line and has a text containing [NULL] or [!=]; the
    assignments of NULL and the dereferences the check collects first have
    no part in the result. *)
Theorem null_pointer_check (self : BaseRule) (file_info : FileInfo) :
  memory_rules.NullPointerRule.check self file_info
  = Ok (omap (spec.allocation_report self file_info)
             (find_nodes_by_type (root_node file_info) "call_expression")).
Proof.
  unfold memory_rules.NullPointerRule.check,
    memory_rules.NullPointerRule._find_malloc_calls. cbv zeta.
  rewrite <- flat_map_option. apply for_extend_flat_map.
  intros c _. apply null_pointer_calls.
Qed.

(** X28: [UnusedVariableRule.check] never raises and returns, for every
    function of [find_function_definitions], every declaration below it
    and every identifier below the declaration, in document order, one
    issue on the declaration when the identifier's text is none of the
    thirteen type keywords and is not the text of an identifier of the
    function that lies outside every declaration (an occurrence in the
    initialiser of a declaration does not count as a use). *)
Theorem unused_variable_check (self : BaseRule) (file_info : FileInfo) :
  logic_rules.UnusedVariableRule.check self file_info
  = Ok (flat_map (fun func_info =>
                    spec.unused_reports self file_info (fn_node func_info))
                 (find_function_definitions (root_node file_info))).
Proof.
  unfold logic_rules.UnusedVariableRule.check. cbv zeta.
  apply for_extend_flat. intros f _. apply unused_function.
Qed.

(** X29: [UseAfterFreeRule.check] never raises and returns, for every
    function of [find_function_definitions] and every call expression
    below it, in document order, one issue on the call when its callee
    text is [free], the first identifier among its arguments has a
    non-empty text, and some identifier of the function with that text
    lies on a line below the call's line without an assignment expression
    around it whose text contains [NULL] or [= 0]; uses on the line of the
    call itself are not seen. *)
Theorem use_after_free_check (self : BaseRule) (file_info : FileInfo) :
  memory_rules.UseAfterFreeRule.check self file_info
  = Ok (flat_map
          (fun func_info =>
             omap (spec.use_after_free_report self file_info
                     (fn_node func_info))
                  (find_nodes_by_type (fn_node func_info) "call_expression"))
          (find_function_definitions (root_node file_info))).
Proof.
  unfold memory_rules.UseAfterFreeRule.check. cbv zeta.
  apply for_extend_flat. intros f _. apply use_after_free_function.
Qed.

(** ** The checks never raise *)

Section NoRaise.








End NoRaise.


(** ** The files a rule applies to *)

Section Applicable.
Local Arguments String.append !_ _ / : simpl nomatch.

Lemma rfind_char_app (c : ascii) (s t : string) :
  rfind_char c (s ++ t)
  = match rfind_char c t with
    | Some i => Some (String.length s + i)%nat
    | None => rfind_char c s
    end.
Proof.
  induction s as [|d s IH]; cbn [String.append rfind_char String.length].
  - destruct (rfind_char c t); reflexivity.
  - rewrite IH. destruct (rfind_char c t); reflexivity.
Qed.

Lemma substring_whole (s : string) (n : nat) :
  (String.length s <= n)%nat -> String.substring 0 n s = s.
Proof.
  revert n. induction s as [|c s IH]; intros [|n] H; cbn in *;
    try reflexivity; try lia.
  rewrite IH by lia. reflexivity.
Qed.

Lemma substring_after (s t : string) (n : nat) :
  String.substring (String.length s) n (s ++ t) = String.substring 0 n t.
Proof.
  induction s as [|c s IH]; cbn [String.append String.length String.substring];
    [reflexivity | exact IH].
Qed.

(** The characters [lower] may change are neither the dot nor the
    slash, and it makes neither of them. *)
Lemma lower_char_plain (c : ascii) :
  (Ascii.eqb (lower_char c) "."%char = Ascii.eqb c "."%char)
  /\ (Ascii.eqb (lower_char c) "/"%char = Ascii.eqb c "/"%char).
Proof.
  destruct c as [[] [] [] [] [] [] [] []]; split; vm_compute; reflexivity.
Qed.

Lemma rfind_char_lower (c : ascii) (s : string) :
  c = "."%char \/ c = "/"%char ->
  rfind_char c (lower s) = rfind_char c s.
Proof.
  intros Hc. induction s as [|d s IH]; cbn [lower rfind_char]; [reflexivity|].
  rewrite IH. destruct (lower_char_plain d) as [H1 H2].
  destruct Hc as [->| ->]; rewrite ?H1, ?H2; reflexivity.
Qed.

Lemma length_lower (s : string) : String.length (lower s) = String.length s.
Proof. induction s as [|c s IH]; cbn; congruence. Qed.

(** What the suffix test needs of an extension. *)
Lemma extension_shape (ext : string) :
  In (lower ext) [".c"; ".h"; ".cpp"; ".hpp"; ".cc"; ".cxx"] ->
  rfind_char "."%char ext = Some O
  /\ rfind_char "/"%char ext = None
  /\ (2 <= String.length ext)%nat.
Proof.
  intros H.
  rewrite <- (rfind_char_lower "."%char ext) by (left; reflexivity).
  rewrite <- (rfind_char_lower "/"%char ext) by (right; reflexivity).
  rewrite <- (length_lower ext).
  cbn [In] in H.
  repeat (destruct H as [<-|H]; [repeat split; cbn; lia|]).
  destruct H.
Qed.

Lemma append_empty (s : string) : s ++ "" = s.
Proof. induction s as [|c t IH]; cbn [String.append]; congruence. Qed.

Lemma path_name_of (dir name : string) :
  dir = "" \/ (exists parent_dir, dir = parent_dir ++ "/") ->
  rfind_char "/"%char name = None ->
  path_name (dir ++ name) = name.
Proof.
  intros Hdir Hno. unfold path_name. rewrite rfind_char_app, Hno.
  destruct Hdir as [->|[q ->]].
  - cbn [rfind_char String.append]. reflexivity.
  - rewrite rfind_char_app. cbn [rfind_char Ascii.eqb Bool.eqb].
    rewrite Nat.add_0_r.
    replace (S (String.length q)) with (String.length (q ++ "/"))
      by (rewrite length_append; cbn; lia).
    rewrite substring_after. apply substring_whole.
    rewrite !length_append. lia.
Qed.

Lemma suffix_of_name (stem ext : string) :
  stem <> "" ->
  rfind_char "/"%char stem = None ->
  In (lower ext) [".c"; ".h"; ".cpp"; ".hpp"; ".cc"; ".cxx"] ->
  forall dir,
    dir = "" \/ (exists parent_dir, dir = parent_dir ++ "/") ->
    suffix (dir ++ stem ++ ext) = ext.
Proof.
  intros Hstem Hslash Hext dir Hdir.
  destruct (extension_shape ext Hext) as (Hdot & Hno & Hlen).
  unfold suffix. rewrite (path_name_of dir (stem ++ ext) Hdir)
    by (rewrite rfind_char_app, Hno; exact Hslash).
  rewrite rfind_char_app, Hdot, Nat.add_0_r.
  assert (Hpos : (0 <? String.length stem)%nat = true).
  { apply Nat.ltb_lt. destruct stem; [contradiction | cbn; lia]. }
  assert (Hend : (String.length stem <? String.length (stem ++ ext) - 1)%nat
                 = true).
  { apply Nat.ltb_lt. rewrite length_append. lia. }
  rewrite Hpos, Hend. cbn [andb].
  rewrite substring_after. apply substring_whole. rewrite length_append. lia.
Qed.

End Applicable.

(** X30: which files the rules apply to.  [is_applicable] never raises and
    reads the path only; a file whose final path component is a non-empty
    stem followed by one of the extensions [.c], [.h], [.cpp], [.hpp],
    [.cc], [.cxx] in any letter case (as main.C or util.Hpp) applies,
    whatever the directory and whatever dots the stem has; a file whose
    final component has no dot does not. *)
Theorem is_applicable_by_extension (self : BaseRule) (file_info : FileInfo)
  (dir stem ext : string) :
  path file_info = dir ++ stem ++ ext ->
  dir = "" \/ (exists parent_dir, dir = parent_dir ++ "/") ->
  stem <> "" ->
  rfind_char "/"%char stem = None ->
  (In (lower ext) [".c"; ".h"; ".cpp"; ".hpp"; ".cc"; ".cxx"] ->
   is_applicable self file_info = Ok true)
  /\ (ext = "" -> rfind_char "."%char stem = None ->
      is_applicable self file_info = Ok false).
Proof.
  intros Hp Hdir Hstem Hslash. unfold is_applicable. rewrite Hp. split.
  - intros Hext. rewrite (suffix_of_name stem ext Hstem Hslash Hext dir Hdir).
    f_equal. apply str_list_mem_In. exact Hext.
  - intros -> Hdot.
    rewrite append_empty. unfold suffix.
    rewrite (path_name_of dir stem Hdir Hslash), Hdot. reflexivity.
Qed.

Lemma is_applicable_by_extension_witness :
  is_applicable logic_rules.DivisionByZeroRule.init
    (mkFileInfo "src/drivers/uart.v2.CPP" "" (root_node samples.div_guarded)
                [""] 1 "utf-8")
  = Ok true.
Proof.
  apply (is_applicable_by_extension
           logic_rules.DivisionByZeroRule.init
           (mkFileInfo "src/drivers/uart.v2.CPP" ""
                       (root_node samples.div_guarded) [""] 1 "utf-8")
           "src/drivers/" "uart.v2" ".CPP").
  - reflexivity.
  - right. exists "src/drivers". reflexivity.
  - discriminate.
  - reflexivity.
  - vm_compute. tauto.
Defined.
